(** * Receiver pulse capture and calibration (fcb/src/receiver.c)

    A shallow embedding of the RC receiver module of the Dragonfly flight
    control board: the value normalizer, the input capture decoder, the
    calibration sampler, the calibration controller and the activity
    monitor, followed by the properties the specification states about
    them.

    Integers are modelled as [Z] with the wrap-around of each C conversion
    written out; the target is a 32-bit ARM core, so [int] is 32 bits wide
    and every [uint16_t] operand is promoted to [int] before arithmetic. *)

From Stdlib Require Import String Ascii ZArith List Bool Lia.
Import ListNotations.
Local Open Scope Z_scope.

(** ** Machine integers *)

Module Mach.

Definition UINT16_MAX : Z := 65535.
Definition INT16_MIN : Z := -32768.
Definition INT16_MAX : Z := 32767.

(** Conversion to [uint16_t] and to [uint32_t]. *)
Definition wrap16 (z : Z) : Z := z mod 65536.
Definition wrap32 (z : Z) : Z := z mod 4294967296.

(** Conversion to [int16_t], two's complement. *)
Definition to_int16 (z : Z) : Z :=
  let u := wrap16 z in if u <? 32768 then u else u - 65536.

Definition uint16 (z : Z) : Prop := 0 <= z < 65536.
Definition uint32 (z : Z) : Prop := 0 <= z < 4294967296.
Definition int16 (z : Z) : Prop := -32768 <= z <= 32767.
Definition int32 (z : Z) : Prop := -2147483648 <= z <= 2147483647.

End Mach.
Import Mach.

(** ** Types of receiver.h and receiver.c *)

(** [ReceiverErrorStatus]: the source tests it with [!] and returns the
    value of [&&] expressions as one, so [RECEIVER_ERROR] is 0 and
    [RECEIVER_OK] is 1. *)
Inductive ReceiverErrorStatus : Set := RECEIVER_ERROR | RECEIVER_OK.

Definition status_of_bool (b : bool) : ReceiverErrorStatus :=
  if b then RECEIVER_OK else RECEIVER_ERROR.

Definition bool_of_status (s : ReceiverErrorStatus) : bool :=
  match s with RECEIVER_OK => true | RECEIVER_ERROR => false end.

Inductive Pulse_State : Set := PULSE_LOW | PULSE_HIGH.

Inductive ICPolarity_t : Set := TIM_ICPOLARITY_RISING | TIM_ICPOLARITY_FALLING.

Inductive ReceiverCalibrationState : Set :=
  | RECEIVER_CALIBRATION_WAITING
  | RECEIVER_CALIBRATION_IN_PROGRESS.

Definition ReceiverCalibrationState_eqb (a b : ReceiverCalibrationState) : bool :=
  match a, b with
  | RECEIVER_CALIBRATION_WAITING, RECEIVER_CALIBRATION_WAITING => true
  | RECEIVER_CALIBRATION_IN_PROGRESS, RECEIVER_CALIBRATION_IN_PROGRESS => true
  | _, _ => false
  end.

Record Receiver_IC_Values_TypeDef : Set := mkICValues {
  PeriodCount : Z;                          (* uint32_t *)
  RisingCount : Z;                          (* uint16_t *)
  FallingCounter : Z;                       (* uint16_t *)
  PreviousRisingCount : Z;                  (* uint16_t *)
  PreviousRisingCountTimerPeriodCount : Z;  (* uint16_t *)
  PulseTimerCount : Z;                      (* uint16_t *)
  IsActive : ReceiverErrorStatus
}.

Record Receiver_IC_ChannelCalibrationValues_TypeDef : Set := mkChannelCalibration {
  ChannelMaxCount : Z;                      (* uint16_t *)
  ChannelMinCount : Z                       (* uint16_t *)
}.

Record Receiver_CalibrationValues_TypeDef : Set := mkCalibrationValues {
  ThrottleChannel : Receiver_IC_ChannelCalibrationValues_TypeDef;
  AileronChannel : Receiver_IC_ChannelCalibrationValues_TypeDef;
  ElevatorChannel : Receiver_IC_ChannelCalibrationValues_TypeDef;
  RudderChannel : Receiver_IC_ChannelCalibrationValues_TypeDef;
  GearChannel : Receiver_IC_ChannelCalibrationValues_TypeDef;
  Aux1Channel : Receiver_IC_ChannelCalibrationValues_TypeDef
}.

Record Receiver_ChannelCalibrationSampling_TypeDef : Set := mkSampling {
  maxSamplesBuffer : list Z;                (* uint16_t [BUFFER_SIZE] *)
  minSamplesBuffer : list Z;                (* uint16_t [BUFFER_SIZE] *)
  channelCalibrationPulseSamples : Z;       (* uint16_t *)
  tmpMaxIndex : nat;                        (* uint16_t, an array index *)
  tmpMaxBufferMinValue : Z;                 (* uint16_t *)
  tmpMinIndex : nat;                        (* uint16_t, an array index *)
  tmpMinBufferMaxValue : Z;                 (* uint16_t *)
  maxBufferUpdated : bool;
  minBufferUpdated : bool
}.

(** The six receiver channels. The source keeps one static object per
    channel and kind; [PerChannel] is that family of six. *)
Inductive Channel : Set := Throttle | Aileron | Elevator | Rudder | Gear | Aux1.

Record PerChannel (T : Type) : Type := mkPerChannel {
  ofThrottle : T; ofAileron : T; ofElevator : T;
  ofRudder : T; ofGear : T; ofAux1 : T
}.
Arguments mkPerChannel {T}.
Arguments ofThrottle {T}.
Arguments ofAileron {T}.
Arguments ofElevator {T}.
Arguments ofRudder {T}.
Arguments ofGear {T}.
Arguments ofAux1 {T}.

Definition chan {T : Type} (p : PerChannel T) (c : Channel) : T :=
  match c with
  | Throttle => ofThrottle p | Aileron => ofAileron p | Elevator => ofElevator p
  | Rudder => ofRudder p | Gear => ofGear p | Aux1 => ofAux1 p
  end.

Definition set_chan {T : Type} (p : PerChannel T) (c : Channel) (v : T) : PerChannel T :=
  match c with
  | Throttle => mkPerChannel v (ofAileron p) (ofElevator p) (ofRudder p) (ofGear p) (ofAux1 p)
  | Aileron => mkPerChannel (ofThrottle p) v (ofElevator p) (ofRudder p) (ofGear p) (ofAux1 p)
  | Elevator => mkPerChannel (ofThrottle p) (ofAileron p) v (ofRudder p) (ofGear p) (ofAux1 p)
  | Rudder => mkPerChannel (ofThrottle p) (ofAileron p) (ofElevator p) v (ofGear p) (ofAux1 p)
  | Gear => mkPerChannel (ofThrottle p) (ofAileron p) (ofElevator p) (ofRudder p) v (ofAux1 p)
  | Aux1 => mkPerChannel (ofThrottle p) (ofAileron p) (ofElevator p) (ofRudder p) (ofGear p) v
  end.

(** The file-scope state of receiver.c, with the two collaborators the
    calibration controller talks to: the record held in flash and the
    diagnostic print task. *)
Record Receiver : Type := mkReceiver {
  ChannelICConfig : PerChannel ICPolarity_t;
  ReceiverPulseStates : PerChannel Pulse_State;
  ICValues : PerChannel Receiver_IC_Values_TypeDef;
  CalibrationValues : Receiver_CalibrationValues_TypeDef;
  receiverCalibrationState : ReceiverCalibrationState;
  calibrationStartTime : Z;                 (* uint32_t *)
  CalibrationSampling : PerChannel Receiver_ChannelCalibrationSampling_TypeDef;
  PrimaryReceiverTimerPeriodCount : Z;      (* uint16_t *)
  AuxReceiverTimerPeriodCount : Z;          (* uint16_t *)
  FlashCalibrationValues : option Receiver_CalibrationValues_TypeDef;
  ReceiverPrintSamplingTaskRunning : bool;
  UsbOut : list string
}.

Definition Channel_eqb (a b : Channel) : bool :=
  match a, b with
  | Throttle, Throttle | Aileron, Aileron | Elevator, Elevator
  | Rudder, Rudder | Gear, Gear | Aux1, Aux1 => true
  | _, _ => false
  end.

(** The interrupts the module serves: a capture on a channel, with the
    captured value and the system tick read while it is served, and the
    period elapsed interrupt of one of the two timers. *)
Inductive Interrupt : Set :=
  | Capture (c : Channel) (icValue tick : Z)
  | PeriodElapsed (primary : bool).

(** The line feed that ends the messages sent over USB. *)
Definition LF : string := String "010"%char EmptyString.

(** ** Arrays *)

(** [a[i] = v]. The source only writes through [tmpMaxIndex] and
    [tmpMinIndex], which stay below the buffer size in every state of a
    calibration session ([window_ok] below); out of range the model leaves
    the array alone. *)
Fixpoint array_set (a : list Z) (i : nat) (v : Z) : list Z :=
  match a, i with
  | [], _ => []
  | _ :: t, O => v :: t
  | h :: t, S j => h :: array_set t j v
  end.

Definition array_get (a : list Z) (i : nat) : Z := nth i a 0.

(** [for (i = start; i < start + n; i++) s = body i s]. *)
Fixpoint for_loop {S : Type} (n : nat) (start : nat) (body : nat -> S -> S) (s : S) : S :=
  match n with
  | O => s
  | Datatypes.S m => for_loop m (Datatypes.S start) body (body start s)
  end.

(** Least and greatest element of a buffer of [uint16_t] values. *)
Definition buffer_min (a : list Z) : Z := fold_right Z.min UINT16_MAX a.
Definition buffer_max (a : list Z) : Z := fold_right Z.max 0 a.

(** ** Value normalizer *)

(** [GetSignedReceiverChannel], receiver.c 913-926. The subtractions are
    done on [int]; the cast and the product with [UINT16_MAX] are
    [uint32_t]; the divisor and [INT16_MIN] are converted to [uint32_t] by
    the usual arithmetic conversions; the return converts to [int16_t]. *)
Definition GetSignedReceiverChannel
    (ChannelICValues : Receiver_IC_Values_TypeDef)
    (ChannelCalibrationValues : Receiver_IC_ChannelCalibrationValues_TypeDef) : Z :=
  if PulseTimerCount ChannelICValues <? ChannelMinCount ChannelCalibrationValues then
    INT16_MIN
  else if PulseTimerCount ChannelICValues >? ChannelMaxCount ChannelCalibrationValues then
    INT16_MAX
  else if ChannelMaxCount ChannelCalibrationValues >? ChannelMinCount ChannelCalibrationValues then
    to_int16
      (wrap32
         (INT16_MIN
          + wrap32
              (wrap32 (PulseTimerCount ChannelICValues - ChannelMinCount ChannelCalibrationValues)
               * UINT16_MAX)
            / wrap32 (ChannelMaxCount ChannelCalibrationValues
                      - ChannelMinCount ChannelCalibrationValues)))
  else 0.

(** The value the normalizer is meant to compute, over the integers. *)
Definition interpolate (p lo hi : Z) : Z :=
  INT16_MIN + ((p - lo) * UINT16_MAX) / (hi - lo).

(** ** Field updates *)

Definition with_rising (v : Receiver_IC_Values_TypeDef) (icValue : Z) : Receiver_IC_Values_TypeDef :=
  mkICValues (PeriodCount v) (wrap16 icValue) (FallingCounter v) (RisingCount v)
             (PreviousRisingCountTimerPeriodCount v) (PulseTimerCount v) (IsActive v).

Definition with_PeriodCount (v : Receiver_IC_Values_TypeDef) (x : Z) : Receiver_IC_Values_TypeDef :=
  mkICValues x (RisingCount v) (FallingCounter v) (PreviousRisingCount v)
             (PreviousRisingCountTimerPeriodCount v) (PulseTimerCount v) (IsActive v).

Definition with_PreviousRisingCountTimerPeriodCount
    (v : Receiver_IC_Values_TypeDef) (x : Z) : Receiver_IC_Values_TypeDef :=
  mkICValues (PeriodCount v) (RisingCount v) (FallingCounter v) (PreviousRisingCount v)
             x (PulseTimerCount v) (IsActive v).

Definition with_FallingCounter (v : Receiver_IC_Values_TypeDef) (icValue : Z) : Receiver_IC_Values_TypeDef :=
  mkICValues (PeriodCount v) (RisingCount v) (wrap16 icValue) (PreviousRisingCount v)
             (PreviousRisingCountTimerPeriodCount v) (PulseTimerCount v) (IsActive v).

Definition with_pulse (v : Receiver_IC_Values_TypeDef) (x : Z) : Receiver_IC_Values_TypeDef :=
  mkICValues (PeriodCount v) (RisingCount v) (FallingCounter v) (PreviousRisingCount v)
             (PreviousRisingCountTimerPeriodCount v) x RECEIVER_OK.

Definition with_IsActive (v : Receiver_IC_Values_TypeDef) (a : ReceiverErrorStatus) : Receiver_IC_Values_TypeDef :=
  mkICValues (PeriodCount v) (RisingCount v) (FallingCounter v) (PreviousRisingCount v)
             (PreviousRisingCountTimerPeriodCount v) (PulseTimerCount v) a.

Definition with_max_candidate
    (s : Receiver_ChannelCalibrationSampling_TypeDef) (value : Z) (index : nat)
    : Receiver_ChannelCalibrationSampling_TypeDef :=
  mkSampling (maxSamplesBuffer s) (minSamplesBuffer s) (channelCalibrationPulseSamples s)
             index value (tmpMinIndex s) (tmpMinBufferMaxValue s)
             false (minBufferUpdated s).

Definition with_max_sample
    (s : Receiver_ChannelCalibrationSampling_TypeDef) (pulse : Z)
    : Receiver_ChannelCalibrationSampling_TypeDef :=
  mkSampling (array_set (maxSamplesBuffer s) (tmpMaxIndex s) pulse) (minSamplesBuffer s)
             (channelCalibrationPulseSamples s)
             (tmpMaxIndex s) 65535 (tmpMinIndex s) (tmpMinBufferMaxValue s)
             true (minBufferUpdated s).

Definition with_min_candidate
    (s : Receiver_ChannelCalibrationSampling_TypeDef) (value : Z) (index : nat)
    : Receiver_ChannelCalibrationSampling_TypeDef :=
  mkSampling (maxSamplesBuffer s) (minSamplesBuffer s) (channelCalibrationPulseSamples s)
             (tmpMaxIndex s) (tmpMaxBufferMinValue s) index value
             (maxBufferUpdated s) false.

Definition with_min_sample
    (s : Receiver_ChannelCalibrationSampling_TypeDef) (pulse : Z)
    : Receiver_ChannelCalibrationSampling_TypeDef :=
  mkSampling (maxSamplesBuffer s) (array_set (minSamplesBuffer s) (tmpMinIndex s) pulse)
             (channelCalibrationPulseSamples s)
             (tmpMaxIndex s) (tmpMaxBufferMinValue s) (tmpMinIndex s) 0
             (maxBufferUpdated s) true.

Definition with_one_more_sample
    (s : Receiver_ChannelCalibrationSampling_TypeDef)
    : Receiver_ChannelCalibrationSampling_TypeDef :=
  mkSampling (maxSamplesBuffer s) (minSamplesBuffer s)
             (wrap16 (channelCalibrationPulseSamples s + 1))
             (tmpMaxIndex s) (tmpMaxBufferMinValue s) (tmpMinIndex s) (tmpMinBufferMaxValue s)
             (maxBufferUpdated s) (minBufferUpdated s).

(** The objects one call of [UpdateReceiverChannel] reaches: through its
    pointer arguments the channel's IC configuration, pulse state, IC
    values and sampling window, and the file-scope calibration state. *)
Record ChannelRefs : Type := mkRefs {
  TimIC : ICPolarity_t;
  channelInputState : Pulse_State;
  ChannelICValues : Receiver_IC_Values_TypeDef;
  ChannelCalibrationSampling : Receiver_ChannelCalibrationSampling_TypeDef;
  calibrationState : ReceiverCalibrationState
}.

(** ** Sample data

    An instance of the header constants and a few states on which the
    statements below are exercised: a timer counting at 2.4 MHz, so that a
    pulse of 1 to 2 ms is 2400 to 4800 ticks and the 22 ms period is 52800
    ticks, and sampling buffers of three slots. *)

Definition example_BUFFER_SIZE : nat := 3.
Definition example_BUFFER_INIT_VALUE : Z := 3600.
Definition example_MIN_PULSE_COUNT : Z := 100.
Definition example_MAX_CALIBRATION_DURATION : Z := 30000.
Definition example_MAX_VALID_IC_PULSE_COUNT : Z := 6000.
Definition example_MIN_VALID_IC_PULSE_COUNT : Z := 1200.
Definition example_MAX_VALID_PERIOD_COUNT : Z := 60000.
Definition example_MIN_VALID_PERIOD_COUNT : Z := 40000.
Definition example_MAX_CALIBRATION_MAX_PULSE_COUNT : Z := 5600.
Definition example_MAX_CALIBRATION_MIN_PULSE_COUNT : Z := 4000.
Definition example_MIN_CALIBRATION_MAX_PULSE_COUNT : Z := 3200.
Definition example_MIN_CALIBRATION_MIN_PULSE_COUNT : Z := 1600.
Definition example_INACTIVE_PERIODS_COUNT : Z := 100.

(** Modelled from the spec: [UInt16Mean] of common.c, which is not among
    the sources; the calibration bound of a channel is "the arithmetic
    mean of its extrema buffer". *)
Definition example_UInt16Mean (buffer : list Z) (size : nat) : Z :=
  wrap16 (fold_right Z.add 0 (firstn size buffer) / Z.of_nat size).

Definition all_channels {T : Type} (x : T) : PerChannel T := mkPerChannel x x x x x x.

(** IC values that only carry a pulse width. *)
Definition pulse_only (pulse : Z) : Receiver_IC_Values_TypeDef :=
  mkICValues 0 0 0 0 0 pulse RECEIVER_ERROR.

(** An active channel whose last rising edge was captured at [rising] in
    counter period [periodCount]. *)
Definition example_ic (rising periodCount : Z) : Receiver_IC_Values_TypeDef :=
  mkICValues 52800 rising 0 0 periodCount 3600 RECEIVER_OK.

(** A window as [StartReceiverCalibration] leaves it. *)
Definition example_window : Receiver_ChannelCalibrationSampling_TypeDef :=
  mkSampling [3600; 3600; 3600] [3600; 3600; 3600] 0 0%nat 3600 0%nat 3600 false false.

Definition example_calibration : Receiver_CalibrationValues_TypeDef :=
  let c := mkChannelCalibration 4800 2400 in mkCalibrationValues c c c c c c.

Definition example_receiver
    (calibration : ReceiverCalibrationState) (pulse : Pulse_State)
    (values : PerChannel Receiver_IC_Values_TypeDef)
    (primaryPeriodCount startTime : Z) : Receiver :=
  mkReceiver
    (all_channels match pulse with
                  | PULSE_LOW => TIM_ICPOLARITY_RISING
                  | PULSE_HIGH => TIM_ICPOLARITY_FALLING
                  end)
    (all_channels pulse) values example_calibration calibration startTime
    (all_channels example_window) primaryPeriodCount 0 None
    (ReceiverCalibrationState_eqb calibration RECEIVER_CALIBRATION_IN_PROGRESS) [].

(** A calibration started at tick 1000, every channel high since a rising
    edge captured at count 1000 in counter period 7. *)
Definition example_calibrating : Receiver :=
  example_receiver RECEIVER_CALIBRATION_IN_PROGRESS PULSE_HIGH
                   (all_channels (example_ic 1000 7)) 7 1000.

(** The link is lost: in counter period 200 the throttle still pulses while
    aileron, elevator and rudder saw their last rising edge in period 7. *)
Definition example_link_lost : Receiver :=
  example_receiver RECEIVER_CALIBRATION_WAITING PULSE_LOW
                   (set_chan (all_channels (example_ic 1000 7)) Throttle (example_ic 1000 200))
                   200 0.

(** A window after 120 observations, and a calibration in which every
    channel has such a window. *)
Definition example_sampled_window : Receiver_ChannelCalibrationSampling_TypeDef :=
  mkSampling [4690; 4700; 4710] [2490; 2500; 2510] 120 0%nat 4690 2%nat 2510 false false.

Definition example_sampled : Receiver :=
  mkReceiver (all_channels TIM_ICPOLARITY_RISING) (all_channels PULSE_LOW)
             (all_channels (example_ic 1000 7)) example_calibration
             RECEIVER_CALIBRATION_IN_PROGRESS 1000
             (all_channels example_sampled_window) 7 0 None true [].

Definition example_high : ChannelRefs :=
  mkRefs TIM_ICPOLARITY_FALLING PULSE_HIGH (example_ic 1000 7) example_window
         RECEIVER_CALIBRATION_WAITING.

Definition example_low : ChannelRefs :=
  mkRefs TIM_ICPOLARITY_RISING PULSE_LOW (example_ic 20000 7) example_window
         RECEIVER_CALIBRATION_WAITING.

(** Sample values for the remaining constants: default bounds of 1 and
    2 ms, the 2.4 MHz timer clock, and the HAL identities of the capture
    channels (channels 1 to 4 of the primary timer, 1 and 2 of the
    auxiliary one). *)
Definition example_DEFAULT_MAX_COUNT : Z := 4800.
Definition example_DEFAULT_MIN_COUNT : Z := 2400.
Definition example_TIM_COUNTER_CLOCK : Z := 2400000.
Definition example_THROTTLE_ACTIVE_CHANNEL : Z := 1.
Definition example_AILERON_ACTIVE_CHANNEL : Z := 2.
Definition example_ELEVATOR_ACTIVE_CHANNEL : Z := 4.
Definition example_RUDDER_ACTIVE_CHANNEL : Z := 8.
Definition example_GEAR_ACTIVE_CHANNEL : Z := 1.
Definition example_AUX1_ACTIVE_CHANNEL : Z := 2.

(** The module before any calibration: every channel low, last rising edge
    captured at count 1000 in counter period 7. *)
Definition example_idle : Receiver :=
  example_receiver RECEIVER_CALIBRATION_WAITING PULSE_LOW
                   (all_channels (example_ic 1000 7)) 7 0.

(** A record as an erased flash page would give it. *)
Definition example_erased : Receiver_CalibrationValues_TypeDef :=
  let c := mkChannelCalibration 65535 65535 in mkCalibrationValues c c c c c c.

(** The means of the buffers of [example_sampled_window]. *)
Definition example_means : Receiver_CalibrationValues_TypeDef :=
  let c := mkChannelCalibration 4700 2500 in mkCalibrationValues c c c c c c.

(** A channel that is high while a calibration is in progress. *)
Definition example_high_calibrating : ChannelRefs :=
  mkRefs TIM_ICPOLARITY_FALLING PULSE_HIGH (example_ic 1000 7) example_window
         RECEIVER_CALIBRATION_IN_PROGRESS.

(** Pulse widths of a stick moved to both ends, and a channel with a
    period of 15 ms. *)
Definition example_pulses : list Z := [4700; 2500; 4600; 4800; 2400; 4690; 2600].

Definition example_short_period : Receiver_IC_Values_TypeDef :=
  mkICValues 36000 1000 0 0 7 3600 RECEIVER_OK.

(** Noise after a good start: each voting channel completes a pulse of
    3600 ticks, 150 counter periods pass, each voting channel sees a
    rising edge followed 100 ticks later by a falling edge, and one more
    counter period passes. *)
Definition example_noise : list Interrupt :=
  [Capture Aileron 1000 0; Capture Aileron 4600 0;
   Capture Elevator 1000 0; Capture Elevator 4600 0;
   Capture Rudder 1000 0; Capture Rudder 4600 0]
  ++ repeat (PeriodElapsed true) 150
  ++ [Capture Aileron 1000 0; Capture Aileron 1100 0;
      Capture Elevator 1000 0; Capture Elevator 1100 0;
      Capture Rudder 1000 0; Capture Rudder 1100 0]
  ++ [PeriodElapsed true].

Section ReceiverModule.

(** *** Constants of receiver.h and the helper of common.h

    The header is not part of the sources at hand; its constants are
    taken as they are named in receiver.c. All are non-negative integer
    literals. *)
Variable RECEIVER_CALIBRATION_SAMPLES_BUFFER_SIZE : nat.
Variable RECEIVER_CALIBRATION_BUFFER_INIT_VALUE : Z.
Variable RECEIVER_CALIBRATION_MIN_PULSE_COUNT : Z.
Variable RECEIVER_MAX_CALIBRATION_DURATION : Z.
Variable RECEIVER_MAX_VALID_IC_PULSE_COUNT : Z.
Variable RECEIVER_MIN_VALID_IC_PULSE_COUNT : Z.
Variable RECEIVER_MAX_VALID_PERIOD_COUNT : Z.
Variable RECEIVER_MIN_VALID_PERIOD_COUNT : Z.
Variable RECEIVER_MAX_CALIBRATION_MAX_PULSE_COUNT : Z.
Variable RECEIVER_MAX_CALIBRATION_MIN_PULSE_COUNT : Z.
Variable RECEIVER_MIN_CALIBRATION_MAX_PULSE_COUNT : Z.
Variable RECEIVER_MIN_CALIBRATION_MIN_PULSE_COUNT : Z.
Variable IS_RECEIVER_CHANNEL_INACTIVE_PERIODS_COUNT : Z.
Variable UInt16Mean : list Z -> nat -> Z.

(** *** Validation predicates *)

(** receiver.c 1407-1412; the period counts are promoted to [int], so
    their difference is not wrapped. *)
Definition IsReceiverPulseValid
    (pulseTimerCount currentPeriodCount previousPeriodCount : Z) : ReceiverErrorStatus :=
  status_of_bool
    ((pulseTimerCount <=? RECEIVER_MAX_VALID_IC_PULSE_COUNT)
     && (pulseTimerCount >=? RECEIVER_MIN_VALID_IC_PULSE_COUNT)
     && (currentPeriodCount - previousPeriodCount <=? 1)).

(** receiver.c 1419-1422. *)
Definition IsReceiverPeriodValid (periodTimerCount : Z) : ReceiverErrorStatus :=
  status_of_bool
    ((periodTimerCount <=? RECEIVER_MAX_VALID_PERIOD_COUNT)
     && (periodTimerCount >=? RECEIVER_MIN_VALID_PERIOD_COUNT)).

(** receiver.c 1475-1481 and 1488-1494. *)
Definition IsCalibrationMaxPulseValueValid (maxPulseValue : Z) : ReceiverErrorStatus :=
  if (maxPulseValue <=? RECEIVER_MAX_CALIBRATION_MAX_PULSE_COUNT)
     && (maxPulseValue >=? RECEIVER_MAX_CALIBRATION_MIN_PULSE_COUNT)
  then RECEIVER_OK else RECEIVER_ERROR.

Definition IsCalibrationMinPulseValueValid (minPulseValue : Z) : ReceiverErrorStatus :=
  if (minPulseValue <=? RECEIVER_MIN_CALIBRATION_MAX_PULSE_COUNT)
     && (minPulseValue >=? RECEIVER_MIN_CALIBRATION_MIN_PULSE_COUNT)
  then RECEIVER_OK else RECEIVER_ERROR.

Definition channel_calibration_valid
    (c : Receiver_IC_ChannelCalibrationValues_TypeDef) : bool :=
  bool_of_status (IsCalibrationMaxPulseValueValid (ChannelMaxCount c))
  && bool_of_status (IsCalibrationMinPulseValueValid (ChannelMinCount c)).

(** receiver.c 1429-1468: the twelve checks in channel order, the first
    failure returning [RECEIVER_ERROR]. *)
Definition IsCalibrationValuesValid
    (calibrationValues : Receiver_CalibrationValues_TypeDef) : ReceiverErrorStatus :=
  if negb (channel_calibration_valid (ThrottleChannel calibrationValues)) then RECEIVER_ERROR
  else if negb (channel_calibration_valid (AileronChannel calibrationValues)) then RECEIVER_ERROR
  else if negb (channel_calibration_valid (ElevatorChannel calibrationValues)) then RECEIVER_ERROR
  else if negb (channel_calibration_valid (RudderChannel calibrationValues)) then RECEIVER_ERROR
  else if negb (channel_calibration_valid (GearChannel calibrationValues)) then RECEIVER_ERROR
  else if negb (channel_calibration_valid (Aux1Channel calibrationValues)) then RECEIVER_ERROR
  else RECEIVER_OK.

(** *** Calibration sampler *)

(** receiver.c 1521-1535. *)
Definition ResetCalibrationSampling
    (channelCalibrationSampling : Receiver_ChannelCalibrationSampling_TypeDef)
    : Receiver_ChannelCalibrationSampling_TypeDef :=
  mkSampling
    (repeat RECEIVER_CALIBRATION_BUFFER_INIT_VALUE RECEIVER_CALIBRATION_SAMPLES_BUFFER_SIZE)
    (repeat RECEIVER_CALIBRATION_BUFFER_INIT_VALUE RECEIVER_CALIBRATION_SAMPLES_BUFFER_SIZE)
    0
    0%nat RECEIVER_CALIBRATION_BUFFER_INIT_VALUE
    0%nat RECEIVER_CALIBRATION_BUFFER_INIT_VALUE
    false false.

(** Body of the loop at receiver.c 1276-1282. *)
Definition find_max_buffer_min (i : nat) (s : Receiver_ChannelCalibrationSampling_TypeDef)
    : Receiver_ChannelCalibrationSampling_TypeDef :=
  if tmpMaxBufferMinValue s >? array_get (maxSamplesBuffer s) i
  then with_max_candidate s (array_get (maxSamplesBuffer s) i) i
  else s.

(** Body of the loop at receiver.c 1294-1300. *)
Definition find_min_buffer_max (i : nat) (s : Receiver_ChannelCalibrationSampling_TypeDef)
    : Receiver_ChannelCalibrationSampling_TypeDef :=
  if tmpMinBufferMaxValue s <? array_get (minSamplesBuffer s) i
  then with_min_candidate s (array_get (minSamplesBuffer s) i) i
  else s.

(** receiver.c 1274-1290, the maximum side. *)
Definition update_max_samples
    (s : Receiver_ChannelCalibrationSampling_TypeDef) (channelPulseTimerCount : Z)
    : Receiver_ChannelCalibrationSampling_TypeDef :=
  let s1 :=
    if maxBufferUpdated s
    then for_loop RECEIVER_CALIBRATION_SAMPLES_BUFFER_SIZE 0 find_max_buffer_min s
    else s in
  if channelPulseTimerCount >? tmpMaxBufferMinValue s1
  then with_max_sample s1 channelPulseTimerCount
  else s1.

(** receiver.c 1292-1308, the minimum side. *)
Definition update_min_samples
    (s : Receiver_ChannelCalibrationSampling_TypeDef) (channelPulseTimerCount : Z)
    : Receiver_ChannelCalibrationSampling_TypeDef :=
  let s1 :=
    if minBufferUpdated s
    then for_loop RECEIVER_CALIBRATION_SAMPLES_BUFFER_SIZE 0 find_min_buffer_max s
    else s in
  if channelPulseTimerCount <? tmpMinBufferMaxValue s1
  then with_min_sample s1 channelPulseTimerCount
  else s1.

(** receiver.c 1269-1314. *)
Definition UpdateChannelCalibrationSamples
    (channelCalibrationSampling : Receiver_ChannelCalibrationSampling_TypeDef)
    (channelPulseTimerCount : Z)
    : Receiver_ChannelCalibrationSampling_TypeDef * ReceiverErrorStatus :=
  (with_one_more_sample
     (update_min_samples
        (update_max_samples channelCalibrationSampling channelPulseTimerCount)
        channelPulseTimerCount),
   RECEIVER_OK).

(** *** Input capture decoder *)

(** The local [tempPeriodTimerCount] of receiver.c 1209-1214, computed
    once the rising counts are stored. The operands are promoted to
    [int] and the sum is stored in a [uint32_t]. *)
Definition tempPeriodTimerCount
    (v : Receiver_IC_Values_TypeDef) (ReceiverTimerPeriodCount : Z) : Z :=
  if ReceiverTimerPeriodCount >? PreviousRisingCountTimerPeriodCount v
  then wrap32 (RisingCount v + UINT16_MAX - PreviousRisingCount v
               + UINT16_MAX * (ReceiverTimerPeriodCount
                               - PreviousRisingCountTimerPeriodCount v - 1))
  else wrap32 (RisingCount v - PreviousRisingCount v).

(** The local [tempPulseTimerCount] of receiver.c 1237, a [uint16_t]. *)
Definition tempPulseTimerCount (v : Receiver_IC_Values_TypeDef) : Z :=
  wrap16 (FallingCounter v - RisingCount v).

(** receiver.c 1186-1261. [icValue] is what [HAL_TIM_ReadCapturedValue]
    returns and [tick] what [HAL_GetTick] returns. The register writes
    of [ReceiverToggleICPolarity] are those of the timer peripheral and
    are left to it; the polarity it installs is [TimIC]. *)
Definition UpdateReceiverChannel
    (r : ChannelRefs) (icValue : Z) (ReceiverTimerPeriodCount : Z)
    (startTime tick : Z) : ChannelRefs * ReceiverErrorStatus :=
  match channelInputState r with
  | PULSE_LOW =>
      let v1 := with_rising (ChannelICValues r) icValue in
      let period := tempPeriodTimerCount v1 ReceiverTimerPeriodCount in
      let valid := IsReceiverPeriodValid period in
      let v2 := if bool_of_status valid then with_PeriodCount v1 period else v1 in
      let v3 := with_PreviousRisingCountTimerPeriodCount v2 ReceiverTimerPeriodCount in
      (mkRefs TIM_ICPOLARITY_FALLING PULSE_HIGH v3
              (ChannelCalibrationSampling r) (calibrationState r),
       if bool_of_status valid then RECEIVER_OK else RECEIVER_ERROR)
  | PULSE_HIGH =>
      let v1 := with_FallingCounter (ChannelICValues r) icValue in
      let pulse := tempPulseTimerCount v1 in
      if bool_of_status
           (IsReceiverPulseValid pulse ReceiverTimerPeriodCount
              (PreviousRisingCountTimerPeriodCount v1))
      then
        let v2 := with_pulse v1 pulse in
        if ReceiverCalibrationState_eqb (calibrationState r) RECEIVER_CALIBRATION_IN_PROGRESS
        then
          if tick >? wrap32 (RECEIVER_MAX_CALIBRATION_DURATION + startTime)
          then (mkRefs TIM_ICPOLARITY_RISING PULSE_LOW v2
                       (ChannelCalibrationSampling r) RECEIVER_CALIBRATION_WAITING,
                RECEIVER_OK)
          else (mkRefs TIM_ICPOLARITY_RISING PULSE_LOW v2
                       (fst (UpdateChannelCalibrationSamples
                               (ChannelCalibrationSampling r) pulse))
                       (calibrationState r),
                RECEIVER_OK)
        else (mkRefs TIM_ICPOLARITY_RISING PULSE_LOW v2
                     (ChannelCalibrationSampling r) (calibrationState r),
              RECEIVER_OK)
      else (mkRefs TIM_ICPOLARITY_RISING PULSE_LOW v1
                   (ChannelCalibrationSampling r) (calibrationState r),
            RECEIVER_ERROR)
  end.

(** The timer a channel is captured on: the primary timer for throttle,
    aileron, elevator and rudder, the auxiliary one for gear and aux1. *)
Definition ReceiverTimerPeriodCountOf (st : Receiver) (c : Channel) : Z :=
  match c with
  | Gear | Aux1 => AuxReceiverTimerPeriodCount st
  | _ => PrimaryReceiverTimerPeriodCount st
  end.

Definition refs_of (st : Receiver) (c : Channel) : ChannelRefs :=
  mkRefs (chan (ChannelICConfig st) c) (chan (ReceiverPulseStates st) c)
         (chan (ICValues st) c) (chan (CalibrationSampling st) c)
         (receiverCalibrationState st).

Definition store_refs (st : Receiver) (c : Channel) (r : ChannelRefs) : Receiver :=
  mkReceiver (set_chan (ChannelICConfig st) c (TimIC r))
             (set_chan (ReceiverPulseStates st) c (channelInputState r))
             (set_chan (ICValues st) c (ChannelICValues r))
             (CalibrationValues st)
             (calibrationState r)
             (calibrationStartTime st)
             (set_chan (CalibrationSampling st) c (ChannelCalibrationSampling r))
             (PrimaryReceiverTimerPeriodCount st)
             (AuxReceiverTimerPeriodCount st)
             (FlashCalibrationValues st)
             (ReceiverPrintSamplingTaskRunning st)
             (UsbOut st).

(** The six wrappers of receiver.c 1321-1378, one per channel, each
    passing its own objects and its timer's period count. *)
Definition UpdateReceiverChannelOf
    (c : Channel) (st : Receiver) (icValue tick : Z) : Receiver * ReceiverErrorStatus :=
  let (r, e) := UpdateReceiverChannel (refs_of st c) icValue
                  (ReceiverTimerPeriodCountOf st c) (calibrationStartTime st) tick in
  (store_refs st c r, e).

Definition UpdateReceiverThrottleChannel := UpdateReceiverChannelOf Throttle.
Definition UpdateReceiverAileronChannel := UpdateReceiverChannelOf Aileron.
Definition UpdateReceiverElevatorChannel := UpdateReceiverChannelOf Elevator.
Definition UpdateReceiverRudderChannel := UpdateReceiverChannelOf Rudder.
Definition UpdateReceiverGearChannel := UpdateReceiverChannelOf Gear.
Definition UpdateReceiverAux1Channel := UpdateReceiverChannelOf Aux1.

(** receiver.c 747-753, the period counter of each timer. *)
Definition HAL_TIM_PeriodElapsedCallback (primary : bool) (st : Receiver) : Receiver :=
  mkReceiver (ChannelICConfig st) (ReceiverPulseStates st) (ICValues st)
             (CalibrationValues st) (receiverCalibrationState st)
             (calibrationStartTime st) (CalibrationSampling st)
             (if primary then wrap16 (PrimaryReceiverTimerPeriodCount st + 1)
              else PrimaryReceiverTimerPeriodCount st)
             (if primary then AuxReceiverTimerPeriodCount st
              else wrap16 (AuxReceiverTimerPeriodCount st + 1))
             (FlashCalibrationValues st) (ReceiverPrintSamplingTaskRunning st)
             (UsbOut st).

(** *** Calibration controller *)

(** receiver.c 1501-1514: the twelve bounds are copied one by one. *)
Definition EnforceNewCalibrationValues
    (st : Receiver) (newCalibrationValues : Receiver_CalibrationValues_TypeDef) : Receiver :=
  mkReceiver (ChannelICConfig st) (ReceiverPulseStates st) (ICValues st)
             (mkCalibrationValues
                (mkChannelCalibration
                   (ChannelMaxCount (ThrottleChannel newCalibrationValues))
                   (ChannelMinCount (ThrottleChannel newCalibrationValues)))
                (mkChannelCalibration
                   (ChannelMaxCount (AileronChannel newCalibrationValues))
                   (ChannelMinCount (AileronChannel newCalibrationValues)))
                (mkChannelCalibration
                   (ChannelMaxCount (ElevatorChannel newCalibrationValues))
                   (ChannelMinCount (ElevatorChannel newCalibrationValues)))
                (mkChannelCalibration
                   (ChannelMaxCount (RudderChannel newCalibrationValues))
                   (ChannelMinCount (RudderChannel newCalibrationValues)))
                (mkChannelCalibration
                   (ChannelMaxCount (GearChannel newCalibrationValues))
                   (ChannelMinCount (GearChannel newCalibrationValues)))
                (mkChannelCalibration
                   (ChannelMaxCount (Aux1Channel newCalibrationValues))
                   (ChannelMinCount (Aux1Channel newCalibrationValues))))
             (receiverCalibrationState st) (calibrationStartTime st)
             (CalibrationSampling st)
             (PrimaryReceiverTimerPeriodCount st) (AuxReceiverTimerPeriodCount st)
             (FlashCalibrationValues st) (ReceiverPrintSamplingTaskRunning st)
             (UsbOut st).

(** receiver.c 591-615. [tick] is what [HAL_GetTick] returns; the print
    task is taken to be created. *)
Definition StartReceiverCalibration (st : Receiver) (tick : Z)
    : Receiver * ReceiverErrorStatus :=
  if negb (ReceiverCalibrationState_eqb (receiverCalibrationState st)
             RECEIVER_CALIBRATION_IN_PROGRESS)
  then
    (mkReceiver (ChannelICConfig st) (ReceiverPulseStates st) (ICValues st)
                (CalibrationValues st)
                RECEIVER_CALIBRATION_IN_PROGRESS
                tick
                (mkPerChannel
                   (ResetCalibrationSampling (ofThrottle (CalibrationSampling st)))
                   (ResetCalibrationSampling (ofAileron (CalibrationSampling st)))
                   (ResetCalibrationSampling (ofElevator (CalibrationSampling st)))
                   (ResetCalibrationSampling (ofRudder (CalibrationSampling st)))
                   (ResetCalibrationSampling (ofGear (CalibrationSampling st)))
                   (ResetCalibrationSampling (ofAux1 (CalibrationSampling st))))
                (PrimaryReceiverTimerPeriodCount st) (AuxReceiverTimerPeriodCount st)
                (FlashCalibrationValues st)
                true
                (UsbOut st),
     RECEIVER_OK)
  else (st, RECEIVER_ERROR).

(** [returnStatus] after the six sample-count checks of receiver.c
    631-642. *)
Definition enough_samples (w : PerChannel Receiver_ChannelCalibrationSampling_TypeDef)
    : ReceiverErrorStatus :=
  let check (s : Receiver_ChannelCalibrationSampling_TypeDef) (acc : ReceiverErrorStatus) :=
    if channelCalibrationPulseSamples s <? RECEIVER_CALIBRATION_MIN_PULSE_COUNT
    then RECEIVER_ERROR else acc in
  check (ofAux1 w) (check (ofGear w) (check (ofRudder w)
    (check (ofElevator w) (check (ofAileron w) (check (ofThrottle w) RECEIVER_OK))))).

(** [tmpCalibrationValues] of receiver.c 645-669. *)
Definition mean_calibration (w : PerChannel Receiver_ChannelCalibrationSampling_TypeDef)
    : Receiver_CalibrationValues_TypeDef :=
  let bounds (s : Receiver_ChannelCalibrationSampling_TypeDef) :=
    mkChannelCalibration
      (UInt16Mean (maxSamplesBuffer s) RECEIVER_CALIBRATION_SAMPLES_BUFFER_SIZE)
      (UInt16Mean (minSamplesBuffer s) RECEIVER_CALIBRATION_SAMPLES_BUFFER_SIZE) in
  mkCalibrationValues (bounds (ofThrottle w)) (bounds (ofAileron w)) (bounds (ofElevator w))
                      (bounds (ofRudder w)) (bounds (ofGear w)) (bounds (ofAux1 w)).

(** The flash write and the message that reports it, receiver.c 677-680.
    [WriteCalibrationValuesToFlash] belongs to flash.c, which is not among
    the sources, so the outcome of the call is an input: [flashWriteOk] is
    what the call returns and [flashAfter] the record the flash holds
    after it, whatever that is. *)
Definition save_calibration (st : Receiver) (flashWriteOk : bool)
    (flashAfter : option Receiver_CalibrationValues_TypeDef) : Receiver :=
  mkReceiver (ChannelICConfig st) (ReceiverPulseStates st) (ICValues st)
             (CalibrationValues st) (receiverCalibrationState st)
             (calibrationStartTime st) (CalibrationSampling st)
             (PrimaryReceiverTimerPeriodCount st) (AuxReceiverTimerPeriodCount st)
             flashAfter
             (ReceiverPrintSamplingTaskRunning st)
             (UsbOut st ++ [if flashWriteOk
                            then ("Receiver calibration values saved." ++ LF ++ LF)%string
                            else ("Receiver calibration values save failed." ++ LF ++ LF)%string]).

(** receiver.c 686-690: back to waiting, print task deleted. *)
Definition end_session (st : Receiver) : Receiver :=
  mkReceiver (ChannelICConfig st) (ReceiverPulseStates st) (ICValues st)
             (CalibrationValues st) RECEIVER_CALIBRATION_WAITING
             (calibrationStartTime st) (CalibrationSampling st)
             (PrimaryReceiverTimerPeriodCount st) (AuxReceiverTimerPeriodCount st)
             (FlashCalibrationValues st) false (UsbOut st).

(** receiver.c 625-697. [flashWriteOk] and [flashAfter] are the outcome of
    the flash write, should the function come to it. *)
Definition StopReceiverCalibration (st : Receiver) (flashWriteOk : bool)
    (flashAfter : option Receiver_CalibrationValues_TypeDef)
    : Receiver * ReceiverErrorStatus :=
  if ReceiverCalibrationState_eqb (receiverCalibrationState st)
       RECEIVER_CALIBRATION_IN_PROGRESS
  then
    let returnStatus0 := enough_samples (CalibrationSampling st) in
    let tmpCalibrationValues := mean_calibration (CalibrationSampling st) in
    let returnStatus :=
      if negb (bool_of_status (IsCalibrationValuesValid tmpCalibrationValues))
      then RECEIVER_ERROR else returnStatus0 in
    let st1 :=
      match returnStatus with
      | RECEIVER_ERROR => st
      | RECEIVER_OK =>
          EnforceNewCalibrationValues
            (save_calibration st flashWriteOk flashAfter) tmpCalibrationValues
      end in
    (end_session st1, returnStatus)
  else (st, RECEIVER_ERROR).

(** *** Activity monitor *)

(** receiver.c 1386-1398. The difference of the two promoted counts is
    stored in a [uint32_t]. *)
Definition IsReceiverChannelActive
    (v : Receiver_IC_Values_TypeDef) (ReceiverTimerPeriodCount : Z)
    : Receiver_IC_Values_TypeDef * ReceiverErrorStatus :=
  let periodsSinceLastChannelPulse :=
    wrap32 (ReceiverTimerPeriodCount - PreviousRisingCountTimerPeriodCount v) in
  let v1 :=
    if periodsSinceLastChannelPulse >? IS_RECEIVER_CHANNEL_INACTIVE_PERIODS_COUNT
    then with_IsActive v RECEIVER_ERROR else v in
  (v1, IsActive v1).

(** receiver.c 704-717. *)
Definition IsReceiverActive (st : Receiver) : Receiver * ReceiverErrorStatus :=
  let (a, aileronChannelActive) :=
    IsReceiverChannelActive (ofAileron (ICValues st)) (PrimaryReceiverTimerPeriodCount st) in
  let (e, elevatorChannelActive) :=
    IsReceiverChannelActive (ofElevator (ICValues st)) (PrimaryReceiverTimerPeriodCount st) in
  let (r, rudderChannelActive) :=
    IsReceiverChannelActive (ofRudder (ICValues st)) (PrimaryReceiverTimerPeriodCount st) in
  (mkReceiver (ChannelICConfig st) (ReceiverPulseStates st)
              (mkPerChannel (ofThrottle (ICValues st)) a e r
                            (ofGear (ICValues st)) (ofAux1 (ICValues st)))
              (CalibrationValues st) (receiverCalibrationState st)
              (calibrationStartTime st) (CalibrationSampling st)
              (PrimaryReceiverTimerPeriodCount st) (AuxReceiverTimerPeriodCount st)
              (FlashCalibrationValues st) (ReceiverPrintSamplingTaskRunning st)
              (UsbOut st),
   status_of_bool (bool_of_status aileronChannelActive
                   && bool_of_status elevatorChannelActive
                   && bool_of_status rudderChannelActive)).

(** *** States of a sampling window during a calibration session

    A window is reset by [StartReceiverCalibration] and from then on only
    changed by [UpdateChannelCalibrationSamples], called by the decoder
    with a validated [uint16_t] pulse width. *)
Inductive session_window : Receiver_ChannelCalibrationSampling_TypeDef -> Prop :=
  | session_reset : forall s, session_window (ResetCalibrationSampling s)
  | session_sample : forall s pulse,
      session_window s -> uint16 pulse ->
      session_window (fst (UpdateChannelCalibrationSamples s pulse)).

(** The cache of the maximum side is coherent: the index is in range and,
    unless a rescan is pending, names a least element of the buffer whose
    value is cached; when a rescan is pending the cached value is the
    sentinel. *)
Definition max_side_ok (s : Receiver_ChannelCalibrationSampling_TypeDef) : Prop :=
  length (maxSamplesBuffer s) = RECEIVER_CALIBRATION_SAMPLES_BUFFER_SIZE
  /\ Forall uint16 (maxSamplesBuffer s)
  /\ (tmpMaxIndex s < RECEIVER_CALIBRATION_SAMPLES_BUFFER_SIZE)%nat
  /\ (if maxBufferUpdated s
      then tmpMaxBufferMinValue s = 65535
      else array_get (maxSamplesBuffer s) (tmpMaxIndex s) = tmpMaxBufferMinValue s
           /\ tmpMaxBufferMinValue s = buffer_min (maxSamplesBuffer s)).

Definition min_side_ok (s : Receiver_ChannelCalibrationSampling_TypeDef) : Prop :=
  length (minSamplesBuffer s) = RECEIVER_CALIBRATION_SAMPLES_BUFFER_SIZE
  /\ Forall uint16 (minSamplesBuffer s)
  /\ (tmpMinIndex s < RECEIVER_CALIBRATION_SAMPLES_BUFFER_SIZE)%nat
  /\ (if minBufferUpdated s
      then tmpMinBufferMaxValue s = 0
      else array_get (minSamplesBuffer s) (tmpMinIndex s) = tmpMinBufferMaxValue s
           /\ tmpMinBufferMaxValue s = buffer_max (minSamplesBuffer s)).

Definition window_ok (s : Receiver_ChannelCalibrationSampling_TypeDef) : Prop :=
  max_side_ok s /\ min_side_ok s.

(** The fields of each side of a window, and what the rescan of a side
    leaves alone. *)
Definition max_side (s : Receiver_ChannelCalibrationSampling_TypeDef) :=
  (maxSamplesBuffer s, tmpMaxIndex s, tmpMaxBufferMinValue s, maxBufferUpdated s).

Definition min_side (s : Receiver_ChannelCalibrationSampling_TypeDef) :=
  (minSamplesBuffer s, tmpMinIndex s, tmpMinBufferMaxValue s, minBufferUpdated s).

Definition max_scan_frame (s : Receiver_ChannelCalibrationSampling_TypeDef) :=
  (maxSamplesBuffer s, channelCalibrationPulseSamples s, min_side s).

Definition min_scan_frame (s : Receiver_ChannelCalibrationSampling_TypeDef) :=
  (minSamplesBuffer s, channelCalibrationPulseSamples s, max_side s).

(** The cache of a side right before the pulse is compared with it: the
    index names an extreme element of the buffer and its value is the
    cached one. *)
Definition max_cache_exact (s : Receiver_ChannelCalibrationSampling_TypeDef) : Prop :=
  (tmpMaxIndex s < RECEIVER_CALIBRATION_SAMPLES_BUFFER_SIZE)%nat
  /\ array_get (maxSamplesBuffer s) (tmpMaxIndex s) = tmpMaxBufferMinValue s
  /\ tmpMaxBufferMinValue s = buffer_min (maxSamplesBuffer s)
  /\ (maxBufferUpdated s = true -> tmpMaxBufferMinValue s = 65535).

Definition min_cache_exact (s : Receiver_ChannelCalibrationSampling_TypeDef) : Prop :=
  (tmpMinIndex s < RECEIVER_CALIBRATION_SAMPLES_BUFFER_SIZE)%nat
  /\ array_get (minSamplesBuffer s) (tmpMinIndex s) = tmpMinBufferMaxValue s
  /\ tmpMinBufferMaxValue s = buffer_max (minSamplesBuffer s)
  /\ (minBufferUpdated s = true -> tmpMinBufferMaxValue s = 0).

(** The slots in which two buffers differ. *)
Definition written_slots (before after : list Z) (i : nat) : Prop :=
  (i < length before)%nat /\ array_get before i <> array_get after i.

(** ** The rest of the module *)

(** Further constants of receiver.h: the default calibration bounds, the
    counting rate of the receiver timers in Hz, and the HAL identities of
    the six capture channels. *)
Variable RECEIVER_PULSE_DEFAULT_MAX_COUNT : Z.
Variable RECEIVER_PULSE_DEFAULT_MIN_COUNT : Z.
Variable RECEIVER_TIM_COUNTER_CLOCK : Z.
Variable PRIMARY_RECEIVER_THROTTLE_ACTIVE_CHANNEL : Z.
Variable PRIMARY_RECEIVER_AILERON_ACTIVE_CHANNEL : Z.
Variable PRIMARY_RECEIVER_ELEVATOR_ACTIVE_CHANNEL : Z.
Variable PRIMARY_RECEIVER_RUDDER_ACTIVE_CHANNEL : Z.
Variable AUX_RECEIVER_GEAR_ACTIVE_CHANNEL : Z.
Variable AUX_RECEIVER_AUX1_ACTIVE_CHANNEL : Z.

(** The timer a HAL handle belongs to. *)
Inductive TIM_Instance : Set := PRIMARY_RECEIVER_TIM | AUX_RECEIVER_TIM | OTHER_TIM.

(** The member of the calibration record that belongs to a channel. *)
Definition calibration_of (c : Channel) (v : Receiver_CalibrationValues_TypeDef)
    : Receiver_IC_ChannelCalibrationValues_TypeDef :=
  match c with
  | Throttle => ThrottleChannel v | Aileron => AileronChannel v
  | Elevator => ElevatorChannel v | Rudder => RudderChannel v
  | Gear => GearChannel v | Aux1 => Aux1Channel v
  end.

(** The six getters of receiver.c 255-302, each normalizing its channel's
    pulse with its channel's bounds. *)
Definition GetReceiverChannelOf (c : Channel) (st : Receiver) : Z :=
  GetSignedReceiverChannel (chan (ICValues st) c) (calibration_of c (CalibrationValues st)).

Definition GetThrottleReceiverChannel := GetReceiverChannelOf Throttle.
Definition GetAileronReceiverChannel := GetReceiverChannelOf Aileron.
Definition GetElevatorReceiverChannel := GetReceiverChannelOf Elevator.
Definition GetRudderReceiverChannel := GetReceiverChannelOf Rudder.
Definition GetGearReceiverChannel := GetReceiverChannelOf Gear.
Definition GetAux1ReceiverChannel := GetReceiverChannelOf Aux1.

(** receiver.c 952-954: the product is taken in [uint32_t], the quotient
    is cut to [uint16_t]. *)
Definition GetReceiverChannelPulseMicros (v : Receiver_IC_Values_TypeDef) : Z :=
  wrap16 (wrap32 (PulseTimerCount v * 1000000) / RECEIVER_TIM_COUNTER_CLOCK).

(** receiver.c 961-964. *)
Definition GetReceiverChannelPeriodMicros (v : Receiver_IC_Values_TypeDef) : Z :=
  wrap16 (wrap32 (wrap32 (PeriodCount v * 100000) / RECEIVER_TIM_COUNTER_CLOCK * 10)).

(** receiver.c 887-905. *)
Definition SetDefaultReceiverCalibrationValues
    (calibrationValues : Receiver_CalibrationValues_TypeDef)
    : Receiver_CalibrationValues_TypeDef :=
  let d := mkChannelCalibration RECEIVER_PULSE_DEFAULT_MAX_COUNT
                                RECEIVER_PULSE_DEFAULT_MIN_COUNT in
  mkCalibrationValues d d d d d d.

(** receiver.c 971-982. [readOk] is what [ReadCalibrationValuesFromFlash]
    returns and [readValues] what it leaves in the record it was handed. *)
Definition LoadReceiverCalibrationValuesFromFlash
    (readOk : bool) (readValues : Receiver_CalibrationValues_TypeDef)
    : Receiver_CalibrationValues_TypeDef * ReceiverErrorStatus :=
  if negb readOk then (readValues, RECEIVER_ERROR)
  else if negb (bool_of_status (IsCalibrationValuesValid readValues))
       then (readValues, RECEIVER_ERROR)
       else (readValues, RECEIVER_OK).

Definition with_CalibrationValues (st : Receiver) (v : Receiver_CalibrationValues_TypeDef)
    : Receiver :=
  mkReceiver (ChannelICConfig st) (ReceiverPulseStates st) (ICValues st) v
             (receiverCalibrationState st) (calibrationStartTime st)
             (CalibrationSampling st)
             (PrimaryReceiverTimerPeriodCount st) (AuxReceiverTimerPeriodCount st)
             (FlashCalibrationValues st) (ReceiverPrintSamplingTaskRunning st)
             (UsbOut st).

(** receiver.c 870-880: the record in use is loaded in place and replaced
    by the defaults when the load fails. *)
Definition InitReceiverCalibrationValues
    (st : Receiver) (readOk : bool) (readValues : Receiver_CalibrationValues_TypeDef)
    : Receiver * ReceiverErrorStatus :=
  let (loaded, status) := LoadReceiverCalibrationValuesFromFlash readOk readValues in
  if negb (bool_of_status status)
  then (with_CalibrationValues st (SetDefaultReceiverCalibrationValues loaded), RECEIVER_ERROR)
  else (with_CalibrationValues st loaded, RECEIVER_OK).

(** receiver.c 724-740: a capture event is handed to the channel whose
    timer and HAL channel it names, and dropped if it names none. *)
Definition HAL_TIM_IC_CaptureCallback
    (Instance : TIM_Instance) (ActiveChannel : Z) (st : Receiver) (icValue tick : Z)
    : Receiver :=
  match Instance with
  | PRIMARY_RECEIVER_TIM =>
      if ActiveChannel =? PRIMARY_RECEIVER_THROTTLE_ACTIVE_CHANNEL
      then fst (UpdateReceiverThrottleChannel st icValue tick)
      else if ActiveChannel =? PRIMARY_RECEIVER_AILERON_ACTIVE_CHANNEL
      then fst (UpdateReceiverAileronChannel st icValue tick)
      else if ActiveChannel =? PRIMARY_RECEIVER_ELEVATOR_ACTIVE_CHANNEL
      then fst (UpdateReceiverElevatorChannel st icValue tick)
      else if ActiveChannel =? PRIMARY_RECEIVER_RUDDER_ACTIVE_CHANNEL
      then fst (UpdateReceiverRudderChannel st icValue tick)
      else st
  | AUX_RECEIVER_TIM =>
      if ActiveChannel =? AUX_RECEIVER_GEAR_ACTIVE_CHANNEL
      then fst (UpdateReceiverGearChannel st icValue tick)
      else if ActiveChannel =? AUX_RECEIVER_AUX1_ACTIVE_CHANNEL
      then fst (UpdateReceiverAux1Channel st icValue tick)
      else st
  | OTHER_TIM => st
  end.

(** *** Runs *)

(** A window after a list of observations. *)
Definition observe_all (pulses : list Z) (s : Receiver_ChannelCalibrationSampling_TypeDef)
    : Receiver_ChannelCalibrationSampling_TypeDef :=
  fold_left (fun w pulse => fst (UpdateChannelCalibrationSamples w pulse)) pulses s.

(** A capture event as [UpdateReceiverChannel] sees it: the captured
    value, the period count of the channel's timer and the system tick. *)
Record CaptureEvent : Set := mkEvent { captured : Z; periodCount : Z; systemTick : Z }.

Definition decode_all (startTime : Z) (events : list CaptureEvent) (r : ChannelRefs)
    : ChannelRefs :=
  fold_left (fun x e => fst (UpdateReceiverChannel x (captured e) (periodCount e)
                               startTime (systemTick e)))
            events r.

(** The edge a channel waits for in a pulse state, and the state after
    the next edge. *)
Definition awaited_polarity (state : Pulse_State) : ICPolarity_t :=
  match state with
  | PULSE_LOW => TIM_ICPOLARITY_RISING
  | PULSE_HIGH => TIM_ICPOLARITY_FALLING
  end.

Definition next_state (state : Pulse_State) : Pulse_State :=
  match state with PULSE_LOW => PULSE_HIGH | PULSE_HIGH => PULSE_LOW end.

(** The entry points that change the state of the module, and the states
    the module reaches from its initialization. The module is initialized
    with no calibration in progress: the static [receiverCalibrationState]
    is zero-initialized, which is taken to be
    [RECEIVER_CALIBRATION_WAITING], the enumeration being declared in
    receiver.h. *)
Inductive receiver_step : Receiver -> Receiver -> Prop :=
  | step_capture : forall st Instance ActiveChannel icValue tick,
      receiver_step st (HAL_TIM_IC_CaptureCallback Instance ActiveChannel st icValue tick)
  | step_period : forall st primary,
      receiver_step st (HAL_TIM_PeriodElapsedCallback primary st)
  | step_start : forall st tick,
      receiver_step st (fst (StartReceiverCalibration st tick))
  | step_stop : forall st flashWriteOk flashAfter,
      receiver_step st (fst (StopReceiverCalibration st flashWriteOk flashAfter))
  | step_active : forall st,
      receiver_step st (fst (IsReceiverActive st)).

Inductive receiver_reachable : Receiver -> Prop :=
  | reach_init : forall st readOk readValues,
      receiverCalibrationState st = RECEIVER_CALIBRATION_WAITING ->
      receiver_reachable (fst (InitReceiverCalibrationValues st readOk readValues))
  | reach_step : forall st st',
      receiver_reachable st -> receiver_step st st' -> receiver_reachable st'.

(** All twelve bounds of a record lie in their bands. *)
Definition bounds_in_bands (v : Receiver_CalibrationValues_TypeDef) : Prop :=
  forall c,
    RECEIVER_MAX_CALIBRATION_MIN_PULSE_COUNT <= ChannelMaxCount (calibration_of c v)
      <= RECEIVER_MAX_CALIBRATION_MAX_PULSE_COUNT
    /\ RECEIVER_MIN_CALIBRATION_MIN_PULSE_COUNT <= ChannelMinCount (calibration_of c v)
        <= RECEIVER_MIN_CALIBRATION_MAX_PULSE_COUNT.

(** *** The link activity in the words of the specification

    The specification calls a channel active when it has produced a valid
    pulse within the inactivity threshold, counted in increments of the
    period counter. The definitions below follow these words over a
    history of interrupts; they are what [IsReceiverActive] is compared
    with, and no part of the module. *)

Definition handle (st : Receiver) (e : Interrupt) : Receiver :=
  match e with
  | Capture c icValue tick => fst (UpdateReceiverChannelOf c st icValue tick)
  | PeriodElapsed primary => HAL_TIM_PeriodElapsedCallback primary st
  end.

(** Interrupt [e], served in state [st], completes a valid pulse of
    channel [c]: it is a falling edge of [c] that the decoder accepts. *)
Definition completes_valid_pulse (c : Channel) (st : Receiver) (e : Interrupt) : bool :=
  match e with
  | Capture c' icValue tick =>
      Channel_eqb c c'
      && match chan (ReceiverPulseStates st) c with
         | PULSE_HIGH => true
         | PULSE_LOW => false
         end
      && bool_of_status (snd (UpdateReceiverChannelOf c st icValue tick))
  | PeriodElapsed _ => false
  end.

(** Interrupt [e] is an increment of the period counter of the timer
    channel [c] is captured on. *)
Definition increments_counter_of (c : Channel) (e : Interrupt) : bool :=
  match e with
  | PeriodElapsed primary =>
      match c with
      | Gear | Aux1 => negb primary
      | _ => primary
      end
  | Capture _ _ _ => false
  end.

(** The number of period-counter increments since the last valid pulse of
    channel [c], after the interrupts [events] served from state [st];
    [None] while the channel has not produced a valid pulse. *)
Fixpoint increments_since_valid_pulse
    (c : Channel) (events : list Interrupt) (st : Receiver) (since : option Z) : option Z :=
  match events with
  | [] => since
  | e :: rest =>
      increments_since_valid_pulse c rest (handle st e)
        (if completes_valid_pulse c st e then Some 0
         else if increments_counter_of c e then option_map Z.succ since
         else since)
  end.

Definition spec_channel_active (c : Channel) (events : list Interrupt) (st : Receiver)
    : bool :=
  match increments_since_valid_pulse c events st None with
  | Some n => n <=? IS_RECEIVER_CHANNEL_INACTIVE_PERIODS_COUNT
  | None => false
  end.

Definition spec_link_active (events : list Interrupt) (st : Receiver) : bool :=
  spec_channel_active Aileron events st
  && spec_channel_active Elevator events st
  && spec_channel_active Rudder events st.

(** ** Machine arithmetic facts *)

Lemma wrap32_small : forall z, uint32 z -> wrap32 z = z.
Proof. intros z Hz. unfold wrap32, uint32 in *. apply Z.mod_small. lia. Qed.

Lemma wrap16_small : forall z, uint16 z -> wrap16 z = z.
Proof. intros z Hz. unfold wrap16, uint16 in *. apply Z.mod_small. lia. Qed.

Lemma wrap16_range : forall z, uint16 (wrap16 z).
Proof. intros z. unfold uint16, wrap16. apply Z.mod_pos_bound. lia. Qed.

Lemma wrap32_range : forall z, uint32 (wrap32 z).
Proof. intros z. unfold uint32, wrap32. apply Z.mod_pos_bound. lia. Qed.

Lemma wrap32_negative : forall z, -4294967296 <= z < 0 -> wrap32 z = z + 4294967296.
Proof.
  intros z Hz. unfold wrap32.
  replace z with (z + 4294967296 + (-1) * 4294967296) at 1 by lia.
  rewrite Z.mod_add by lia. apply Z.mod_small. lia.
Qed.

(** A value of the [int16_t] range survives the detour through
    [uint32_t] that the usual arithmetic conversions impose. *)
Lemma to_int16_wrap32 : forall v, int16 v -> to_int16 (wrap32 v) = v.
Proof.
  intros v Hv. unfold int16 in Hv. unfold to_int16.
  destruct (Z_lt_le_dec v 0) as [Hneg | Hpos].
  - rewrite wrap32_negative by lia. unfold wrap16.
    replace (v + 4294967296) with (v + 65536 + 65535 * 65536) by lia.
    rewrite Z.mod_add by lia. rewrite Z.mod_small by lia.
    destruct (Z.ltb_spec (v + 65536) 32768); lia.
  - rewrite wrap32_small by (unfold uint32; lia).
    rewrite wrap16_small by (unfold uint16; lia).
    destruct (Z.ltb_spec v 32768); lia.
Qed.

(** ** Value normalizer *)

Lemma interpolate_range : forall p lo hi,
  lo <= p <= hi -> lo < hi -> hi - lo <= 65535 ->
  0 <= ((p - lo) * UINT16_MAX) / (hi - lo) <= 65535.
Proof.
  intros p lo hi Hp Hlt Hw. unfold UINT16_MAX. split.
  - apply Z.div_pos; nia.
  - apply Z.div_le_upper_bound; nia.
Qed.

(** Between the calibration bounds the C expression evaluates, without
    any wrap-around taking effect, to the interpolation over the
    integers. *)
Lemma GetSignedReceiverChannel_interpolates : forall v cal,
  uint16 (ChannelMinCount cal) -> uint16 (ChannelMaxCount cal) ->
  ChannelMinCount cal <= PulseTimerCount v <= ChannelMaxCount cal ->
  ChannelMaxCount cal > ChannelMinCount cal ->
  GetSignedReceiverChannel v cal
  = interpolate (PulseTimerCount v) (ChannelMinCount cal) (ChannelMaxCount cal).
Proof.
  intros v cal Hlo Hhi Hp Hlt. unfold uint16 in *.
  pose proof (interpolate_range (PulseTimerCount v) (ChannelMinCount cal)
                (ChannelMaxCount cal)) as Hq.
  unfold GetSignedReceiverChannel, interpolate.
  destruct (Z.ltb_spec (PulseTimerCount v) (ChannelMinCount cal)); [lia |].
  destruct (Z.gtb_spec (PulseTimerCount v) (ChannelMaxCount cal)); [lia |].
  destruct (Z.gtb_spec (ChannelMaxCount cal) (ChannelMinCount cal)); [| lia].
  rewrite (wrap32_small (PulseTimerCount v - ChannelMinCount cal)) by (unfold uint32; lia).
  rewrite (wrap32_small (ChannelMaxCount cal - ChannelMinCount cal)) by (unfold uint32; lia).
  rewrite (wrap32_small ((PulseTimerCount v - ChannelMinCount cal) * UINT16_MAX))
    by (unfold uint32, UINT16_MAX; nia).
  apply to_int16_wrap32. unfold int16, INT16_MIN. lia.
Qed.

(** C1: for a calibration record with [ChannelMaxCount > ChannelMinCount]
    and pulse widths between the two bounds, [GetSignedReceiverChannel]
    is monotonically non-decreasing in the pulse width, returns exactly
    [INT16_MIN] at [ChannelMinCount] and exactly [INT16_MAX] at
    [ChannelMaxCount]. *)
Theorem GetSignedReceiverChannel_monotone_exact : forall cal,
  uint16 (ChannelMinCount cal) -> uint16 (ChannelMaxCount cal) ->
  ChannelMaxCount cal > ChannelMinCount cal ->
  (forall v1 v2,
      ChannelMinCount cal <= PulseTimerCount v1 ->
      PulseTimerCount v1 <= PulseTimerCount v2 ->
      PulseTimerCount v2 <= ChannelMaxCount cal ->
      GetSignedReceiverChannel v1 cal <= GetSignedReceiverChannel v2 cal)
  /\ (forall v, PulseTimerCount v = ChannelMinCount cal ->
                GetSignedReceiverChannel v cal = INT16_MIN)
  /\ (forall v, PulseTimerCount v = ChannelMaxCount cal ->
                GetSignedReceiverChannel v cal = INT16_MAX).
Proof.
  intros cal Hlo Hhi Hlt. repeat split.
  - intros v1 v2 H1 H12 H2.
    rewrite !GetSignedReceiverChannel_interpolates by (assumption || lia).
    unfold interpolate, UINT16_MAX. apply Z.add_le_mono_l.
    apply Z.div_le_mono; nia.
  - intros v Hv.
    rewrite GetSignedReceiverChannel_interpolates by (assumption || lia).
    unfold interpolate. rewrite Hv, Z.sub_diag, Z.mul_0_l, Z.div_0_l by lia.
    reflexivity.
  - intros v Hv.
    rewrite GetSignedReceiverChannel_interpolates by (assumption || lia).
    unfold interpolate. rewrite Hv, Z.mul_comm, Z.div_mul by lia.
    reflexivity.
Qed.


(** C10: for a calibration record with [ChannelMaxCount > ChannelMinCount]
    and a pulse width between the bounds, the product
    [(PulseTimerCount - ChannelMinCount) * 65535] fits in 32-bit unsigned
    arithmetic, [INT16_MIN] plus the quotient lies in [-32768, 32767],
    and that sum is the value returned: no conversion wraps. *)
Theorem GetSignedReceiverChannel_no_overflow : forall v cal,
  uint16 (ChannelMinCount cal) -> uint16 (ChannelMaxCount cal) ->
  ChannelMinCount cal <= PulseTimerCount v <= ChannelMaxCount cal ->
  ChannelMaxCount cal > ChannelMinCount cal ->
  uint32 ((PulseTimerCount v - ChannelMinCount cal) * UINT16_MAX)
  /\ int16 (INT16_MIN
            + ((PulseTimerCount v - ChannelMinCount cal) * UINT16_MAX)
              / (ChannelMaxCount cal - ChannelMinCount cal))
  /\ GetSignedReceiverChannel v cal
     = INT16_MIN
       + ((PulseTimerCount v - ChannelMinCount cal) * UINT16_MAX)
         / (ChannelMaxCount cal - ChannelMinCount cal).
Proof.
  intros v cal Hlo Hhi Hp Hlt.
  pose proof (interpolate_range (PulseTimerCount v) (ChannelMinCount cal)
                (ChannelMaxCount cal)) as Hq.
  unfold uint16 in *. repeat split.
  - unfold UINT16_MAX. nia.
  - unfold UINT16_MAX. nia.
  - unfold INT16_MIN. lia.
  - unfold INT16_MIN. lia.
  - apply GetSignedReceiverChannel_interpolates; unfold uint16; (assumption || lia).
Qed.

(** ** Input capture decoder *)

Lemma IsReceiverPulseValid_error : forall pulse cnt prev,
  IsReceiverPulseValid pulse cnt prev = RECEIVER_ERROR
  <-> (pulse > RECEIVER_MAX_VALID_IC_PULSE_COUNT
       \/ pulse < RECEIVER_MIN_VALID_IC_PULSE_COUNT
       \/ cnt - prev > 1).
Proof.
  intros pulse cnt prev. unfold IsReceiverPulseValid.
  destruct (Z.leb_spec pulse RECEIVER_MAX_VALID_IC_PULSE_COUNT);
    destruct (Z.geb_spec pulse RECEIVER_MIN_VALID_IC_PULSE_COUNT);
    destruct (Z.leb_spec (cnt - prev) 1); simpl; split; intros Hbad;
    try discriminate; try reflexivity; lia.
Qed.

(** What a rising edge does, whatever the period turns out to be. *)
Lemma UpdateReceiverChannel_rising : forall r icValue cnt start tick,
  channelInputState r = PULSE_LOW ->
  let v1 := with_rising (ChannelICValues r) icValue in
  let period := tempPeriodTimerCount v1 cnt in
  UpdateReceiverChannel r icValue cnt start tick
  = (mkRefs TIM_ICPOLARITY_FALLING PULSE_HIGH
            (with_PreviousRisingCountTimerPeriodCount
               (if bool_of_status (IsReceiverPeriodValid period)
                then with_PeriodCount v1 period else v1) cnt)
            (ChannelCalibrationSampling r) (calibrationState r),
     IsReceiverPeriodValid period).
Proof.
  intros r icValue cnt start tick Hlow. unfold UpdateReceiverChannel.
  rewrite Hlow. cbv zeta.
  destruct (IsReceiverPeriodValid _); reflexivity.
Qed.

(** When the period counter has advanced, each counter period is
    accounted with [UINT16_MAX] = 65535 ticks: the candidate period
    falls short of the unwrapped tick distance, which has 65536 ticks
    per counter period, by one tick per period elapsed. *)
Lemma tempPeriodTimerCount_advanced : forall v cnt,
  cnt > PreviousRisingCountTimerPeriodCount v ->
  let delta := cnt - PreviousRisingCountTimerPeriodCount v in
  tempPeriodTimerCount v cnt
  = wrap32 (RisingCount v + 65536 - PreviousRisingCount v + 65536 * (delta - 1) - delta).
Proof.
  intros v cnt Hadv delta. unfold tempPeriodTimerCount, UINT16_MAX.
  destruct (Z.gtb_spec cnt (PreviousRisingCountTimerPeriodCount v)); [| lia].
  f_equal. subst delta. lia.
Qed.

(** C4: on a rising edge captured in the counter period of the previous
    rising edge (period delta 0) the candidate period is the difference
    of the two 16-bit capture values with no unwrap term; the [int]
    subtraction cannot overflow, and the result wraps modulo 2^32 when
    the new capture is the smaller one. The decoder returns, storing the
    candidate only if it is a valid period. *)
Theorem rising_edge_same_period : forall r icValue cnt start tick,
  channelInputState r = PULSE_LOW ->
  uint16 (RisingCount (ChannelICValues r)) ->
  cnt = PreviousRisingCountTimerPeriodCount (ChannelICValues r) ->
  let rising_ticks := wrap16 icValue in
  let previous_rising_ticks := RisingCount (ChannelICValues r) in
  let period := tempPeriodTimerCount (with_rising (ChannelICValues r) icValue) cnt in
  period = wrap32 (rising_ticks - previous_rising_ticks)
  /\ int32 (rising_ticks - previous_rising_ticks)
  /\ (previous_rising_ticks <= rising_ticks ->
      period = rising_ticks - previous_rising_ticks)
  /\ (rising_ticks < previous_rising_ticks ->
      period = rising_ticks - previous_rising_ticks + 4294967296)
  /\ exists r',
       UpdateReceiverChannel r icValue cnt start tick = (r', IsReceiverPeriodValid period)
       /\ channelInputState r' = PULSE_HIGH
       /\ PeriodCount (ChannelICValues r')
          = if bool_of_status (IsReceiverPeriodValid period)
            then period else PeriodCount (ChannelICValues r).
Proof.
  intros r icValue cnt start tick Hlow Hprev Hcnt rising_ticks previous_rising_ticks period.
  pose proof (wrap16_range icValue) as Hnew. fold rising_ticks in Hnew.
  unfold uint16 in Hprev, Hnew. fold previous_rising_ticks in Hprev.
  assert (Hperiod : period = wrap32 (rising_ticks - previous_rising_ticks)).
  { subst period. unfold tempPeriodTimerCount. simpl.
    destruct (Z.gtb_spec cnt (PreviousRisingCountTimerPeriodCount (ChannelICValues r)));
      [lia | reflexivity]. }
  split; [exact Hperiod |].
  split; [unfold int32; lia |].
  split; [intros Hge; rewrite Hperiod; apply wrap32_small; unfold uint32; lia |].
  split; [intros Hlt; rewrite Hperiod; apply wrap32_negative; lia |].
  eexists. split.
  - apply UpdateReceiverChannel_rising. exact Hlow.
  - split; [reflexivity |]. simpl. fold period.
    destruct (IsReceiverPeriodValid period); reflexivity.
Qed.

(** C5: a falling edge whose pulse fails validation (out of the valid
    pulse-count bounds, or more than one counter period after the rising
    edge) leaves [PulseTimerCount], [IsActive], the sampling window and
    the calibration state as they were and returns [RECEIVER_ERROR],
    with the pulse state back to low so that the next edge is decoded; a
    rising edge whose period fails validation leaves [PeriodCount] as it
    was and returns [RECEIVER_ERROR], with the pulse state high. *)
Theorem invalid_edge_keeps_last_values : forall r icValue cnt start tick,
  (channelInputState r = PULSE_HIGH ->
   (let pulse := wrap16 (wrap16 icValue - RisingCount (ChannelICValues r)) in
    pulse > RECEIVER_MAX_VALID_IC_PULSE_COUNT
    \/ pulse < RECEIVER_MIN_VALID_IC_PULSE_COUNT
    \/ cnt - PreviousRisingCountTimerPeriodCount (ChannelICValues r) > 1) ->
   exists r',
     UpdateReceiverChannel r icValue cnt start tick = (r', RECEIVER_ERROR)
     /\ PulseTimerCount (ChannelICValues r') = PulseTimerCount (ChannelICValues r)
     /\ IsActive (ChannelICValues r') = IsActive (ChannelICValues r)
     /\ ChannelCalibrationSampling r' = ChannelCalibrationSampling r
     /\ calibrationState r' = calibrationState r
     /\ channelInputState r' = PULSE_LOW
     /\ TimIC r' = TIM_ICPOLARITY_RISING)
  /\ (channelInputState r = PULSE_LOW ->
      IsReceiverPeriodValid
        (tempPeriodTimerCount (with_rising (ChannelICValues r) icValue) cnt)
      = RECEIVER_ERROR ->
      exists r',
        UpdateReceiverChannel r icValue cnt start tick = (r', RECEIVER_ERROR)
        /\ PeriodCount (ChannelICValues r') = PeriodCount (ChannelICValues r)
        /\ channelInputState r' = PULSE_HIGH
        /\ TimIC r' = TIM_ICPOLARITY_FALLING).
Proof.
  intros r icValue cnt start tick. split.
  - intros Hhigh Hbad. cbv zeta in Hbad.
    apply IsReceiverPulseValid_error in Hbad.
    unfold UpdateReceiverChannel. rewrite Hhigh. cbv zeta.
    unfold tempPulseTimerCount. simpl. rewrite Hbad. simpl.
    eexists. split; [reflexivity |]. simpl. repeat split.
  - intros Hlow Hbad.
    rewrite UpdateReceiverChannel_rising by exact Hlow. cbv zeta.
    rewrite Hbad. simpl.
    eexists. split; [reflexivity |]. simpl. repeat split.
Qed.

(** ** Arrays and loops *)

Lemma array_set_length : forall a i v, length (array_set a i v) = length a.
Proof.
  induction a as [| h t IH]; intros [| j] v; simpl; try reflexivity.
  now rewrite IH.
Qed.

Lemma array_get_set_same : forall a i v,
  (i < length a)%nat -> array_get (array_set a i v) i = v.
Proof.
  unfold array_get.
  induction a as [| h t IH]; intros [| j] v Hi; simpl in *; try lia; try reflexivity.
  apply IH. lia.
Qed.

Lemma array_get_set_other : forall a i j v,
  i <> j -> array_get (array_set a i v) j = array_get a j.
Proof.
  unfold array_get.
  induction a as [| h t IH]; intros [| i] [| j] v Hij; simpl; try reflexivity; try congruence.
  apply IH. congruence.
Qed.

Lemma array_set_Forall : forall (P : Z -> Prop) a i v,
  Forall P a -> P v -> Forall P (array_set a i v).
Proof.
  induction a as [| h t IH]; intros [| j] v Ha Hv; simpl; auto;
    inversion Ha; subst; constructor; auto.
Qed.

Lemma array_get_Forall : forall (P : Z -> Prop) a i,
  Forall P a -> (i < length a)%nat -> P (array_get a i).
Proof.
  intros P a i Ha Hi. rewrite Forall_forall in Ha. apply Ha.
  unfold array_get. apply nth_In. exact Hi.
Qed.

(** Writing one slot changes at most that slot. *)
Lemma written_slots_array_set : forall a i v j,
  written_slots a (array_set a i v) j -> j = i.
Proof.
  intros a i v j [_ Hne]. destruct (Nat.eq_dec i j) as [-> | Hij]; [reflexivity |].
  rewrite array_get_set_other in Hne by exact Hij. congruence.
Qed.

Lemma written_slots_same : forall a j, ~ written_slots a a j.
Proof. intros a j [_ Hne]. congruence. Qed.

Lemma buffer_min_le_get : forall a i,
  (i < length a)%nat -> buffer_min a <= array_get a i.
Proof.
  unfold array_get, buffer_min.
  induction a as [| h t IH]; intros [| j] Hi; simpl in *; try lia.
  specialize (IH j ltac:(lia)). lia.
Qed.

Lemma buffer_min_lower_bound : forall a c,
  c <= UINT16_MAX -> (forall i, (i < length a)%nat -> c <= array_get a i) ->
  c <= buffer_min a.
Proof.
  unfold array_get, buffer_min.
  induction a as [| h t IH]; intros c Hc Hall; simpl in *; [exact Hc |].
  pose proof (Hall 0%nat ltac:(lia)) as H0. simpl in H0.
  assert (c <= fold_right Z.min UINT16_MAX t).
  { apply IH; [exact Hc |]. intros i Hi. apply (Hall (S i)). lia. }
  lia.
Qed.

Lemma buffer_min_array_set : forall a i v c,
  c <= buffer_min a -> c <= v -> c <= buffer_min (array_set a i v).
Proof.
  unfold buffer_min.
  induction a as [| h t IH]; intros [| j] v c Hc Hv; simpl in *; try lia.
  specialize (IH j v c ltac:(lia) Hv). lia.
Qed.

Lemma buffer_max_ge_get : forall a i,
  (i < length a)%nat -> array_get a i <= buffer_max a.
Proof.
  unfold array_get, buffer_max.
  induction a as [| h t IH]; intros [| j] Hi; simpl in *; try lia.
  specialize (IH j ltac:(lia)). lia.
Qed.

Lemma buffer_max_upper_bound : forall a c,
  0 <= c -> (forall i, (i < length a)%nat -> array_get a i <= c) ->
  buffer_max a <= c.
Proof.
  unfold array_get, buffer_max.
  induction a as [| h t IH]; intros c Hc Hall; simpl in *; [exact Hc |].
  pose proof (Hall 0%nat ltac:(lia)) as H0. simpl in H0.
  assert (fold_right Z.max 0 t <= c).
  { apply IH; [exact Hc |]. intros i Hi. apply (Hall (S i)). lia. }
  lia.
Qed.

Lemma buffer_max_array_set : forall a i v c,
  buffer_max a <= c -> v <= c -> buffer_max (array_set a i v) <= c.
Proof.
  unfold buffer_max.
  induction a as [| h t IH]; intros [| j] v c Hc Hv; simpl in *; try lia.
  specialize (IH j v c ltac:(lia) Hv). lia.
Qed.

(** A property indexed by the loop counter that the body carries from
    [i] to [i + 1] holds at the exit of the loop. *)
Lemma for_loop_invariant : forall (S : Type) (P : nat -> S -> Prop) body n start s,
  P start s ->
  (forall i x, (start <= i < start + n)%nat -> P i x -> P (Datatypes.S i) (body i x)) ->
  P (start + n)%nat (for_loop n start body s).
Proof.
  intros S P body. induction n as [| m IH]; intros start s Hs Hstep; simpl.
  - now rewrite Nat.add_0_r.
  - rewrite <- Nat.add_succ_comm. apply IH.
    + apply Hstep; [lia | exact Hs].
    + intros i x Hi. apply Hstep. lia.
Qed.

(** ** Calibration sampler *)

Section Sampler.

Hypothesis buffer_not_empty : (0 < RECEIVER_CALIBRATION_SAMPLES_BUFFER_SIZE)%nat.
Hypothesis init_value_uint16 : uint16 RECEIVER_CALIBRATION_BUFFER_INIT_VALUE.

Lemma max_side_ok_ext : forall s s',
  max_side s' = max_side s -> max_side_ok s -> max_side_ok s'.
Proof.
  intros s s' Heq Hok. unfold max_side in Heq. unfold max_side_ok in *.
  injection Heq as -> -> -> ->. exact Hok.
Qed.

Lemma min_side_ok_ext : forall s s',
  min_side s' = min_side s -> min_side_ok s -> min_side_ok s'.
Proof.
  intros s s' Heq Hok. unfold min_side in Heq. unfold min_side_ok in *.
  injection Heq as -> -> -> ->. exact Hok.
Qed.

(** The rescan of the maximum side, started from the sentinel, leaves
    the cache exact and touches nothing else. *)
Lemma rescan_max_exact : forall s,
  max_side_ok s -> maxBufferUpdated s = true ->
  let s1 := for_loop RECEIVER_CALIBRATION_SAMPLES_BUFFER_SIZE 0 find_max_buffer_min s in
  max_scan_frame s1 = max_scan_frame s /\ max_cache_exact s1.
Proof.
  intros s (Hlen & Hall & Hidx & Hcache) Hflag s1. rewrite Hflag in Hcache.
  pose (P := fun (i : nat) (x : Receiver_ChannelCalibrationSampling_TypeDef) =>
    max_scan_frame x = max_scan_frame s
    /\ (forall j, (j < i)%nat -> tmpMaxBufferMinValue x <= array_get (maxSamplesBuffer s) j)
    /\ ((tmpMaxBufferMinValue x = 65535 /\ tmpMaxIndex x = tmpMaxIndex s
         /\ maxBufferUpdated x = true)
        \/ ((tmpMaxIndex x < i)%nat
            /\ array_get (maxSamplesBuffer s) (tmpMaxIndex x) = tmpMaxBufferMinValue x
            /\ maxBufferUpdated x = false))).
  assert (HP : P (0 + RECEIVER_CALIBRATION_SAMPLES_BUFFER_SIZE)%nat s1).
  { apply for_loop_invariant.
    - unfold P. split; [reflexivity |]. split; [intros j Hj; lia |]. left. auto.
    - intros i x Hi (Hfr & Hlow & Hwhere). unfold P, find_max_buffer_min.
      assert (Hbuf : maxSamplesBuffer x = maxSamplesBuffer s)
        by (unfold max_scan_frame in Hfr; congruence).
      rewrite Hbuf.
      destruct (Z.gtb_spec (tmpMaxBufferMinValue x) (array_get (maxSamplesBuffer s) i))
        as [Hgt | Hle].
      + split; [exact Hfr |]. split.
        * intros j Hj. simpl. destruct (Nat.eq_dec j i) as [-> | Hne]; [lia |].
          specialize (Hlow j ltac:(lia)). lia.
        * right. simpl. repeat split. lia.
      + split; [exact Hfr |]. split.
        * intros j Hj. destruct (Nat.eq_dec j i) as [-> | Hne]; [lia |].
          apply Hlow. lia.
        * destruct Hwhere as [Hsame | (Hi' & Hg & Hf)]; [left; exact Hsame |].
          right. repeat split; auto; lia. }
  simpl in HP. destruct HP as (Hfr & Hlow & Hwhere).
  split; [exact Hfr |].
  assert (Hbuf : maxSamplesBuffer s1 = maxSamplesBuffer s)
    by (unfold max_scan_frame in Hfr; congruence).
  assert (Hin : forall j, (j < RECEIVER_CALIBRATION_SAMPLES_BUFFER_SIZE)%nat ->
                          uint16 (array_get (maxSamplesBuffer s) j)).
  { intros j Hj. apply array_get_Forall; [exact Hall | lia]. }
  unfold max_cache_exact. rewrite Hbuf.
  destruct Hwhere as [(Ht & Hi & Hf) | (Hi & Hg & Hf)].
  - rewrite Hi, Ht.
    assert (Hfull : forall j, (j < RECEIVER_CALIBRATION_SAMPLES_BUFFER_SIZE)%nat ->
                              array_get (maxSamplesBuffer s) j = 65535).
    { intros j Hj. specialize (Hlow j Hj). specialize (Hin j Hj).
      unfold uint16 in Hin. lia. }
    repeat split; auto.
    apply Z.le_antisymm.
    + apply buffer_min_lower_bound; [unfold UINT16_MAX; lia |].
      intros j Hj. rewrite Hfull by lia. lia.
    + rewrite <- (Hfull (tmpMaxIndex s) Hidx). apply buffer_min_le_get. lia.
  - repeat split; auto.
    + apply Z.le_antisymm.
      * apply buffer_min_lower_bound.
        -- rewrite <- Hg. specialize (Hin (tmpMaxIndex s1) Hi).
           unfold uint16 in Hin. unfold UINT16_MAX. lia.
        -- intros j Hj. apply Hlow. lia.
      * rewrite <- Hg. apply buffer_min_le_get. lia.
    + intros Htrue. congruence.
Qed.

(** One observation on the maximum side. *)
Lemma update_max_samples_spec : forall s pulse,
  max_side_ok s -> uint16 pulse ->
  let s' := update_max_samples s pulse in
  max_side_ok s'
  /\ min_side s' = min_side s
  /\ channelCalibrationPulseSamples s' = channelCalibrationPulseSamples s
  /\ (maxSamplesBuffer s' = maxSamplesBuffer s
      \/ (pulse > buffer_min (maxSamplesBuffer s)
          /\ exists i, (i < RECEIVER_CALIBRATION_SAMPLES_BUFFER_SIZE)%nat
                       /\ array_get (maxSamplesBuffer s) i = buffer_min (maxSamplesBuffer s)
                       /\ maxSamplesBuffer s' = array_set (maxSamplesBuffer s) i pulse)).
Proof.
  intros s pulse Hok Hpulse s'.
  set (s1 := if maxBufferUpdated s
             then for_loop RECEIVER_CALIBRATION_SAMPLES_BUFFER_SIZE 0 find_max_buffer_min s
             else s).
  assert (H1 : max_scan_frame s1 = max_scan_frame s /\ max_cache_exact s1).
  { subst s1. destruct (maxBufferUpdated s) eqn:Hflag.
    - apply rescan_max_exact; assumption.
    - split; [reflexivity |].
      destruct Hok as (Hlen & Hall & Hidx & Hcache). rewrite Hflag in Hcache.
      unfold max_cache_exact. rewrite Hflag. intuition congruence. }
  destruct H1 as (Hfr & Hidx1 & Hget1 & Hmin1 & Hflag1).
  assert (Hbuf : maxSamplesBuffer s1 = maxSamplesBuffer s)
    by (unfold max_scan_frame in Hfr; congruence).
  assert (Hcount : channelCalibrationPulseSamples s1 = channelCalibrationPulseSamples s)
    by (unfold max_scan_frame in Hfr; congruence).
  assert (Hminside : min_side s1 = min_side s)
    by (unfold max_scan_frame in Hfr; congruence).
  destruct Hok as (Hlen & Hall & _ & _).
  assert (Hs' : s' = if pulse >? tmpMaxBufferMinValue s1
                     then with_max_sample s1 pulse else s1) by reflexivity.
  destruct (Z.gtb_spec pulse (tmpMaxBufferMinValue s1)) as [Hgt | Hle];
    rewrite Hs'; clear Hs'.
  - repeat split.
    + simpl. rewrite array_set_length, Hbuf. exact Hlen.
    + simpl. apply array_set_Forall; [rewrite Hbuf; exact Hall | exact Hpulse].
    + simpl. exact Hidx1.
    + exact Hminside.
    + exact Hcount.
    + right. split; [rewrite <- Hbuf, <- Hmin1; lia |].
      exists (tmpMaxIndex s1). rewrite <- Hbuf.
      repeat split; auto. congruence.
  - repeat split; auto.
    + rewrite Hbuf. exact Hlen.
    + rewrite Hbuf. exact Hall.
    + destruct (maxBufferUpdated s1); auto.
Qed.

(** The rescan of the minimum side, symmetric. *)
Lemma rescan_min_exact : forall s,
  min_side_ok s -> minBufferUpdated s = true ->
  let s1 := for_loop RECEIVER_CALIBRATION_SAMPLES_BUFFER_SIZE 0 find_min_buffer_max s in
  min_scan_frame s1 = min_scan_frame s /\ min_cache_exact s1.
Proof.
  intros s (Hlen & Hall & Hidx & Hcache) Hflag s1. rewrite Hflag in Hcache.
  pose (P := fun (i : nat) (x : Receiver_ChannelCalibrationSampling_TypeDef) =>
    min_scan_frame x = min_scan_frame s
    /\ (forall j, (j < i)%nat -> array_get (minSamplesBuffer s) j <= tmpMinBufferMaxValue x)
    /\ ((tmpMinBufferMaxValue x = 0 /\ tmpMinIndex x = tmpMinIndex s
         /\ minBufferUpdated x = true)
        \/ ((tmpMinIndex x < i)%nat
            /\ array_get (minSamplesBuffer s) (tmpMinIndex x) = tmpMinBufferMaxValue x
            /\ minBufferUpdated x = false))).
  assert (HP : P (0 + RECEIVER_CALIBRATION_SAMPLES_BUFFER_SIZE)%nat s1).
  { apply for_loop_invariant.
    - unfold P. split; [reflexivity |]. split; [intros j Hj; lia |]. left. auto.
    - intros i x Hi (Hfr & Hupp & Hwhere). unfold P, find_min_buffer_max.
      assert (Hbuf : minSamplesBuffer x = minSamplesBuffer s)
        by (unfold min_scan_frame in Hfr; congruence).
      rewrite Hbuf.
      destruct (Z.ltb_spec (tmpMinBufferMaxValue x) (array_get (minSamplesBuffer s) i))
        as [Hlt | Hge].
      + split; [exact Hfr |]. split.
        * intros j Hj. simpl. destruct (Nat.eq_dec j i) as [-> | Hne]; [lia |].
          specialize (Hupp j ltac:(lia)). lia.
        * right. simpl. repeat split; lia.
      + split; [exact Hfr |]. split.
        * intros j Hj. destruct (Nat.eq_dec j i) as [-> | Hne]; [lia |].
          apply Hupp. lia.
        * destruct Hwhere as [Hsame | (Hi' & Hg & Hf)]; [left; exact Hsame |].
          right. repeat split; auto; lia. }
  simpl in HP. destruct HP as (Hfr & Hupp & Hwhere).
  split; [exact Hfr |].
  assert (Hbuf : minSamplesBuffer s1 = minSamplesBuffer s)
    by (unfold min_scan_frame in Hfr; congruence).
  assert (Hin : forall j, (j < RECEIVER_CALIBRATION_SAMPLES_BUFFER_SIZE)%nat ->
                          uint16 (array_get (minSamplesBuffer s) j)).
  { intros j Hj. apply array_get_Forall; [exact Hall | lia]. }
  unfold min_cache_exact. rewrite Hbuf.
  destruct Hwhere as [(Ht & Hi & Hf) | (Hi & Hg & Hf)].
  - rewrite Hi, Ht.
    assert (Hnull : forall j, (j < RECEIVER_CALIBRATION_SAMPLES_BUFFER_SIZE)%nat ->
                              array_get (minSamplesBuffer s) j = 0).
    { intros j Hj. specialize (Hupp j Hj). specialize (Hin j Hj).
      unfold uint16 in Hin. lia. }
    repeat split; auto.
    apply Z.le_antisymm.
    + rewrite <- (Hnull (tmpMinIndex s) Hidx). apply buffer_max_ge_get. lia.
    + apply buffer_max_upper_bound; [lia |].
      intros j Hj. rewrite Hnull by lia. lia.
  - repeat split; auto.
    + apply Z.le_antisymm.
      * rewrite <- Hg. apply buffer_max_ge_get. lia.
      * apply buffer_max_upper_bound.
        -- rewrite <- Hg. specialize (Hin (tmpMinIndex s1) Hi).
           unfold uint16 in Hin. lia.
        -- intros j Hj. apply Hupp. lia.
    + intros Htrue. congruence.
Qed.

(** One observation on the minimum side. *)
Lemma update_min_samples_spec : forall s pulse,
  min_side_ok s -> uint16 pulse ->
  let s' := update_min_samples s pulse in
  min_side_ok s'
  /\ max_side s' = max_side s
  /\ channelCalibrationPulseSamples s' = channelCalibrationPulseSamples s
  /\ (minSamplesBuffer s' = minSamplesBuffer s
      \/ (pulse < buffer_max (minSamplesBuffer s)
          /\ exists i, (i < RECEIVER_CALIBRATION_SAMPLES_BUFFER_SIZE)%nat
                       /\ array_get (minSamplesBuffer s) i = buffer_max (minSamplesBuffer s)
                       /\ minSamplesBuffer s' = array_set (minSamplesBuffer s) i pulse)).
Proof.
  intros s pulse Hok Hpulse s'.
  set (s1 := if minBufferUpdated s
             then for_loop RECEIVER_CALIBRATION_SAMPLES_BUFFER_SIZE 0 find_min_buffer_max s
             else s).
  assert (H1 : min_scan_frame s1 = min_scan_frame s /\ min_cache_exact s1).
  { subst s1. destruct (minBufferUpdated s) eqn:Hflag.
    - apply rescan_min_exact; assumption.
    - split; [reflexivity |].
      destruct Hok as (Hlen & Hall & Hidx & Hcache). rewrite Hflag in Hcache.
      unfold min_cache_exact. rewrite Hflag. intuition congruence. }
  destruct H1 as (Hfr & Hidx1 & Hget1 & Hmax1 & Hflag1).
  assert (Hbuf : minSamplesBuffer s1 = minSamplesBuffer s)
    by (unfold min_scan_frame in Hfr; congruence).
  assert (Hcount : channelCalibrationPulseSamples s1 = channelCalibrationPulseSamples s)
    by (unfold min_scan_frame in Hfr; congruence).
  assert (Hmaxside : max_side s1 = max_side s)
    by (unfold min_scan_frame in Hfr; congruence).
  destruct Hok as (Hlen & Hall & _ & _).
  assert (Hs' : s' = if pulse <? tmpMinBufferMaxValue s1
                     then with_min_sample s1 pulse else s1) by reflexivity.
  destruct (Z.ltb_spec pulse (tmpMinBufferMaxValue s1)) as [Hlt | Hge];
    rewrite Hs'; clear Hs'.
  - repeat split.
    + simpl. rewrite array_set_length, Hbuf. exact Hlen.
    + simpl. apply array_set_Forall; [rewrite Hbuf; exact Hall | exact Hpulse].
    + simpl. exact Hidx1.
    + exact Hmaxside.
    + exact Hcount.
    + right. split; [rewrite <- Hbuf, <- Hmax1; lia |].
      exists (tmpMinIndex s1). rewrite <- Hbuf.
      repeat split; auto. congruence.
  - repeat split; auto.
    + rewrite Hbuf. exact Hlen.
    + rewrite Hbuf. exact Hall.
    + destruct (minBufferUpdated s1); auto.
Qed.

Lemma buffer_min_repeat : forall x n,
  (0 < n)%nat -> uint16 x -> buffer_min (repeat x n) = x.
Proof.
  intros x n Hn Hx. unfold uint16 in Hx. unfold buffer_min, UINT16_MAX.
  induction n as [| m IH]; [lia |]. simpl.
  destruct m as [| k]; simpl in *; [lia |].
  specialize (IH ltac:(lia)). lia.
Qed.

Lemma buffer_max_repeat : forall x n,
  (0 < n)%nat -> uint16 x -> buffer_max (repeat x n) = x.
Proof.
  intros x n Hn Hx. unfold uint16 in Hx. unfold buffer_max.
  induction n as [| m IH]; [lia |]. simpl.
  destruct m as [| k]; simpl in *; [lia |].
  specialize (IH ltac:(lia)). lia.
Qed.

Lemma ResetCalibrationSampling_ok : forall s, window_ok (ResetCalibrationSampling s).
Proof.
  intros s.
  assert (Hget : array_get (repeat RECEIVER_CALIBRATION_BUFFER_INIT_VALUE
                              RECEIVER_CALIBRATION_SAMPLES_BUFFER_SIZE) 0
                 = RECEIVER_CALIBRATION_BUFFER_INIT_VALUE).
  { unfold array_get.
    destruct RECEIVER_CALIBRATION_SAMPLES_BUFFER_SIZE; [lia | reflexivity]. }
  assert (Hall : Forall uint16 (repeat RECEIVER_CALIBRATION_BUFFER_INIT_VALUE
                                  RECEIVER_CALIBRATION_SAMPLES_BUFFER_SIZE)).
  { apply Forall_forall. intros x Hx. apply repeat_spec in Hx. now subst. }
  split; unfold max_side_ok, min_side_ok; simpl; rewrite repeat_length;
    repeat split; auto.
  - symmetry. apply buffer_min_repeat; assumption.
  - symmetry. apply buffer_max_repeat; assumption.
Qed.

Lemma UpdateChannelCalibrationSamples_ok : forall s pulse,
  window_ok s -> uint16 pulse ->
  window_ok (fst (UpdateChannelCalibrationSamples s pulse)).
Proof.
  intros s pulse [Hmax Hmin] Hpulse. simpl.
  destruct (update_max_samples_spec s pulse Hmax Hpulse) as (Hmax1 & Hside1 & _ & _).
  assert (Hmin1 : min_side_ok (update_max_samples s pulse))
    by (apply (min_side_ok_ext s); assumption).
  destruct (update_min_samples_spec _ pulse Hmin1 Hpulse) as (Hmin2 & Hside2 & _ & _).
  split.
  - apply (max_side_ok_ext (update_max_samples s pulse)); [| exact Hmax1].
    rewrite <- Hside2. reflexivity.
  - apply (min_side_ok_ext (update_min_samples (update_max_samples s pulse) pulse));
      [reflexivity | exact Hmin2].
Qed.

(** Every state a window takes during a session has a coherent cache. *)
Lemma session_window_ok : forall s, session_window s -> window_ok s.
Proof.
  induction 1 as [s | s pulse Hs IH Hpulse].
  - apply ResetCalibrationSampling_ok.
  - apply UpdateChannelCalibrationSamples_ok; assumption.
Qed.

(** C6: in every state a channel's sampling window takes during a
    calibration session and for every observed pulse width, one call
    of [UpdateChannelCalibrationSamples] writes at most one slot of
    [maxSamplesBuffer] and at most one slot of [minSamplesBuffer]; a
    slot of the maximum buffer is written only if the pulse width is
    strictly greater than the least element of that buffer, a slot of
    the minimum buffer only if it is strictly smaller than the
    greatest element of that buffer; the least element of the maximum
    buffer never decreases, the greatest element of the minimum buffer
    never increases, and both buffers keep their size. *)
Theorem UpdateChannelCalibrationSamples_extrema : forall s pulse,
  session_window s -> uint16 pulse ->
  let s' := fst (UpdateChannelCalibrationSamples s pulse) in
  (forall i j,
      written_slots (maxSamplesBuffer s) (maxSamplesBuffer s') i ->
      written_slots (maxSamplesBuffer s) (maxSamplesBuffer s') j -> i = j)
  /\ (forall i j,
      written_slots (minSamplesBuffer s) (minSamplesBuffer s') i ->
      written_slots (minSamplesBuffer s) (minSamplesBuffer s') j -> i = j)
  /\ (forall i,
      written_slots (maxSamplesBuffer s) (maxSamplesBuffer s') i ->
      pulse > buffer_min (maxSamplesBuffer s))
  /\ (forall i,
      written_slots (minSamplesBuffer s) (minSamplesBuffer s') i ->
      pulse < buffer_max (minSamplesBuffer s))
  /\ buffer_min (maxSamplesBuffer s) <= buffer_min (maxSamplesBuffer s')
  /\ buffer_max (minSamplesBuffer s') <= buffer_max (minSamplesBuffer s)
  /\ length (maxSamplesBuffer s') = RECEIVER_CALIBRATION_SAMPLES_BUFFER_SIZE
  /\ length (minSamplesBuffer s') = RECEIVER_CALIBRATION_SAMPLES_BUFFER_SIZE.
Proof.
  intros s pulse Hs Hpulse s'.
  destruct (session_window_ok s Hs) as [Hmax Hmin].
  destruct (update_max_samples_spec s pulse Hmax Hpulse)
    as (Hmax1 & Hside1 & _ & Hwmax).
  assert (Hmin1 : min_side_ok (update_max_samples s pulse))
    by (apply (min_side_ok_ext s); assumption).
  destruct (update_min_samples_spec _ pulse Hmin1 Hpulse)
    as (Hmin2 & Hside2 & _ & Hwmin).
  assert (Emax : maxSamplesBuffer s' = maxSamplesBuffer (update_max_samples s pulse)).
  { subst s'. simpl. unfold max_side in Hside2. congruence. }
  assert (Emin0 : minSamplesBuffer (update_max_samples s pulse) = minSamplesBuffer s).
  { unfold min_side in Hside1. congruence. }
  assert (Emin : minSamplesBuffer s'
                 = minSamplesBuffer (update_min_samples (update_max_samples s pulse) pulse))
    by reflexivity.
  rewrite Emin0 in Hwmin. rewrite <- Emax in Hwmax. rewrite <- Emin in Hwmin.
  destruct Hmax1 as (Lmax & _). destruct Hmin2 as (Lmin & _).
  rewrite <- Emax in Lmax. rewrite <- Emin in Lmin.
  clearbody s'. clear Emax Emin Emin0 Hside1 Hside2 Hmin1.
  repeat split; try assumption.
  - intros i j Hi Hj.
    destruct Hwmax as [E | (_ & k & _ & _ & E)]; rewrite E in Hi, Hj.
    + elim (written_slots_same _ _ Hi).
    + apply written_slots_array_set in Hi, Hj. congruence.
  - intros i j Hi Hj.
    destruct Hwmin as [E | (_ & k & _ & _ & E)]; rewrite E in Hi, Hj.
    + elim (written_slots_same _ _ Hi).
    + apply written_slots_array_set in Hi, Hj. congruence.
  - intros i Hi.
    destruct Hwmax as [E | (Hgt & _)]; [| exact Hgt].
    rewrite E in Hi. elim (written_slots_same _ _ Hi).
  - intros i Hi.
    destruct Hwmin as [E | (Hlt & _)]; [| exact Hlt].
    rewrite E in Hi. elim (written_slots_same _ _ Hi).
  - destruct Hwmax as [E | (Hgt & k & _ & _ & E)]; rewrite E; [lia |].
    apply buffer_min_array_set; lia.
  - destruct Hwmin as [E | (Hlt & k & _ & _ & E)]; rewrite E; [lia |].
    apply buffer_max_array_set; lia.
Qed.

End Sampler.

(** ** Calibration controller *)

Lemma set_chan_same : forall (T : Type) (p : PerChannel T) c, set_chan p c (chan p c) = p.
Proof. intros T [] []; reflexivity. Qed.

Lemma enough_samples_short : forall w c,
  channelCalibrationPulseSamples (chan w c) < RECEIVER_CALIBRATION_MIN_PULSE_COUNT ->
  enough_samples w = RECEIVER_ERROR.
Proof.
  intros w c Hc. apply Z.ltb_lt in Hc. unfold enough_samples.
  destruct c; simpl in Hc; rewrite Hc;
    repeat match goal with
           | |- context [if ?b then _ else _] => destruct b
           end; reflexivity.
Qed.

(** C7: if [StopReceiverCalibration] is called while a calibration is in
    progress and some channel has counted fewer samples than
    [RECEIVER_CALIBRATION_MIN_PULSE_COUNT], it returns [RECEIVER_ERROR],
    leaves the calibration values in use (and the record in flash) as
    they were, and puts the calibration state back to waiting. *)
Theorem StopReceiverCalibration_undersampled : forall st flashWriteOk flashAfter c,
  receiverCalibrationState st = RECEIVER_CALIBRATION_IN_PROGRESS ->
  channelCalibrationPulseSamples (chan (CalibrationSampling st) c)
    < RECEIVER_CALIBRATION_MIN_PULSE_COUNT ->
  snd (StopReceiverCalibration st flashWriteOk flashAfter) = RECEIVER_ERROR
  /\ CalibrationValues (fst (StopReceiverCalibration st flashWriteOk flashAfter))
     = CalibrationValues st
  /\ FlashCalibrationValues (fst (StopReceiverCalibration st flashWriteOk flashAfter))
     = FlashCalibrationValues st
  /\ receiverCalibrationState (fst (StopReceiverCalibration st flashWriteOk flashAfter))
     = RECEIVER_CALIBRATION_WAITING.
Proof.
  intros st flashWriteOk flashAfter c Hprog Hshort.
  unfold StopReceiverCalibration. rewrite Hprog. simpl.
  rewrite (enough_samples_short _ c Hshort).
  destruct (negb _); simpl; repeat split.
Qed.

(** The timeout while the tick counter has not wrapped since the start of
    the calibration, so that the time passed is [tick - calibrationStartTime]:
    when the decoder processes a valid falling-edge pulse and that time
    exceeds [RECEIVER_MAX_CALIBRATION_DURATION], the calibration state
    goes back to waiting, no calibration values are installed or saved,
    the sampling windows are not touched, and a [StopReceiverCalibration]
    called afterwards returns [RECEIVER_ERROR] and changes nothing. *)
Theorem calibration_times_out : forall c st icValue tick flashWriteOk flashAfter,
  receiverCalibrationState st = RECEIVER_CALIBRATION_IN_PROGRESS ->
  chan (ReceiverPulseStates st) c = PULSE_HIGH ->
  IsReceiverPulseValid
    (wrap16 (wrap16 icValue - RisingCount (chan (ICValues st) c)))
    (ReceiverTimerPeriodCountOf st c)
    (PreviousRisingCountTimerPeriodCount (chan (ICValues st) c)) = RECEIVER_OK ->
  uint32 (calibrationStartTime st) -> uint32 tick ->
  0 <= RECEIVER_MAX_CALIBRATION_DURATION ->
  tick - calibrationStartTime st > RECEIVER_MAX_CALIBRATION_DURATION ->
  let st1 := fst (UpdateReceiverChannelOf c st icValue tick) in
  receiverCalibrationState st1 = RECEIVER_CALIBRATION_WAITING
  /\ CalibrationValues st1 = CalibrationValues st
  /\ FlashCalibrationValues st1 = FlashCalibrationValues st
  /\ CalibrationSampling st1 = CalibrationSampling st
  /\ StopReceiverCalibration st1 flashWriteOk flashAfter = (st1, RECEIVER_ERROR).
Proof.
  intros c st icValue tick flashWriteOk flashAfter Hprog Hhigh Hvalid Hstart Htick Hmax Hlate st1.
  assert (E : st1 = store_refs st c
                      (mkRefs TIM_ICPOLARITY_RISING PULSE_LOW
                         (with_pulse (with_FallingCounter (chan (ICValues st) c) icValue)
                            (wrap16 (wrap16 icValue - RisingCount (chan (ICValues st) c))))
                         (chan (CalibrationSampling st) c)
                         RECEIVER_CALIBRATION_WAITING)).
  { subst st1. unfold UpdateReceiverChannelOf, UpdateReceiverChannel.
    simpl. rewrite Hhigh. unfold tempPulseTimerCount. simpl.
    rewrite Hvalid, Hprog. simpl.
    unfold uint32 in Hstart, Htick.
    rewrite wrap32_small by (unfold uint32; lia).
    destruct (Z.gtb_spec tick (RECEIVER_MAX_CALIBRATION_DURATION + calibrationStartTime st));
      [reflexivity | lia]. }
  rewrite E. simpl. rewrite set_chan_same. repeat split.
Qed.

(** The windows the sampler works on are session windows: a calibration
    starts from reset windows, and the decoder only hands them to
    [UpdateChannelCalibrationSamples] with a [uint16_t] pulse width. *)
Lemma StartReceiverCalibration_session_window : forall st tick c,
  receiverCalibrationState st <> RECEIVER_CALIBRATION_IN_PROGRESS ->
  session_window (chan (CalibrationSampling (fst (StartReceiverCalibration st tick))) c).
Proof.
  intros st tick c Hidle. unfold StartReceiverCalibration.
  destruct (receiverCalibrationState st); [| congruence].
  destruct c; simpl; apply session_reset.
Qed.

Lemma UpdateReceiverChannel_session_window : forall r icValue cnt start tick,
  session_window (ChannelCalibrationSampling r) ->
  session_window
    (ChannelCalibrationSampling (fst (UpdateReceiverChannel r icValue cnt start tick))).
Proof.
  intros r icValue cnt start tick Hs. unfold UpdateReceiverChannel.
  destruct (channelInputState r); [exact Hs |].
  cbv zeta.
  destruct (bool_of_status (IsReceiverPulseValid _ _ _)); [| exact Hs].
  destruct (ReceiverCalibrationState_eqb _ _); [| exact Hs].
  destruct (tick >? _); [exact Hs |].
  cbn [fst ChannelCalibrationSampling].
  apply session_sample; [exact Hs | apply wrap16_range].
Qed.

(** ** Activity monitor *)

(** A channel is reported active exactly when its flag is set and no
    more than the threshold of counter periods has passed since its last
    rising edge. *)
Lemma IsReceiverChannelActive_ok : forall v cnt,
  snd (IsReceiverChannelActive v cnt) = RECEIVER_OK
  <-> IsActive v = RECEIVER_OK
      /\ wrap32 (cnt - PreviousRisingCountTimerPeriodCount v)
         <= IS_RECEIVER_CHANNEL_INACTIVE_PERIODS_COUNT.
Proof.
  intros v cnt. unfold IsReceiverChannelActive. cbv zeta.
  destruct (Z.gtb_spec (wrap32 (cnt - PreviousRisingCountTimerPeriodCount v))
              IS_RECEIVER_CHANNEL_INACTIVE_PERIODS_COUNT) as [Hgt | Hle]; simpl.
  - split; [discriminate | intros [_ Hle]; lia].
  - split; [intros Ha; split; [exact Ha | lia] | intros [Ha _]; exact Ha].
Qed.

Lemma IsReceiverActive_result : forall st,
  snd (IsReceiverActive st)
  = status_of_bool
      (bool_of_status (snd (IsReceiverChannelActive (ofAileron (ICValues st))
                              (PrimaryReceiverTimerPeriodCount st)))
       && bool_of_status (snd (IsReceiverChannelActive (ofElevator (ICValues st))
                                 (PrimaryReceiverTimerPeriodCount st)))
       && bool_of_status (snd (IsReceiverChannelActive (ofRudder (ICValues st))
                                 (PrimaryReceiverTimerPeriodCount st)))).
Proof.
  intros st. unfold IsReceiverActive.
  destruct (IsReceiverChannelActive (ofAileron (ICValues st)) _).
  destruct (IsReceiverChannelActive (ofElevator (ICValues st)) _).
  destruct (IsReceiverChannelActive (ofRudder (ICValues st)) _).
  reflexivity.
Qed.

(** C9, as amended: [IsReceiverActive] returns [RECEIVER_OK] if and only
    if the aileron, elevator and rudder channels are each active, a
    channel being active when its flag is set (by its last valid pulse,
    and not cleared since by a query that found it aged out) and at most
    [IS_RECEIVER_CHANNEL_INACTIVE_PERIODS_COUNT] increments of the period
    counter separate the query from its last rising edge, the period
    counter not having wrapped since that edge; the throttle, gear and
    aux1 channels have no influence on the result, so one voting channel
    that has aged out makes the link inactive whatever the throttle
    does. *)
Theorem IsReceiverActive_three_channel_vote : forall st,
  let cnt := PrimaryReceiverTimerPeriodCount st in
  let rising c := PreviousRisingCountTimerPeriodCount (chan (ICValues st) c) in
  let active c :=
    IsActive (chan (ICValues st) c) = RECEIVER_OK
    /\ cnt - rising c <= IS_RECEIVER_CHANNEL_INACTIVE_PERIODS_COUNT in
  uint16 cnt ->
  (forall c, c = Aileron \/ c = Elevator \/ c = Rudder ->
             uint16 (rising c) /\ rising c <= cnt) ->
  (snd (IsReceiverActive st) = RECEIVER_OK
   <-> active Aileron /\ active Elevator /\ active Rudder)
  /\ (forall st2,
        ofAileron (ICValues st2) = ofAileron (ICValues st) ->
        ofElevator (ICValues st2) = ofElevator (ICValues st) ->
        ofRudder (ICValues st2) = ofRudder (ICValues st) ->
        PrimaryReceiverTimerPeriodCount st2 = PrimaryReceiverTimerPeriodCount st ->
        snd (IsReceiverActive st2) = snd (IsReceiverActive st))
  /\ (forall c,
        c = Aileron \/ c = Elevator \/ c = Rudder ->
        cnt - rising c > IS_RECEIVER_CHANNEL_INACTIVE_PERIODS_COUNT ->
        snd (IsReceiverActive st) = RECEIVER_ERROR).
Proof.
  intros st cnt rising active Hcnt Hrising.
  assert (Hdiff : forall c, c = Aileron \/ c = Elevator \/ c = Rudder ->
                    wrap32 (cnt - rising c) = cnt - rising c).
  { intros c Hc. destruct (Hrising c Hc) as [Hr Hle].
    apply wrap32_small. unfold uint16 in Hcnt, Hr. unfold uint32. lia. }
  assert (Hchan : forall c, c = Aileron \/ c = Elevator \/ c = Rudder ->
                    (snd (IsReceiverChannelActive (chan (ICValues st) c) cnt) = RECEIVER_OK
                     <-> active c)).
  { intros c Hc. rewrite IsReceiverChannelActive_ok.
    fold (rising c). rewrite (Hdiff c Hc). reflexivity. }
  assert (Hvote : snd (IsReceiverActive st) = RECEIVER_OK
                  <-> active Aileron /\ active Elevator /\ active Rudder).
  { rewrite <- (Hchan Aileron), <- (Hchan Elevator), <- (Hchan Rudder) by auto.
    rewrite IsReceiverActive_result. subst cnt. unfold chan.
    destruct (snd (IsReceiverChannelActive (ofAileron (ICValues st))
                     (PrimaryReceiverTimerPeriodCount st)));
      destruct (snd (IsReceiverChannelActive (ofElevator (ICValues st))
                       (PrimaryReceiverTimerPeriodCount st)));
      destruct (snd (IsReceiverChannelActive (ofRudder (ICValues st))
                       (PrimaryReceiverTimerPeriodCount st)));
      simpl; split; try discriminate; try (intros (H1 & H2 & H3); discriminate);
      repeat split. }
  split; [exact Hvote |].
  split.
  - intros st2 Ha He Hr Hc. rewrite !IsReceiverActive_result.
    rewrite Ha, He, Hr, Hc. reflexivity.
  - intros c Hc Hold.
    destruct (snd (IsReceiverActive st)) eqn:Hres; [reflexivity |].
    destruct (proj1 Hvote eq_refl) as (Ha & He & Hr).
    assert (Hact : active c) by (destruct Hc as [-> | [-> | ->]]; assumption).
    destruct Hact as [_ Hact]. lia.
Qed.

(** * Further properties of the module *)

(** ** Value normalizer, on every input *)

Lemma to_int16_range : forall z, int16 (to_int16 z).
Proof.
  intros z. unfold int16, to_int16.
  pose proof (wrap16_range z) as Hz. unfold uint16 in Hz.
  destruct (Z.ltb_spec (wrap16 z) 32768); lia.
Qed.

Lemma GetSignedReceiverChannel_int16 : forall v cal,
  int16 (GetSignedReceiverChannel v cal).
Proof.
  intros v cal. unfold GetSignedReceiverChannel.
  destruct (_ <? _); [unfold int16, INT16_MIN; lia |].
  destruct (_ >? _); [unfold int16, INT16_MAX; lia |].
  destruct (_ >? _); [apply to_int16_range | unfold int16; lia].
Qed.

(** Whatever the IC values and the calibration record hold, the
    normalized value lies in [-32768, 32767], the range the source
    documents. *)
Theorem GetSignedReceiverChannel_range : forall v cal,
  INT16_MIN <= GetSignedReceiverChannel v cal <= INT16_MAX.
Proof. intros v cal. apply GetSignedReceiverChannel_int16. Qed.

(** For any record of [uint16_t] bounds, ordered or not, the normalized
    value never decreases when the pulse width grows, over the whole
    [uint16_t] range and across the saturated, interpolated and degenerate
    cases. *)
Theorem GetSignedReceiverChannel_monotone_everywhere : forall cal v1 v2,
  uint16 (ChannelMinCount cal) -> uint16 (ChannelMaxCount cal) ->
  PulseTimerCount v1 <= PulseTimerCount v2 ->
  GetSignedReceiverChannel v1 cal <= GetSignedReceiverChannel v2 cal.
Proof.
  intros cal v1 v2 Hlo Hhi H12.
  pose proof (GetSignedReceiverChannel_int16 v1 cal) as R1.
  pose proof (GetSignedReceiverChannel_int16 v2 cal) as R2.
  unfold int16 in R1, R2.
  destruct (Z_lt_le_dec (PulseTimerCount v1) (ChannelMinCount cal)) as [Hb1 | Hb1].
  { assert (E : GetSignedReceiverChannel v1 cal = INT16_MIN).
    { unfold GetSignedReceiverChannel.
      destruct (Z.ltb_spec (PulseTimerCount v1) (ChannelMinCount cal)); [reflexivity | lia]. }
    rewrite E. unfold INT16_MIN. lia. }
  destruct (Z_lt_le_dec (ChannelMaxCount cal) (PulseTimerCount v2)) as [Ha2 | Ha2].
  { assert (E : GetSignedReceiverChannel v2 cal = INT16_MAX).
    { unfold GetSignedReceiverChannel.
      destruct (Z.ltb_spec (PulseTimerCount v2) (ChannelMinCount cal)); [lia |].
      destruct (Z.gtb_spec (PulseTimerCount v2) (ChannelMaxCount cal)); [reflexivity | lia]. }
    rewrite E. unfold INT16_MAX. lia. }
  destruct (Z_lt_le_dec (ChannelMinCount cal) (ChannelMaxCount cal)) as [Hord | Hord].
  - rewrite !GetSignedReceiverChannel_interpolates by (assumption || lia).
    unfold interpolate, UINT16_MAX. apply Z.add_le_mono_l.
    apply Z.div_le_mono; nia.
  - assert (E : forall v, ChannelMinCount cal <= PulseTimerCount v <= ChannelMaxCount cal ->
                          GetSignedReceiverChannel v cal = 0).
    { intros v Hv. unfold GetSignedReceiverChannel.
      destruct (Z.ltb_spec (PulseTimerCount v) (ChannelMinCount cal)); [lia |].
      destruct (Z.gtb_spec (PulseTimerCount v) (ChannelMaxCount cal)); [lia |].
      destruct (Z.gtb_spec (ChannelMaxCount cal) (ChannelMinCount cal)); [lia | reflexivity]. }
    rewrite (E v1), (E v2) by lia. lia.
Qed.

(** ** Calibration validation *)

Lemma channel_calibration_valid_iff : forall c,
  channel_calibration_valid c = true
  <-> RECEIVER_MAX_CALIBRATION_MIN_PULSE_COUNT <= ChannelMaxCount c
        <= RECEIVER_MAX_CALIBRATION_MAX_PULSE_COUNT
      /\ RECEIVER_MIN_CALIBRATION_MIN_PULSE_COUNT <= ChannelMinCount c
         <= RECEIVER_MIN_CALIBRATION_MAX_PULSE_COUNT.
Proof.
  intros c. unfold channel_calibration_valid, IsCalibrationMaxPulseValueValid,
    IsCalibrationMinPulseValueValid.
  destruct (Z.leb_spec (ChannelMaxCount c) RECEIVER_MAX_CALIBRATION_MAX_PULSE_COUNT);
    destruct (Z.geb_spec (ChannelMaxCount c) RECEIVER_MAX_CALIBRATION_MIN_PULSE_COUNT);
    destruct (Z.leb_spec (ChannelMinCount c) RECEIVER_MIN_CALIBRATION_MAX_PULSE_COUNT);
    destruct (Z.geb_spec (ChannelMinCount c) RECEIVER_MIN_CALIBRATION_MIN_PULSE_COUNT);
    simpl; split; intros Hv; try discriminate; try reflexivity; lia.
Qed.

Lemma valid_bounds_in_bands : forall v,
  IsCalibrationValuesValid v = RECEIVER_OK -> bounds_in_bands v.
Proof.
  intros v Hok c. unfold IsCalibrationValuesValid in Hok.
  apply channel_calibration_valid_iff.
  destruct (channel_calibration_valid (ThrottleChannel v)) eqn:E1; [| discriminate].
  destruct (channel_calibration_valid (AileronChannel v)) eqn:E2; [| discriminate].
  destruct (channel_calibration_valid (ElevatorChannel v)) eqn:E3; [| discriminate].
  destruct (channel_calibration_valid (RudderChannel v)) eqn:E4; [| discriminate].
  destruct (channel_calibration_valid (GearChannel v)) eqn:E5; [| discriminate].
  destruct (channel_calibration_valid (Aux1Channel v)) eqn:E6; [| discriminate].
  destruct c; assumption.
Qed.

Lemma bounds_in_bands_valid : forall v,
  bounds_in_bands v -> IsCalibrationValuesValid v = RECEIVER_OK.
Proof.
  intros v Hall. unfold IsCalibrationValuesValid.
  pose proof (proj2 (channel_calibration_valid_iff _) (Hall Throttle)) as H1.
  pose proof (proj2 (channel_calibration_valid_iff _) (Hall Aileron)) as H2.
  pose proof (proj2 (channel_calibration_valid_iff _) (Hall Elevator)) as H3.
  pose proof (proj2 (channel_calibration_valid_iff _) (Hall Rudder)) as H4.
  pose proof (proj2 (channel_calibration_valid_iff _) (Hall Gear)) as H5.
  pose proof (proj2 (channel_calibration_valid_iff _) (Hall Aux1)) as H6.
  simpl in H1, H2, H3, H4, H5, H6.
  rewrite H1, H2, H3, H4, H5, H6. reflexivity.
Qed.

(** The chain of twelve early returns accepts a record exactly when each
    of its six maxima lies in the band of maxima and each of its six
    minima in the band of minima. *)
Theorem IsCalibrationValuesValid_iff : forall v,
  IsCalibrationValuesValid v = RECEIVER_OK <-> bounds_in_bands v.
Proof.
  intros v. split; [apply valid_bounds_in_bands | apply bounds_in_bands_valid].
Qed.

(** With bands that do not overlap and lie in the [uint16_t] range, a
    channel read through a record that passed validation is the clamped
    interpolation: [INT16_MIN] below the minimum, [INT16_MAX] above the
    maximum, and in between the interpolated value; the degenerate result
    0 of equal bounds cannot occur. *)
Theorem GetReceiverChannelOf_validated : forall c st,
  IsCalibrationValuesValid (CalibrationValues st) = RECEIVER_OK ->
  0 <= RECEIVER_MIN_CALIBRATION_MIN_PULSE_COUNT ->
  RECEIVER_MIN_CALIBRATION_MAX_PULSE_COUNT < RECEIVER_MAX_CALIBRATION_MIN_PULSE_COUNT ->
  RECEIVER_MAX_CALIBRATION_MAX_PULSE_COUNT < 65536 ->
  let p := PulseTimerCount (chan (ICValues st) c) in
  let lo := ChannelMinCount (calibration_of c (CalibrationValues st)) in
  let hi := ChannelMaxCount (calibration_of c (CalibrationValues st)) in
  lo < hi
  /\ GetReceiverChannelOf c st
     = if p <? lo then INT16_MIN
       else if p >? hi then INT16_MAX
       else interpolate p lo hi.
Proof.
  intros c st Hvalid H0 Hsep H16 p lo hi.
  apply valid_bounds_in_bands in Hvalid. specialize (Hvalid c).
  fold lo hi in Hvalid.
  split; [lia |].
  unfold GetReceiverChannelOf. fold p.
  destruct (Z.ltb_spec p lo) as [Hlt | Hge].
  - unfold GetSignedReceiverChannel. fold p lo.
    destruct (Z.ltb_spec p lo); [reflexivity | lia].
  - destruct (Z.gtb_spec p hi) as [Hgt | Hle].
    + unfold GetSignedReceiverChannel. fold p lo hi.
      destruct (Z.ltb_spec p lo); [lia |].
      destruct (Z.gtb_spec p hi); [reflexivity | lia].
    + apply GetSignedReceiverChannel_interpolates; fold p lo hi; unfold uint16; lia.
Qed.

(** ** Calibration controller, beyond the failure cases *)

Lemma CalibrationValues_Enforce : forall st v,
  CalibrationValues (EnforceNewCalibrationValues st v) = v.
Proof. intros st [[] [] [] [] [] []]. reflexivity. Qed.

Lemma enough_samples_ok : forall w,
  enough_samples w = RECEIVER_OK
  <-> forall c, RECEIVER_CALIBRATION_MIN_PULSE_COUNT
                <= channelCalibrationPulseSamples (chan w c).
Proof.
  intros w. split.
  - intros Hok c.
    destruct (Z_lt_le_dec (channelCalibrationPulseSamples (chan w c))
                RECEIVER_CALIBRATION_MIN_PULSE_COUNT) as [Hshort | Hfine]; [| exact Hfine].
    rewrite (enough_samples_short w c Hshort) in Hok. discriminate.
  - intros Hall. unfold enough_samples.
    pose proof (Hall Throttle) as H1. pose proof (Hall Aileron) as H2.
    pose proof (Hall Elevator) as H3. pose proof (Hall Rudder) as H4.
    pose proof (Hall Gear) as H5. pose proof (Hall Aux1) as H6.
    simpl in H1, H2, H3, H4, H5, H6.
    repeat match goal with
           | |- context [?a <? ?b] => destruct (Z.ltb_spec a b); [lia |]
           end.
    reflexivity.
Qed.

(** What [StopReceiverCalibration] returns and leaves behind, by case. *)
Lemma StopReceiverCalibration_cases : forall st flashWriteOk flashAfter,
  let means := mean_calibration (CalibrationSampling st) in
  (receiverCalibrationState st = RECEIVER_CALIBRATION_IN_PROGRESS
   /\ enough_samples (CalibrationSampling st) = RECEIVER_OK
   /\ IsCalibrationValuesValid means = RECEIVER_OK
   /\ StopReceiverCalibration st flashWriteOk flashAfter
      = (end_session (EnforceNewCalibrationValues
                        (save_calibration st flashWriteOk flashAfter) means),
         RECEIVER_OK))
  \/ (receiverCalibrationState st = RECEIVER_CALIBRATION_IN_PROGRESS
      /\ (enough_samples (CalibrationSampling st) = RECEIVER_ERROR
          \/ IsCalibrationValuesValid means = RECEIVER_ERROR)
      /\ StopReceiverCalibration st flashWriteOk flashAfter = (end_session st, RECEIVER_ERROR))
  \/ (receiverCalibrationState st = RECEIVER_CALIBRATION_WAITING
      /\ StopReceiverCalibration st flashWriteOk flashAfter = (st, RECEIVER_ERROR)).
Proof.
  intros st flashWriteOk flashAfter means. unfold StopReceiverCalibration. fold means.
  destruct (receiverCalibrationState st); simpl.
  - right. right. split; reflexivity.
  - destruct (IsCalibrationValuesValid means) eqn:Ev; simpl.
    + right. left. split; [reflexivity |]. split; [right; reflexivity | reflexivity].
    + destruct (enough_samples (CalibrationSampling st)) eqn:Es.
      * right. left. split; [reflexivity |]. split; [left; reflexivity | reflexivity].
      * left. repeat split.
Qed.

(** [StopReceiverCalibration] returns [RECEIVER_OK] exactly when a
    calibration is in progress, each of the six channels has counted at
    least [RECEIVER_CALIBRATION_MIN_PULSE_COUNT] samples and the buffer
    means pass validation, whatever the flash write returns. It then
    installs the means as the calibration in use, goes back to waiting
    and stops the print task. *)
Theorem StopReceiverCalibration_commit : forall st flashWriteOk flashAfter,
  let means := mean_calibration (CalibrationSampling st) in
  let st' := fst (StopReceiverCalibration st flashWriteOk flashAfter) in
  (snd (StopReceiverCalibration st flashWriteOk flashAfter) = RECEIVER_OK
   <-> receiverCalibrationState st = RECEIVER_CALIBRATION_IN_PROGRESS
       /\ (forall c, RECEIVER_CALIBRATION_MIN_PULSE_COUNT
                     <= channelCalibrationPulseSamples (chan (CalibrationSampling st) c))
       /\ IsCalibrationValuesValid means = RECEIVER_OK)
  /\ (snd (StopReceiverCalibration st flashWriteOk flashAfter) = RECEIVER_OK ->
      CalibrationValues st' = means
      /\ receiverCalibrationState st' = RECEIVER_CALIBRATION_WAITING
      /\ ReceiverPrintSamplingTaskRunning st' = false).
Proof.
  intros st flashWriteOk flashAfter means st'. subst st'.
  destruct (StopReceiverCalibration_cases st flashWriteOk flashAfter)
    as [(Hp & Hs & Hv & E) | [(Hp & Hbad & E) | (Hw & E)]]; fold means in Hv, E || idtac.
  - fold means in E. rewrite E. cbn [fst snd]. split.
    + split; [intros _ | reflexivity].
      split; [exact Hp |]. split; [apply enough_samples_ok; exact Hs | exact Hv].
    + intros _. unfold end_session. cbn [CalibrationValues].
      rewrite CalibrationValues_Enforce. repeat split.
  - rewrite E. simpl. split; [| discriminate].
    split; [discriminate |]. intros (_ & Hs & Hv).
    apply enough_samples_ok in Hs. fold means in Hbad.
    destruct Hbad as [Hbad | Hbad]; congruence.
  - rewrite E. simpl. split; [| discriminate].
    split; [discriminate |]. intros (Hp & _). congruence.
Qed.

(** A calibration stopped right after it was started fails for lack of
    samples whenever the required count is positive, and the calibration
    in use stays what it was before the start. *)
Theorem StartReceiverCalibration_then_stop : forall st tick flashWriteOk flashAfter,
  0 < RECEIVER_CALIBRATION_MIN_PULSE_COUNT ->
  receiverCalibrationState st = RECEIVER_CALIBRATION_WAITING ->
  let st1 := fst (StartReceiverCalibration st tick) in
  let st2 := fst (StopReceiverCalibration st1 flashWriteOk flashAfter) in
  snd (StartReceiverCalibration st tick) = RECEIVER_OK
  /\ snd (StopReceiverCalibration st1 flashWriteOk flashAfter) = RECEIVER_ERROR
  /\ CalibrationValues st2 = CalibrationValues st
  /\ FlashCalibrationValues st2 = FlashCalibrationValues st
  /\ receiverCalibrationState st2 = RECEIVER_CALIBRATION_WAITING.
Proof.
  intros st tick flashWriteOk flashAfter Hmin Hwait st1 st2.
  assert (E1 : StartReceiverCalibration st tick = (st1, RECEIVER_OK)).
  { subst st1. unfold StartReceiverCalibration. rewrite Hwait. reflexivity. }
  assert (Hp : receiverCalibrationState st1 = RECEIVER_CALIBRATION_IN_PROGRESS).
  { subst st1. unfold StartReceiverCalibration. rewrite Hwait. reflexivity. }
  assert (Hshort : enough_samples (CalibrationSampling st1) = RECEIVER_ERROR).
  { apply (enough_samples_short _ Throttle).
    subst st1. unfold StartReceiverCalibration. rewrite Hwait. simpl. exact Hmin. }
  assert (Hkeep : CalibrationValues st1 = CalibrationValues st
                  /\ FlashCalibrationValues st1 = FlashCalibrationValues st).
  { subst st1. unfold StartReceiverCalibration. rewrite Hwait. split; reflexivity. }
  destruct (StopReceiverCalibration_cases st1 flashWriteOk flashAfter)
    as [(_ & Hs & _) | [(_ & _ & E) | (Hw & _)]]; [congruence | | congruence].
  subst st2. rewrite E1, E. simpl. destruct Hkeep as [-> ->]. repeat split.
Qed.

(** A second start during a calibration is refused and leaves the running
    calibration alone: the six windows, the start time and everything
    else stay as the first start left them. *)
Theorem StartReceiverCalibration_busy : forall st tick1 tick2,
  receiverCalibrationState st = RECEIVER_CALIBRATION_WAITING ->
  let st1 := fst (StartReceiverCalibration st tick1) in
  calibrationStartTime st1 = tick1
  /\ (forall c, chan (CalibrationSampling st1) c
                = ResetCalibrationSampling (chan (CalibrationSampling st) c))
  /\ StartReceiverCalibration st1 tick2 = (st1, RECEIVER_ERROR).
Proof.
  intros st tick1 tick2 Hwait st1.
  assert (Hp : receiverCalibrationState st1 = RECEIVER_CALIBRATION_IN_PROGRESS)
    by (subst st1; unfold StartReceiverCalibration; rewrite Hwait; reflexivity).
  split; [subst st1; unfold StartReceiverCalibration; rewrite Hwait; reflexivity |].
  split.
  - intros c. subst st1. unfold StartReceiverCalibration. rewrite Hwait.
    destruct c; reflexivity.
  - clearbody st1. unfold StartReceiverCalibration. rewrite Hp. reflexivity.
Qed.

(** ** Frames of the entry points *)

Lemma chan_set_chan_same : forall (T : Type) (p : PerChannel T) c v,
  chan (set_chan p c v) c = v.
Proof. intros T p [] v; reflexivity. Qed.

Lemma chan_set_chan_other : forall (T : Type) (p : PerChannel T) c c' v,
  c' <> c -> chan (set_chan p c v) c' = chan p c'.
Proof. intros T p [] [] v Hne; try reflexivity; congruence. Qed.

(** The decoder may end a calibration but never starts one. *)
Lemma UpdateReceiverChannel_calibrationState : forall r icValue cnt start tick,
  calibrationState (fst (UpdateReceiverChannel r icValue cnt start tick))
    = calibrationState r
  \/ calibrationState (fst (UpdateReceiverChannel r icValue cnt start tick))
       = RECEIVER_CALIBRATION_WAITING.
Proof.
  intros r icValue cnt start tick. unfold UpdateReceiverChannel.
  destruct (channelInputState r); [left; reflexivity |].
  cbv zeta.
  destruct (bool_of_status (IsReceiverPulseValid _ _ _)); [| left; reflexivity].
  destruct (ReceiverCalibrationState_eqb _ _); [| left; reflexivity].
  destruct (tick >? _); [right | left]; reflexivity.
Qed.

Lemma UpdateReceiverChannelOf_fst : forall c st icValue tick,
  fst (UpdateReceiverChannelOf c st icValue tick)
  = store_refs st c
      (fst (UpdateReceiverChannel (refs_of st c) icValue
              (ReceiverTimerPeriodCountOf st c) (calibrationStartTime st) tick)).
Proof.
  intros c st icValue tick. unfold UpdateReceiverChannelOf.
  destruct (UpdateReceiverChannel _ _ _ _ _). reflexivity.
Qed.

(** What a capture on channel [c] leaves alone. *)
Lemma UpdateReceiverChannelOf_frame : forall c st icValue tick,
  let st' := fst (UpdateReceiverChannelOf c st icValue tick) in
  CalibrationValues st' = CalibrationValues st
  /\ calibrationStartTime st' = calibrationStartTime st
  /\ PrimaryReceiverTimerPeriodCount st' = PrimaryReceiverTimerPeriodCount st
  /\ AuxReceiverTimerPeriodCount st' = AuxReceiverTimerPeriodCount st
  /\ FlashCalibrationValues st' = FlashCalibrationValues st
  /\ forall c', c' <> c ->
       chan (ICValues st') c' = chan (ICValues st) c'
       /\ chan (ReceiverPulseStates st') c' = chan (ReceiverPulseStates st) c'
       /\ chan (ChannelICConfig st') c' = chan (ChannelICConfig st) c'
       /\ chan (CalibrationSampling st') c' = chan (CalibrationSampling st) c'.
Proof.
  intros c st icValue tick st'. subst st'. rewrite UpdateReceiverChannelOf_fst.
  unfold store_refs. simpl. repeat split; apply chan_set_chan_other; assumption.
Qed.

(** The capture callback is one of the six channel updates or nothing. *)
Lemma HAL_TIM_IC_CaptureCallback_cases : forall Instance ActiveChannel st icValue tick,
  HAL_TIM_IC_CaptureCallback Instance ActiveChannel st icValue tick = st
  \/ exists c,
       HAL_TIM_IC_CaptureCallback Instance ActiveChannel st icValue tick
       = fst (UpdateReceiverChannelOf c st icValue tick)
       /\ (Instance = PRIMARY_RECEIVER_TIM -> c <> Gear /\ c <> Aux1)
       /\ (Instance = AUX_RECEIVER_TIM -> c = Gear \/ c = Aux1)
       /\ Instance <> OTHER_TIM.
Proof.
  intros Instance ActiveChannel st icValue tick. unfold HAL_TIM_IC_CaptureCallback.
  destruct Instance.
  - destruct (_ =? _);
      [right; exists Throttle; repeat split; congruence |].
    destruct (_ =? _);
      [right; exists Aileron; repeat split; congruence |].
    destruct (_ =? _);
      [right; exists Elevator; repeat split; congruence |].
    destruct (_ =? _);
      [right; exists Rudder; repeat split; congruence |].
    left. reflexivity.
  - destruct (_ =? _);
      [right; exists Gear; repeat split; try congruence; auto |].
    destruct (_ =? _);
      [right; exists Aux1; repeat split; try congruence; auto |].
    left. reflexivity.
  - left. reflexivity.
Qed.

(** One capture callback changes the pulse state, IC configuration, IC
    values and sampling window of at most one channel, and never the
    calibration in use, the start time, the period counters or the record
    in flash; a callback of the auxiliary timer leaves the four channels
    of the primary timer alone and one of the primary timer leaves gear
    and aux1 alone. *)
Theorem HAL_TIM_IC_CaptureCallback_frame : forall Instance ActiveChannel st icValue tick,
  let st' := HAL_TIM_IC_CaptureCallback Instance ActiveChannel st icValue tick in
  let untouched c :=
    chan (ICValues st') c = chan (ICValues st) c
    /\ chan (ReceiverPulseStates st') c = chan (ReceiverPulseStates st) c
    /\ chan (ChannelICConfig st') c = chan (ChannelICConfig st) c
    /\ chan (CalibrationSampling st') c = chan (CalibrationSampling st) c in
  CalibrationValues st' = CalibrationValues st
  /\ calibrationStartTime st' = calibrationStartTime st
  /\ PrimaryReceiverTimerPeriodCount st' = PrimaryReceiverTimerPeriodCount st
  /\ AuxReceiverTimerPeriodCount st' = AuxReceiverTimerPeriodCount st
  /\ FlashCalibrationValues st' = FlashCalibrationValues st
  /\ (forall c1 c2, c1 <> c2 -> untouched c1 \/ untouched c2)
  /\ (Instance = AUX_RECEIVER_TIM ->
      untouched Throttle /\ untouched Aileron /\ untouched Elevator /\ untouched Rudder)
  /\ (Instance = PRIMARY_RECEIVER_TIM -> untouched Gear /\ untouched Aux1)
  /\ (Instance = OTHER_TIM -> st' = st).
Proof.
  intros Instance ActiveChannel st icValue tick st' untouched.
  destruct (HAL_TIM_IC_CaptureCallback_cases Instance ActiveChannel st icValue tick)
    as [E | (c & E & Hprim & Haux & Hother)]; fold st' in E.
  - assert (Hall : forall c, untouched c) by (intros c; unfold untouched; rewrite E; auto).
    rewrite E. repeat split; auto; apply Hall.
  - destruct (UpdateReceiverChannelOf_frame c st icValue tick)
      as (H1 & H2 & H3 & H4 & H5 & Hrest).
    rewrite <- E in H1, H2, H3, H4, H5, Hrest.
    assert (Hne : forall c', c' <> c -> untouched c') by (intros c' Hc'; apply Hrest; exact Hc').
    split; [exact H1 |]. split; [exact H2 |]. split; [exact H3 |].
    split; [exact H4 |]. split; [exact H5 |].
    split.
    { intros c1 c2 H12.
      assert (Hdec : c1 = c \/ c1 <> c) by (destruct c1, c; (left; reflexivity) || (right; discriminate)).
      destruct Hdec as [-> | Hc1]; [right; apply Hne; congruence | left; apply Hne; exact Hc1]. }
    split.
    { intros Hi. destruct (Haux Hi) as [-> | ->];
        repeat split; apply Hne; discriminate. }
    split.
    { intros Hi. destruct (Hprim Hi) as [Hg Ha]. split; apply Hne; congruence. }
    intros Hi. congruence.
Qed.

(** ** Initialization and what holds in every reachable state *)

Section ValidDefaults.

Hypothesis default_max_valid :
  IsCalibrationMaxPulseValueValid RECEIVER_PULSE_DEFAULT_MAX_COUNT = RECEIVER_OK.
Hypothesis default_min_valid :
  IsCalibrationMinPulseValueValid RECEIVER_PULSE_DEFAULT_MIN_COUNT = RECEIVER_OK.

Lemma SetDefaultReceiverCalibrationValues_valid : forall v,
  IsCalibrationValuesValid (SetDefaultReceiverCalibrationValues v) = RECEIVER_OK.
Proof.
  intros v. unfold IsCalibrationValuesValid, SetDefaultReceiverCalibrationValues,
    channel_calibration_valid. simpl.
  rewrite default_max_valid, default_min_valid. reflexivity.
Qed.

Lemma InitReceiverCalibrationValues_cases : forall st readOk readValues,
  (readOk = true /\ IsCalibrationValuesValid readValues = RECEIVER_OK
   /\ InitReceiverCalibrationValues st readOk readValues
      = (with_CalibrationValues st readValues, RECEIVER_OK))
  \/ ((readOk = false \/ IsCalibrationValuesValid readValues = RECEIVER_ERROR)
      /\ InitReceiverCalibrationValues st readOk readValues
         = (with_CalibrationValues st (SetDefaultReceiverCalibrationValues readValues),
            RECEIVER_ERROR)).
Proof.
  intros st readOk readValues.
  unfold InitReceiverCalibrationValues, LoadReceiverCalibrationValuesFromFlash.
  destruct readOk; simpl; [| right; split; [left |]; reflexivity].
  destruct (IsCalibrationValuesValid readValues); simpl.
  - right. split; [right |]; reflexivity.
  - left. repeat split.
Qed.

(** [InitReceiverCalibrationValues] reports [RECEIVER_OK] exactly when the
    flash read succeeded and the record read passes validation, and then
    takes that record into use; in every other case, a failed read
    included, the twelve bounds in use are the defaults. Either way the
    record in use passes validation, and nothing else of the state
    changes. *)
Theorem InitReceiverCalibrationValues_spec : forall st readOk readValues,
  let st' := fst (InitReceiverCalibrationValues st readOk readValues) in
  let status := snd (InitReceiverCalibrationValues st readOk readValues) in
  (status = RECEIVER_OK
   <-> readOk = true /\ IsCalibrationValuesValid readValues = RECEIVER_OK)
  /\ (status = RECEIVER_OK -> CalibrationValues st' = readValues)
  /\ (status = RECEIVER_ERROR ->
      forall c, calibration_of c (CalibrationValues st')
                = mkChannelCalibration RECEIVER_PULSE_DEFAULT_MAX_COUNT
                                       RECEIVER_PULSE_DEFAULT_MIN_COUNT)
  /\ IsCalibrationValuesValid (CalibrationValues st') = RECEIVER_OK
  /\ st' = with_CalibrationValues st (CalibrationValues st').
Proof.
  intros st readOk readValues st' status. subst st' status.
  destruct (InitReceiverCalibrationValues_cases st readOk readValues)
    as [(Hr & Hv & E) | (Hbad & E)]; rewrite E; simpl.
  - split; [split; auto |]. split; [reflexivity |].
    split; [discriminate |]. split; [exact Hv | reflexivity].
  - split.
    { split; [discriminate |]. intros [Hr Hv].
      destruct Hbad as [Hbad | Hbad]; congruence. }
    split; [discriminate |].
    split; [intros _ []; reflexivity |].
    split; [apply SetDefaultReceiverCalibrationValues_valid | reflexivity].
Qed.

Lemma receiver_step_calibration : forall st st',
  receiver_step st st' ->
  CalibrationValues st' = CalibrationValues st
  \/ IsCalibrationValuesValid (CalibrationValues st') = RECEIVER_OK.
Proof.
  intros st st' Hstep. destruct Hstep.
  - left.
    destruct (HAL_TIM_IC_CaptureCallback_cases Instance ActiveChannel st icValue tick)
      as [E | (c & E & _)]; rewrite E; [reflexivity |].
    apply UpdateReceiverChannelOf_frame.
  - left. reflexivity.
  - left. unfold StartReceiverCalibration. destruct (negb _); reflexivity.
  - destruct (StopReceiverCalibration_cases st flashWriteOk flashAfter)
      as [(_ & _ & Hv & E) | [(_ & _ & E) | (_ & E)]]; rewrite E.
    + right. cbn [fst]. unfold end_session. cbn [CalibrationValues].
      rewrite CalibrationValues_Enforce. exact Hv.
    + left. reflexivity.
    + left. reflexivity.
  - left. unfold IsReceiverActive.
    destruct (IsReceiverChannelActive (ofAileron (ICValues st)) _).
    destruct (IsReceiverChannelActive (ofElevator (ICValues st)) _).
    destruct (IsReceiverChannelActive (ofRudder (ICValues st)) _).
    reflexivity.
Qed.

(** From initialization on, through any sequence of capture and period
    callbacks, calibration starts and stops and activity queries, the
    calibration record in use passes [IsCalibrationValuesValid]. *)
Theorem reachable_calibration_valid : forall st,
  receiver_reachable st ->
  IsCalibrationValuesValid (CalibrationValues st) = RECEIVER_OK.
Proof.
  induction 1 as [st readOk readValues Hwait | st st' Hreach IH Hstep].
  - destruct (InitReceiverCalibrationValues_cases st readOk readValues)
      as [(_ & Hv & E) | (_ & E)]; rewrite E; simpl.
    + exact Hv.
    + apply SetDefaultReceiverCalibrationValues_valid.
  - destruct (receiver_step_calibration st st' Hstep) as [E | Hv];
      [rewrite E; exact IH | exact Hv].
Qed.

End ValidDefaults.

Lemma receiver_step_windows : forall st st',
  receiver_step st st' ->
  (receiverCalibrationState st = RECEIVER_CALIBRATION_IN_PROGRESS ->
   forall c, session_window (chan (CalibrationSampling st) c)) ->
  receiverCalibrationState st' = RECEIVER_CALIBRATION_IN_PROGRESS ->
  forall c, session_window (chan (CalibrationSampling st') c).
Proof.
  intros st st' Hstep IH Hp' c'. destruct Hstep.
  - destruct (HAL_TIM_IC_CaptureCallback_cases Instance ActiveChannel st icValue tick)
      as [E | (c & E & _)]; rewrite E in Hp' |- *; [apply IH; exact Hp' |].
    rewrite UpdateReceiverChannelOf_fst in Hp' |- *.
    assert (Hp : receiverCalibrationState st = RECEIVER_CALIBRATION_IN_PROGRESS).
    { simpl in Hp'.
      destruct (UpdateReceiverChannel_calibrationState (refs_of st c) icValue
                  (ReceiverTimerPeriodCountOf st c) (calibrationStartTime st) tick)
        as [Hk | Hk]; rewrite Hk in Hp'; [exact Hp' | discriminate]. }
    unfold store_refs. cbn [CalibrationSampling].
    assert (Hdec : c' = c \/ c' <> c)
      by (destruct c', c; (left; reflexivity) || (right; discriminate)).
    destruct Hdec as [-> | Hne].
    + rewrite chan_set_chan_same. apply UpdateReceiverChannel_session_window.
      apply (IH Hp).
    + rewrite chan_set_chan_other by exact Hne. apply (IH Hp).
  - apply IH. exact Hp'.
  - destruct (receiverCalibrationState st) eqn:Es.
    + apply StartReceiverCalibration_session_window. congruence.
    + unfold StartReceiverCalibration in *. rewrite Es in *. simpl in *.
      apply IH. reflexivity.
  - destruct (StopReceiverCalibration_cases st flashWriteOk flashAfter)
      as [(_ & _ & _ & E) | [(_ & _ & E) | (Hw & E)]]; rewrite E in Hp'; simpl in Hp';
      congruence.
  - unfold IsReceiverActive in *.
    destruct (IsReceiverChannelActive (ofAileron (ICValues st)) _).
    destruct (IsReceiverChannelActive (ofElevator (ICValues st)) _).
    destruct (IsReceiverChannelActive (ofRudder (ICValues st)) _).
    simpl in *. apply IH. exact Hp'.
Qed.

(** In every reachable state in which a calibration is in progress, each
    of the six sampling windows is a window reset at the start of that
    calibration and since then changed only by observations of [uint16_t]
    pulse widths. *)
Theorem reachable_windows_in_session : forall st,
  receiver_reachable st ->
  receiverCalibrationState st = RECEIVER_CALIBRATION_IN_PROGRESS ->
  forall c, session_window (chan (CalibrationSampling st) c).
Proof.
  induction 1 as [st readOk readValues Hwait | st st' Hreach IH Hstep].
  - intros Hp. exfalso. revert Hp.
    unfold InitReceiverCalibrationValues.
    destruct (LoadReceiverCalibrationValuesFromFlash readOk readValues) as [v e].
    destruct (negb _); simpl; congruence.
  - apply (receiver_step_windows st st' Hstep IH).
Qed.

(** ** Input capture decoder, edge after edge *)

(** Every capture event, valid or not, moves the channel to the other
    pulse state and sets the polarity to the edge awaited there. *)
Lemma UpdateReceiverChannel_toggles : forall r icValue cnt start tick,
  let r' := fst (UpdateReceiverChannel r icValue cnt start tick) in
  channelInputState r' = next_state (channelInputState r)
  /\ TimIC r' = awaited_polarity (channelInputState r').
Proof.
  intros r icValue cnt start tick. unfold UpdateReceiverChannel.
  destruct (channelInputState r); cbv zeta; [split; reflexivity |].
  destruct (bool_of_status (IsReceiverPulseValid _ _ _)); [| split; reflexivity].
  destruct (ReceiverCalibrationState_eqb _ _); [| split; reflexivity].
  destruct (tick >? _); split; reflexivity.
Qed.

(** Over any sequence of capture events, whatever their values and
    validity, the decoder alternates between the two pulse states: after
    an even number of events the channel is in the state it started from,
    after an odd number in the other one, and after at least one event the
    polarity is the one awaited in the state reached. *)
Theorem decode_all_alternates : forall start events r,
  channelInputState (decode_all start events r)
  = (if Nat.even (length events)
     then channelInputState r else next_state (channelInputState r))
  /\ (events <> [] ->
      TimIC (decode_all start events r)
      = awaited_polarity (channelInputState (decode_all start events r))).
Proof.
  intros start events. unfold decode_all.
  induction events as [| e rest IH] using rev_ind; intros r.
  - split; [reflexivity | congruence].
  - rewrite fold_left_app. simpl.
    destruct (UpdateReceiverChannel_toggles
                (fold_left (fun x e0 => fst (UpdateReceiverChannel x (captured e0)
                                               (periodCount e0) start (systemTick e0)))
                           rest r)
                (captured e) (periodCount e) start (systemTick e)) as [Hs Hp].
    split; [| intros _; exact Hp].
    rewrite Hs. rewrite (proj1 (IH r)).
    rewrite length_app. simpl. rewrite Nat.add_1_r, Nat.even_succ, <- Nat.negb_even.
    destruct (Nat.even (length rest)); simpl; [reflexivity |].
    destruct (channelInputState r); reflexivity.
Qed.

(** A rising edge followed by a falling edge measures the pulse as the
    difference of the two captured values modulo 65536, so a timer wrap
    between the two edges does not spoil it: if that width is within the
    valid bounds and the falling edge comes at most one counter period
    after the rising one, the width is stored, the channel is marked
    active and the channel is back in the low state. *)
Theorem pulse_measured_across_wrap : forall r rise fall cnt1 cnt2 start tick1 tick2,
  channelInputState r = PULSE_LOW ->
  let r1 := fst (UpdateReceiverChannel r rise cnt1 start tick1) in
  let r2 := fst (UpdateReceiverChannel r1 fall cnt2 start tick2) in
  let width := wrap16 (wrap16 fall - wrap16 rise) in
  RECEIVER_MIN_VALID_IC_PULSE_COUNT <= width <= RECEIVER_MAX_VALID_IC_PULSE_COUNT ->
  cnt2 - cnt1 <= 1 ->
  snd (UpdateReceiverChannel r1 fall cnt2 start tick2) = RECEIVER_OK
  /\ PulseTimerCount (ChannelICValues r2) = width
  /\ IsActive (ChannelICValues r2) = RECEIVER_OK
  /\ channelInputState r2 = PULSE_LOW
  /\ (wrap16 rise <= wrap16 fall -> width = wrap16 fall - wrap16 rise)
  /\ (wrap16 fall < wrap16 rise -> width = wrap16 fall + 65536 - wrap16 rise).
Proof.
  intros r rise fall cnt1 cnt2 start tick1 tick2 Hlow r1 r2 width Hwidth Hcnt.
  assert (E1 : r1 = mkRefs TIM_ICPOLARITY_FALLING PULSE_HIGH
                      (ChannelICValues r1) (ChannelCalibrationSampling r)
                      (calibrationState r)
               /\ RisingCount (ChannelICValues r1) = wrap16 rise
               /\ PreviousRisingCountTimerPeriodCount (ChannelICValues r1) = cnt1).
  { subst r1. rewrite UpdateReceiverChannel_rising by exact Hlow. cbv zeta. simpl.
    destruct (bool_of_status (IsReceiverPeriodValid _)); repeat split. }
  destruct E1 as (E1 & Hrise & Hprev).
  assert (Hvalid : IsReceiverPulseValid width cnt2 cnt1 = RECEIVER_OK).
  { unfold IsReceiverPulseValid.
    destruct (Z.leb_spec width RECEIVER_MAX_VALID_IC_PULSE_COUNT); [| lia].
    destruct (Z.geb_spec width RECEIVER_MIN_VALID_IC_PULSE_COUNT); [| lia].
    destruct (Z.leb_spec (cnt2 - cnt1) 1); [reflexivity | lia]. }
  assert (E2 : snd (UpdateReceiverChannel r1 fall cnt2 start tick2) = RECEIVER_OK
               /\ ChannelICValues r2
                  = with_pulse (with_FallingCounter (ChannelICValues r1) fall) width
               /\ channelInputState r2 = PULSE_LOW).
  { subst r2. clearbody r1. rewrite E1. unfold UpdateReceiverChannel.
    cbn [channelInputState ChannelICValues]. cbv zeta.
    unfold tempPulseTimerCount.
    cbn [with_FallingCounter FallingCounter RisingCount
         PreviousRisingCountTimerPeriodCount].
    rewrite Hrise, Hprev. fold width. rewrite Hvalid. cbn [bool_of_status].
    destruct (ReceiverCalibrationState_eqb _ _); [| repeat split].
    destruct (tick2 >? _); repeat split. }
  destruct E2 as (Hok & Hv & Hs).
  pose proof (wrap16_range rise) as Rr. pose proof (wrap16_range fall) as Rf.
  unfold uint16 in Rr, Rf.
  split; [exact Hok |]. split; [rewrite Hv; reflexivity |].
  split; [rewrite Hv; reflexivity |]. split; [exact Hs |].
  split.
  - intros Hle. subst width. apply wrap16_small. unfold uint16. lia.
  - intros Hlt. subst width. unfold wrap16 at 1.
    replace (wrap16 fall - wrap16 rise)
      with (wrap16 fall + 65536 - wrap16 rise + (-1) * 65536) by lia.
    rewrite Z.mod_add by lia. apply Z.mod_small. lia.
Qed.

(** ** The calibration deadline *)

(** What a valid falling edge does during a calibration, by the outcome
    of the deadline test. *)
Lemma UpdateReceiverChannel_valid_pulse_calibrating : forall r icValue cnt start tick,
  channelInputState r = PULSE_HIGH ->
  calibrationState r = RECEIVER_CALIBRATION_IN_PROGRESS ->
  let pulse := wrap16 (wrap16 icValue - RisingCount (ChannelICValues r)) in
  IsReceiverPulseValid pulse cnt (PreviousRisingCountTimerPeriodCount (ChannelICValues r))
    = RECEIVER_OK ->
  let r' := fst (UpdateReceiverChannel r icValue cnt start tick) in
  (tick > wrap32 (RECEIVER_MAX_CALIBRATION_DURATION + start) ->
   calibrationState r' = RECEIVER_CALIBRATION_WAITING
   /\ ChannelCalibrationSampling r' = ChannelCalibrationSampling r)
  /\ (tick <= wrap32 (RECEIVER_MAX_CALIBRATION_DURATION + start) ->
      calibrationState r' = RECEIVER_CALIBRATION_IN_PROGRESS
      /\ ChannelCalibrationSampling r'
         = fst (UpdateChannelCalibrationSamples (ChannelCalibrationSampling r) pulse)).
Proof.
  intros r icValue cnt start tick Hhigh Hprog pulse Hvalid r'. subst r'.
  unfold UpdateReceiverChannel. rewrite Hhigh. cbv zeta.
  unfold tempPulseTimerCount.
  cbn [with_FallingCounter FallingCounter RisingCount PreviousRisingCountTimerPeriodCount].
  fold pulse. rewrite Hvalid, Hprog. cbn [bool_of_status ReceiverCalibrationState_eqb].
  destruct (Z.gtb_spec tick (wrap32 (RECEIVER_MAX_CALIBRATION_DURATION + start)));
    split; intros Hcmp; try lia; split; try reflexivity; exact Hprog.
Qed.

(** C8: the timeout is missed once the tick counter has wrapped. The
    source compares [HAL_GetTick()] with
    [RECEIVER_MAX_CALIBRATION_DURATION + calibrationStartTime] instead of
    comparing the time passed, [HAL_GetTick() - calibrationStartTime] in
    [uint32_t], with the maximum duration. So when the tick counter has
    wrapped since the start and the deadline itself fits in 32 bits, a
    valid falling-edge pulse is handed to the sampler and the calibration
    stays in progress although it has been in progress for longer than
    the maximum duration. *)
Theorem calibration_timeout_missed_after_tick_wrap : forall r icValue cnt start tick,
  channelInputState r = PULSE_HIGH ->
  calibrationState r = RECEIVER_CALIBRATION_IN_PROGRESS ->
  let pulse := wrap16 (wrap16 icValue - RisingCount (ChannelICValues r)) in
  IsReceiverPulseValid pulse cnt (PreviousRisingCountTimerPeriodCount (ChannelICValues r))
    = RECEIVER_OK ->
  uint32 start -> uint32 tick -> 0 <= RECEIVER_MAX_CALIBRATION_DURATION ->
  start + RECEIVER_MAX_CALIBRATION_DURATION < 4294967296 ->
  tick < start ->
  wrap32 (tick - start) > RECEIVER_MAX_CALIBRATION_DURATION ->
  let r' := fst (UpdateReceiverChannel r icValue cnt start tick) in
  calibrationState r' = RECEIVER_CALIBRATION_IN_PROGRESS
  /\ ChannelCalibrationSampling r'
     = fst (UpdateChannelCalibrationSamples (ChannelCalibrationSampling r) pulse).
Proof.
  intros r icValue cnt start tick Hhigh Hprog pulse Hvalid Hs Ht Hm Hfit Hwrapped Hold r'.
  destruct (UpdateReceiverChannel_valid_pulse_calibrating r icValue cnt start tick
              Hhigh Hprog Hvalid) as [_ Hearly].
  apply Hearly. unfold uint32 in Hs, Ht.
  rewrite wrap32_small by (unfold uint32; lia). lia.
Qed.

(** The deadline is exclusive: while [calibrationStartTime] plus the
    maximum duration fits in 32 bits, a valid pulse decoded exactly at the
    maximum duration, or before, is still handed to the sampler and the
    calibration goes on; one tick later the calibration is ended and the
    pulse is not sampled. *)
Theorem calibration_deadline_exclusive : forall r icValue cnt start tick,
  channelInputState r = PULSE_HIGH ->
  calibrationState r = RECEIVER_CALIBRATION_IN_PROGRESS ->
  let pulse := wrap16 (wrap16 icValue - RisingCount (ChannelICValues r)) in
  IsReceiverPulseValid pulse cnt (PreviousRisingCountTimerPeriodCount (ChannelICValues r))
    = RECEIVER_OK ->
  0 <= start -> 0 <= RECEIVER_MAX_CALIBRATION_DURATION ->
  start + RECEIVER_MAX_CALIBRATION_DURATION < 4294967296 ->
  let r' := fst (UpdateReceiverChannel r icValue cnt start tick) in
  (tick - start <= RECEIVER_MAX_CALIBRATION_DURATION ->
   calibrationState r' = RECEIVER_CALIBRATION_IN_PROGRESS
   /\ ChannelCalibrationSampling r'
      = fst (UpdateChannelCalibrationSamples (ChannelCalibrationSampling r) pulse))
  /\ (tick - start > RECEIVER_MAX_CALIBRATION_DURATION ->
      calibrationState r' = RECEIVER_CALIBRATION_WAITING
      /\ ChannelCalibrationSampling r' = ChannelCalibrationSampling r).
Proof.
  intros r icValue cnt start tick Hhigh Hprog pulse Hvalid Hs Hm Hfit r'.
  destruct (UpdateReceiverChannel_valid_pulse_calibrating r icValue cnt start tick
              Hhigh Hprog Hvalid) as [Hlate Hearly].
  fold pulse r' in Hlate, Hearly.
  rewrite wrap32_small in Hlate, Hearly by (unfold uint32; lia).
  split; intros Hcmp; [apply Hearly | apply Hlate]; lia.
Qed.

(** When [calibrationStartTime] plus the maximum duration does not fit in
    32 bits the deadline wraps around: the first valid pulse ends the
    calibration, however little time has passed since the start, as long
    as the tick counter has not wrapped itself. *)
Theorem calibration_deadline_wraps : forall r icValue cnt start tick,
  channelInputState r = PULSE_HIGH ->
  calibrationState r = RECEIVER_CALIBRATION_IN_PROGRESS ->
  let pulse := wrap16 (wrap16 icValue - RisingCount (ChannelICValues r)) in
  IsReceiverPulseValid pulse cnt (PreviousRisingCountTimerPeriodCount (ChannelICValues r))
    = RECEIVER_OK ->
  uint32 start -> uint32 RECEIVER_MAX_CALIBRATION_DURATION ->
  4294967296 <= start + RECEIVER_MAX_CALIBRATION_DURATION ->
  start <= tick ->
  let r' := fst (UpdateReceiverChannel r icValue cnt start tick) in
  calibrationState r' = RECEIVER_CALIBRATION_WAITING
  /\ ChannelCalibrationSampling r' = ChannelCalibrationSampling r.
Proof.
  intros r icValue cnt start tick Hhigh Hprog pulse Hvalid Hs Hm Hover Htick r'.
  destruct (UpdateReceiverChannel_valid_pulse_calibrating r icValue cnt start tick
              Hhigh Hprog Hvalid) as [Hlate _].
  apply Hlate. unfold uint32 in Hs, Hm.
  assert (E : wrap32 (RECEIVER_MAX_CALIBRATION_DURATION + start)
              = RECEIVER_MAX_CALIBRATION_DURATION + start - 4294967296).
  { unfold wrap32. symmetry. apply (Z.mod_unique_pos _ _ 1); lia. }
  rewrite E. lia.
Qed.

(** The deadline is only looked at when a valid pulse is decoded: a rising
    edge, or a falling edge whose pulse fails validation, leaves a
    calibration in progress however late it is. *)
Theorem calibration_outlives_deadline : forall r icValue cnt start tick,
  calibrationState r = RECEIVER_CALIBRATION_IN_PROGRESS ->
  channelInputState r = PULSE_LOW
  \/ IsReceiverPulseValid
       (wrap16 (wrap16 icValue - RisingCount (ChannelICValues r))) cnt
       (PreviousRisingCountTimerPeriodCount (ChannelICValues r)) = RECEIVER_ERROR ->
  let r' := fst (UpdateReceiverChannel r icValue cnt start tick) in
  calibrationState r' = RECEIVER_CALIBRATION_IN_PROGRESS
  /\ ChannelCalibrationSampling r' = ChannelCalibrationSampling r.
Proof.
  intros r icValue cnt start tick Hprog Hcase r'. subst r'.
  unfold UpdateReceiverChannel.
  destruct (channelInputState r) eqn:Hstate.
  - cbv zeta. split; [exact Hprog | reflexivity].
  - destruct Hcase as [Hlow | Hbad]; [discriminate |].
    cbv zeta. unfold tempPulseTimerCount.
    cbn [with_FallingCounter FallingCounter RisingCount
         PreviousRisingCountTimerPeriodCount].
    rewrite Hbad. cbn [bool_of_status]. split; [exact Hprog | reflexivity].
Qed.

(** ** Activity monitor, query after query *)

(** Once a channel has been reported inactive it stays inactive for every
    later query, whatever the period count then is, until a valid pulse
    marks it active again; and asking twice in the same counter period
    changes nothing. *)
Theorem IsReceiverChannelActive_latches : forall v cnt,
  let v1 := fst (IsReceiverChannelActive v cnt) in
  IsReceiverChannelActive v1 cnt = (v1, snd (IsReceiverChannelActive v cnt))
  /\ (snd (IsReceiverChannelActive v cnt) = RECEIVER_ERROR ->
      forall cnt', snd (IsReceiverChannelActive v1 cnt') = RECEIVER_ERROR)
  /\ (forall pulse cnt',
        wrap32 (cnt' - PreviousRisingCountTimerPeriodCount v1)
          <= IS_RECEIVER_CHANNEL_INACTIVE_PERIODS_COUNT ->
        snd (IsReceiverChannelActive (with_pulse v1 pulse) cnt') = RECEIVER_OK).
Proof.
  intros v cnt v1. subst v1. unfold IsReceiverChannelActive. cbv zeta.
  destruct (Z.gtb_spec (wrap32 (cnt - PreviousRisingCountTimerPeriodCount v))
              IS_RECEIVER_CHANNEL_INACTIVE_PERIODS_COUNT) as [Hgt | Hle];
    cbn [fst snd with_IsActive IsActive PreviousRisingCountTimerPeriodCount with_pulse].
  - split; [| split].
    + destruct (Z.gtb_spec (wrap32 (cnt - PreviousRisingCountTimerPeriodCount v))
                  IS_RECEIVER_CHANNEL_INACTIVE_PERIODS_COUNT); [reflexivity | lia].
    + intros _ cnt'. destruct (_ >? _); reflexivity.
    + intros pulse cnt' Hin.
      destruct (Z.gtb_spec (wrap32 (cnt' - PreviousRisingCountTimerPeriodCount v))
                  IS_RECEIVER_CHANNEL_INACTIVE_PERIODS_COUNT); [lia | reflexivity].
  - split; [| split].
    + destruct (Z.gtb_spec (wrap32 (cnt - PreviousRisingCountTimerPeriodCount v))
                  IS_RECEIVER_CHANNEL_INACTIVE_PERIODS_COUNT); [lia | reflexivity].
    + intros Herr cnt'. destruct (_ >? _); [reflexivity | exact Herr].
    + intros pulse cnt' Hin.
      destruct (Z.gtb_spec (wrap32 (cnt' - PreviousRisingCountTimerPeriodCount v))
                  IS_RECEIVER_CHANNEL_INACTIVE_PERIODS_COUNT); [lia | reflexivity].
Qed.

(** When the 16-bit period counter has wrapped since the channel's last
    rising edge, so that it reads less than the count stored then, the
    difference taken in [uint32_t] is huge and the channel is reported
    inactive and marked so, however recent that edge is. *)
Theorem IsReceiverChannelActive_counter_wrapped : forall v cnt,
  uint16 cnt -> uint16 (PreviousRisingCountTimerPeriodCount v) ->
  cnt < PreviousRisingCountTimerPeriodCount v ->
  IS_RECEIVER_CHANNEL_INACTIVE_PERIODS_COUNT < 4294901761 ->
  snd (IsReceiverChannelActive v cnt) = RECEIVER_ERROR
  /\ IsActive (fst (IsReceiverChannelActive v cnt)) = RECEIVER_ERROR.
Proof.
  intros v cnt Hc Hp Hlt Hth. unfold uint16 in Hc, Hp.
  unfold IsReceiverChannelActive. cbv zeta.
  rewrite wrap32_negative by lia.
  destruct (Z.gtb_spec (cnt - PreviousRisingCountTimerPeriodCount v + 4294967296)
              IS_RECEIVER_CHANNEL_INACTIVE_PERIODS_COUNT); [| lia].
  split; reflexivity.
Qed.

(** ** Calibration sampler, over a whole session *)

Lemma buffer_max_attained : forall a,
  a <> [] -> Forall uint16 a ->
  exists j, (j < length a)%nat /\ array_get a j = buffer_max a.
Proof.
  unfold array_get, buffer_max.
  induction a as [| h t IH]; intros Hne Hall; [congruence |].
  inversion Hall as [| ? ? Hh Ht]; subst. unfold uint16 in Hh. simpl.
  destruct t as [| h' t'].
  - exists 0%nat. simpl. split; lia.
  - destruct (IH ltac:(discriminate) Ht) as (j & Hj & Ej).
    destruct (Z_le_gt_dec (fold_right Z.max 0 (h' :: t')) h) as [Hle | Hgt].
    + exists 0%nat. split; [simpl; lia |]. simpl in *. lia.
    + exists (S j). split; [simpl in *; lia |].
      change (nth (S j) (h :: h' :: t') 0) with (nth j (h' :: t') 0).
      rewrite Ej. lia.
Qed.

Lemma buffer_min_attained : forall a,
  a <> [] -> Forall uint16 a ->
  exists j, (j < length a)%nat /\ array_get a j = buffer_min a.
Proof.
  unfold array_get, buffer_min, UINT16_MAX.
  induction a as [| h t IH]; intros Hne Hall; [congruence |].
  inversion Hall as [| ? ? Hh Ht]; subst. unfold uint16 in Hh. simpl.
  destruct t as [| h' t'].
  - exists 0%nat. simpl. split; lia.
  - destruct (IH ltac:(discriminate) Ht) as (j & Hj & Ej).
    destruct (Z_le_gt_dec h (fold_right Z.min 65535 (h' :: t'))) as [Hle | Hgt].
    + exists 0%nat. split; [simpl; lia |]. simpl in *. lia.
    + exists (S j). split; [simpl in *; lia |].
      change (nth (S j) (h :: h' :: t') 0) with (nth j (h' :: t') 0).
      rewrite Ej. lia.
Qed.

(** Replacing a least element by a larger value makes the greatest
    element the larger of the old greatest element and the new value. *)
Lemma buffer_max_replace_min : forall a i v,
  Forall uint16 a -> (i < length a)%nat ->
  array_get a i = buffer_min a -> buffer_min a < v ->
  buffer_max (array_set a i v) = Z.max (buffer_max a) v.
Proof.
  intros a i v Hall Hi Hmin Hv.
  assert (Hne : a <> []) by (destruct a; simpl in Hi; [lia | discriminate]).
  apply Z.le_antisymm.
  - apply buffer_max_array_set; lia.
  - assert (Hnew : v <= buffer_max (array_set a i v)).
    { rewrite <- (array_get_set_same a i v Hi) at 1.
      apply buffer_max_ge_get. rewrite array_set_length. exact Hi. }
    destruct (buffer_max_attained a Hne Hall) as (j & Hj & Ej).
    destruct (Nat.eq_dec i j) as [-> | Hij].
    + lia.
    + assert (buffer_max a <= buffer_max (array_set a i v)).
      { rewrite <- Ej. rewrite <- (array_get_set_other a i j v Hij).
        apply buffer_max_ge_get. rewrite array_set_length. exact Hj. }
      lia.
Qed.

Lemma buffer_min_replace_max : forall a i v,
  Forall uint16 a -> (i < length a)%nat ->
  array_get a i = buffer_max a -> v < buffer_max a ->
  buffer_min (array_set a i v) = Z.min (buffer_min a) v.
Proof.
  intros a i v Hall Hi Hmax Hv.
  assert (Hne : a <> []) by (destruct a; simpl in Hi; [lia | discriminate]).
  apply Z.le_antisymm.
  - assert (Hnew : buffer_min (array_set a i v) <= v).
    { rewrite <- (array_get_set_same a i v Hi) at 2.
      apply buffer_min_le_get. rewrite array_set_length. exact Hi. }
    destruct (buffer_min_attained a Hne Hall) as (j & Hj & Ej).
    destruct (Nat.eq_dec i j) as [-> | Hij].
    + lia.
    + assert (buffer_min (array_set a i v) <= buffer_min a).
      { rewrite <- Ej. rewrite <- (array_get_set_other a i j v Hij).
        apply buffer_min_le_get. rewrite array_set_length. exact Hj. }
      lia.
  - apply buffer_min_array_set; lia.
Qed.

Lemma In_array_set : forall a i v x,
  In x (array_set a i v) -> x = v \/ In x a.
Proof.
  induction a as [| h t IH]; intros [| j] v x Hin; simpl in *; try tauto.
  - destruct Hin as [-> | Hin]; auto.
  - destruct Hin as [-> | Hin]; auto. destruct (IH j v x Hin); auto.
Qed.

Lemma Forall_array_get : forall (P : Z -> Prop) a,
  (forall i, (i < length a)%nat -> P (array_get a i)) -> Forall P a.
Proof.
  intros P a Hall. apply Forall_forall. intros x Hx.
  destruct (In_nth a x 0 Hx) as (n & Hn & En). rewrite <- En. apply Hall. exact Hn.
Qed.

Section SamplerRuns.

Hypothesis buffer_not_empty : (0 < RECEIVER_CALIBRATION_SAMPLES_BUFFER_SIZE)%nat.
Hypothesis init_value_uint16 : uint16 RECEIVER_CALIBRATION_BUFFER_INIT_VALUE.

(** The maximum side with the outcome of the comparison kept. *)
Lemma update_max_samples_exact : forall s pulse,
  max_side_ok s -> uint16 pulse ->
  let a := maxSamplesBuffer s in
  let a' := maxSamplesBuffer (update_max_samples s pulse) in
  (pulse <= buffer_min a /\ a' = a)
  \/ (buffer_min a < pulse
      /\ exists i, (i < length a)%nat /\ array_get a i = buffer_min a
                   /\ a' = array_set a i pulse).
Proof using buffer_not_empty.
  intros s pulse Hok Hpulse a a'.
  set (s1 := if maxBufferUpdated s
             then for_loop RECEIVER_CALIBRATION_SAMPLES_BUFFER_SIZE 0 find_max_buffer_min s
             else s).
  assert (H1 : max_scan_frame s1 = max_scan_frame s /\ max_cache_exact s1).
  { subst s1. destruct (maxBufferUpdated s) eqn:Hflag.
    - apply rescan_max_exact; assumption.
    - split; [reflexivity |].
      destruct Hok as (Hlen & Hall & Hidx & Hcache). rewrite Hflag in Hcache.
      unfold max_cache_exact. destruct Hcache as [Hc1 Hc2].
      repeat split; try assumption. intros Habs. rewrite Hflag in Habs. discriminate. }
  destruct H1 as (Hfr & Hidx1 & Hget1 & Hmin1 & _).
  assert (Hbuf : maxSamplesBuffer s1 = a)
    by (unfold max_scan_frame in Hfr; unfold a; congruence).
  destruct Hok as (Hlen & _).
  assert (Ea' : a' = maxSamplesBuffer (if pulse >? tmpMaxBufferMinValue s1
                                       then with_max_sample s1 pulse else s1))
    by reflexivity.
  rewrite Hbuf in Hget1, Hmin1.
  destruct (Z.gtb_spec pulse (tmpMaxBufferMinValue s1)) as [Hgt | Hle].
  - right. split; [lia |]. exists (tmpMaxIndex s1).
    split; [unfold a; rewrite Hlen; exact Hidx1 |].
    split; [congruence |]. rewrite Ea'. simpl. rewrite Hbuf. reflexivity.
  - left. split; [lia |]. rewrite Ea'. exact Hbuf.
Qed.

Lemma update_min_samples_exact : forall s pulse,
  min_side_ok s -> uint16 pulse ->
  let a := minSamplesBuffer s in
  let a' := minSamplesBuffer (update_min_samples s pulse) in
  (buffer_max a <= pulse /\ a' = a)
  \/ (pulse < buffer_max a
      /\ exists i, (i < length a)%nat /\ array_get a i = buffer_max a
                   /\ a' = array_set a i pulse).
Proof using buffer_not_empty.
  intros s pulse Hok Hpulse a a'.
  set (s1 := if minBufferUpdated s
             then for_loop RECEIVER_CALIBRATION_SAMPLES_BUFFER_SIZE 0 find_min_buffer_max s
             else s).
  assert (H1 : min_scan_frame s1 = min_scan_frame s /\ min_cache_exact s1).
  { subst s1. destruct (minBufferUpdated s) eqn:Hflag.
    - apply rescan_min_exact; assumption.
    - split; [reflexivity |].
      destruct Hok as (Hlen & Hall & Hidx & Hcache). rewrite Hflag in Hcache.
      unfold min_cache_exact. destruct Hcache as [Hc1 Hc2].
      repeat split; try assumption. intros Habs. rewrite Hflag in Habs. discriminate. }
  destruct H1 as (Hfr & Hidx1 & Hget1 & Hmax1 & _).
  assert (Hbuf : minSamplesBuffer s1 = a)
    by (unfold min_scan_frame in Hfr; unfold a; congruence).
  destruct Hok as (Hlen & _).
  assert (Ea' : a' = minSamplesBuffer (if pulse <? tmpMinBufferMaxValue s1
                                       then with_min_sample s1 pulse else s1))
    by reflexivity.
  rewrite Hbuf in Hget1, Hmax1.
  destruct (Z.ltb_spec pulse (tmpMinBufferMaxValue s1)) as [Hlt | Hge].
  - right. split; [lia |]. exists (tmpMinIndex s1).
    split; [unfold a; rewrite Hlen; exact Hidx1 |].
    split; [congruence |]. rewrite Ea'. simpl. rewrite Hbuf. reflexivity.
  - left. split; [lia |]. rewrite Ea'. exact Hbuf.
Qed.

(** One observation, on both buffers at once. *)
Lemma observation_buffers : forall s pulse,
  window_ok s -> uint16 pulse ->
  let s' := fst (UpdateChannelCalibrationSamples s pulse) in
  ((pulse <= buffer_min (maxSamplesBuffer s) /\ maxSamplesBuffer s' = maxSamplesBuffer s)
   \/ (buffer_min (maxSamplesBuffer s) < pulse
       /\ exists i, (i < length (maxSamplesBuffer s))%nat
                    /\ array_get (maxSamplesBuffer s) i = buffer_min (maxSamplesBuffer s)
                    /\ maxSamplesBuffer s' = array_set (maxSamplesBuffer s) i pulse))
  /\ ((buffer_max (minSamplesBuffer s) <= pulse /\ minSamplesBuffer s' = minSamplesBuffer s)
      \/ (pulse < buffer_max (minSamplesBuffer s)
          /\ exists i, (i < length (minSamplesBuffer s))%nat
                       /\ array_get (minSamplesBuffer s) i = buffer_max (minSamplesBuffer s)
                       /\ minSamplesBuffer s' = array_set (minSamplesBuffer s) i pulse)).
Proof.
  intros s pulse [Hmax Hmin] Hpulse s'.
  destruct (update_max_samples_spec buffer_not_empty s pulse Hmax Hpulse)
    as (_ & Hside1 & _ & _).
  assert (Hmin1 : min_side_ok (update_max_samples s pulse))
    by (apply (min_side_ok_ext s); assumption).
  destruct (update_min_samples_spec buffer_not_empty _ pulse Hmin1 Hpulse)
    as (_ & Hside2 & _ & _).
  assert (Emax : maxSamplesBuffer s' = maxSamplesBuffer (update_max_samples s pulse)).
  { subst s'. simpl. unfold max_side in Hside2. congruence. }
  assert (Emin0 : minSamplesBuffer (update_max_samples s pulse) = minSamplesBuffer s).
  { unfold min_side in Hside1. congruence. }
  assert (Emin : minSamplesBuffer s'
                 = minSamplesBuffer (update_min_samples (update_max_samples s pulse) pulse))
    by reflexivity.
  pose proof (update_max_samples_exact s pulse Hmax Hpulse) as Xmax.
  pose proof (update_min_samples_exact _ pulse Hmin1 Hpulse) as Xmin.
  cbv zeta in Xmax, Xmin. rewrite Emin0 in Xmin.
  rewrite Emax, Emin. split; assumption.
Qed.


(** What one observation does to the extremes of the two buffers. *)
Lemma observation_extremes : forall s pulse,
  window_ok s -> uint16 pulse ->
  let s' := fst (UpdateChannelCalibrationSamples s pulse) in
  buffer_max (maxSamplesBuffer s') = Z.max (buffer_max (maxSamplesBuffer s)) pulse
  /\ buffer_min (minSamplesBuffer s') = Z.min (buffer_min (minSamplesBuffer s)) pulse.
Proof.
  intros s pulse Hok Hpulse s'.
  destruct (observation_buffers s pulse Hok Hpulse) as [Xmax Xmin]. fold s' in Xmax, Xmin.
  destruct Hok as [(Lmax & Amax & _) (Lmin & Amin & _)].
  assert (Hmm : buffer_min (maxSamplesBuffer s) <= buffer_max (maxSamplesBuffer s)).
  { transitivity (array_get (maxSamplesBuffer s) 0).
    - apply buffer_min_le_get. lia.
    - apply buffer_max_ge_get. lia. }
  assert (Hmm' : buffer_min (minSamplesBuffer s) <= buffer_max (minSamplesBuffer s)).
  { transitivity (array_get (minSamplesBuffer s) 0).
    - apply buffer_min_le_get. lia.
    - apply buffer_max_ge_get. lia. }
  split.
  - destruct Xmax as [(Hle & E) | (Hgt & i & Hi & Hget & E)]; rewrite E.
    + lia.
    + apply buffer_max_replace_min; assumption.
  - destruct Xmin as [(Hge & E) | (Hlt & i & Hi & Hget & E)]; rewrite E.
    + lia.
    + apply buffer_min_replace_max; assumption.
Qed.

Lemma observe_all_ok : forall pulses s,
  window_ok s -> Forall uint16 pulses -> window_ok (observe_all pulses s).
Proof.
  unfold observe_all.
  induction pulses as [| p rest IH]; intros s Hok Hall; [exact Hok |].
  inversion Hall; subst. simpl. apply IH; [| assumption].
  apply UpdateChannelCalibrationSamples_ok; assumption.
Qed.

Lemma observe_all_extremes_from : forall pulses s,
  window_ok s -> Forall uint16 pulses ->
  buffer_max (maxSamplesBuffer (observe_all pulses s))
  = fold_left Z.max pulses (buffer_max (maxSamplesBuffer s))
  /\ buffer_min (minSamplesBuffer (observe_all pulses s))
     = fold_left Z.min pulses (buffer_min (minSamplesBuffer s)).
Proof.
  unfold observe_all.
  induction pulses as [| p rest IH]; intros s Hok Hall; [split; reflexivity |].
  inversion Hall; subst. simpl.
  destruct (observation_extremes s p Hok ltac:(assumption)) as [Emax Emin].
  rewrite <- Emax, <- Emin. apply IH; [| assumption].
  apply UpdateChannelCalibrationSamples_ok; assumption.
Qed.

(** The extreme pulse widths of a session are never lost: after any
    sequence of observations on freshly reset windows, the greatest
    element of the maximum buffer is the greatest of the initial value and
    all observed widths, and the least element of the minimum buffer is
    the least of the initial value and all observed widths. *)
Theorem observe_all_keeps_extremes : forall pulses s0,
  Forall uint16 pulses ->
  let w := observe_all pulses (ResetCalibrationSampling s0) in
  buffer_max (maxSamplesBuffer w)
  = fold_left Z.max pulses RECEIVER_CALIBRATION_BUFFER_INIT_VALUE
  /\ buffer_min (minSamplesBuffer w)
     = fold_left Z.min pulses RECEIVER_CALIBRATION_BUFFER_INIT_VALUE.
Proof.
  intros pulses s0 Hall w.
  destruct (observe_all_extremes_from pulses (ResetCalibrationSampling s0)
              (ResetCalibrationSampling_ok buffer_not_empty init_value_uint16 s0) Hall)
    as [Emax Emin].
  fold w in Emax, Emin. rewrite Emax, Emin. simpl.
  rewrite (buffer_max_repeat buffer_not_empty _ _ buffer_not_empty init_value_uint16).
  rewrite (buffer_min_repeat buffer_not_empty _ _ buffer_not_empty init_value_uint16).
  split; reflexivity.
Qed.

Lemma session_window_bounds : forall s,
  session_window s ->
  RECEIVER_CALIBRATION_BUFFER_INIT_VALUE <= buffer_min (maxSamplesBuffer s)
  /\ buffer_max (minSamplesBuffer s) <= RECEIVER_CALIBRATION_BUFFER_INIT_VALUE.
Proof.
  induction 1 as [s | s pulse Hs IH Hpulse].
  - simpl.
    rewrite (buffer_max_repeat buffer_not_empty _ _ buffer_not_empty init_value_uint16).
    rewrite (buffer_min_repeat buffer_not_empty _ _ buffer_not_empty init_value_uint16). lia.
  - pose proof (session_window_ok buffer_not_empty init_value_uint16 s Hs) as Hok.
    destruct (observation_buffers s pulse Hok Hpulse) as [Xmax Xmin].
    destruct IH as [IHmax IHmin]. split.
    + destruct Xmax as [(_ & E) | (Hgt & i & _ & _ & E)]; rewrite E; [exact IHmax |].
      apply buffer_min_array_set; lia.
    + destruct Xmin as [(_ & E) | (Hlt & i & _ & _ & E)]; rewrite E; [exact IHmin |].
      apply buffer_max_array_set; lia.
Qed.

(** In every state of a window during a session no slot of the maximum
    buffer holds less than the initial value and no slot of the minimum
    buffer holds more: a slot that no observation has claimed still
    holds the initial value, and a width on the wrong side of it never
    enters the buffer. *)
Theorem session_window_initial_value_bounds : forall s,
  session_window s ->
  Forall (fun x => RECEIVER_CALIBRATION_BUFFER_INIT_VALUE <= x) (maxSamplesBuffer s)
  /\ Forall (fun x => x <= RECEIVER_CALIBRATION_BUFFER_INIT_VALUE) (minSamplesBuffer s).
Proof.
  intros s Hs. destruct (session_window_bounds s Hs) as [Hmax Hmin].
  split; apply Forall_array_get; intros i Hi.
  - pose proof (buffer_min_le_get (maxSamplesBuffer s) i Hi). lia.
  - pose proof (buffer_max_ge_get (minSamplesBuffer s) i Hi). lia.
Qed.

(** The buffers never hold a value that was not put there: after any
    sequence of observations on freshly reset windows every slot of
    either buffer holds the initial value or one of the observed pulse
    widths. *)
Theorem observe_all_holds_observed : forall pulses s0,
  Forall uint16 pulses ->
  let w := observe_all pulses (ResetCalibrationSampling s0) in
  Forall (fun x => x = RECEIVER_CALIBRATION_BUFFER_INIT_VALUE \/ In x pulses)
         (maxSamplesBuffer w)
  /\ Forall (fun x => x = RECEIVER_CALIBRATION_BUFFER_INIT_VALUE \/ In x pulses)
            (minSamplesBuffer w).
Proof.
  intros pulses s0 Hall w.
  assert (Hgen : forall ps s, window_ok s -> Forall uint16 ps ->
            (forall x, In x (maxSamplesBuffer (observe_all ps s)) ->
                       In x (maxSamplesBuffer s) \/ In x ps)
            /\ (forall x, In x (minSamplesBuffer (observe_all ps s)) ->
                          In x (minSamplesBuffer s) \/ In x ps)).
  { unfold observe_all.
    induction ps as [| p rest IH]; intros s Hok Hps; [split; intros x Hx; left; exact Hx |].
    inversion Hps; subst. simpl.
    destruct (IH _ (UpdateChannelCalibrationSamples_ok buffer_not_empty s p Hok
                      ltac:(assumption)) ltac:(assumption)) as [IHmax IHmin].
    destruct (observation_buffers s p Hok ltac:(assumption)) as [Xmax Xmin].
    split; intros x Hx.
    - destruct (IHmax x Hx) as [Hin | Hin]; [| right; right; exact Hin].
      destruct Xmax as [(_ & E) | (_ & i & _ & _ & E)]; rewrite E in Hin;
        [left; exact Hin |].
      destruct (In_array_set _ _ _ _ Hin) as [-> | Hin']; [right; left; reflexivity | left; exact Hin'].
    - destruct (IHmin x Hx) as [Hin | Hin]; [| right; right; exact Hin].
      destruct Xmin as [(_ & E) | (_ & i & _ & _ & E)]; rewrite E in Hin;
        [left; exact Hin |].
      destruct (In_array_set _ _ _ _ Hin) as [-> | Hin']; [right; left; reflexivity | left; exact Hin']. }
  destruct (Hgen pulses (ResetCalibrationSampling s0)
              (ResetCalibrationSampling_ok buffer_not_empty init_value_uint16 s0) Hall)
    as [Gmax Gmin].
  fold w in Gmax, Gmin.
  split; apply Forall_forall; intros x Hx.
  - destruct (Gmax x Hx) as [Hin | Hin]; [left | right; exact Hin].
    simpl in Hin. apply repeat_spec in Hin. exact Hin.
  - destruct (Gmin x Hx) as [Hin | Hin]; [left | right; exact Hin].
    simpl in Hin. apply repeat_spec in Hin. exact Hin.
Qed.

End SamplerRuns.

Lemma update_max_samples_count : forall s pulse,
  channelCalibrationPulseSamples (update_max_samples s pulse)
  = channelCalibrationPulseSamples s.
Proof.
  intros s pulse. unfold update_max_samples.
  assert (Hloop : channelCalibrationPulseSamples
                    (for_loop RECEIVER_CALIBRATION_SAMPLES_BUFFER_SIZE 0
                       find_max_buffer_min s)
                  = channelCalibrationPulseSamples s).
  { apply (for_loop_invariant _
             (fun _ x => channelCalibrationPulseSamples x
                         = channelCalibrationPulseSamples s));
      [reflexivity |].
    intros i x _ Hx. unfold find_max_buffer_min. destruct (_ >? _); exact Hx. }
  destruct (maxBufferUpdated s); cbv zeta; destruct (_ >? _); simpl; auto.
Qed.

Lemma update_min_samples_count : forall s pulse,
  channelCalibrationPulseSamples (update_min_samples s pulse)
  = channelCalibrationPulseSamples s.
Proof.
  intros s pulse. unfold update_min_samples.
  assert (Hloop : channelCalibrationPulseSamples
                    (for_loop RECEIVER_CALIBRATION_SAMPLES_BUFFER_SIZE 0
                       find_min_buffer_max s)
                  = channelCalibrationPulseSamples s).
  { apply (for_loop_invariant _
             (fun _ x => channelCalibrationPulseSamples x
                         = channelCalibrationPulseSamples s));
      [reflexivity |].
    intros i x _ Hx. unfold find_min_buffer_max. destruct (_ <? _); exact Hx. }
  destruct (minBufferUpdated s); cbv zeta; destruct (_ <? _); simpl; auto.
Qed.

(** Every observation is counted, whether or not it entered a buffer, and
    the count is kept in 16 bits: after any sequence of observations the
    sample count of a window is its count before plus the number of
    observations, modulo 65536; counted from a reset it is the number of
    observations modulo 65536, and so back at zero after 65536 of them. *)
Theorem observe_all_counts : forall pulses s,
  uint16 (channelCalibrationPulseSamples s) ->
  channelCalibrationPulseSamples (observe_all pulses s)
  = wrap16 (channelCalibrationPulseSamples s + Z.of_nat (length pulses))
  /\ channelCalibrationPulseSamples (observe_all pulses (ResetCalibrationSampling s))
     = Z.of_nat (length pulses) mod 65536.
Proof.
  assert (Hgen : forall pulses s, uint16 (channelCalibrationPulseSamples s) ->
            channelCalibrationPulseSamples (observe_all pulses s)
            = wrap16 (channelCalibrationPulseSamples s + Z.of_nat (length pulses))).
  { unfold observe_all.
    induction pulses as [| p rest IH]; intros s Hs.
    - simpl. rewrite Z.add_0_r. symmetry. apply wrap16_small. exact Hs.
    - assert (E : channelCalibrationPulseSamples (fst (UpdateChannelCalibrationSamples s p))
                  = wrap16 (channelCalibrationPulseSamples s + 1)).
      { simpl. rewrite update_min_samples_count, update_max_samples_count. reflexivity. }
      cbn [fold_left]. rewrite IH by (rewrite E; apply wrap16_range).
      rewrite E. unfold wrap16. rewrite Z.add_mod_idemp_l by lia. f_equal.
      cbn [length]. lia. }
  intros pulses s Hs. split; [apply Hgen; exact Hs |].
  rewrite Hgen by (simpl; unfold uint16; lia). reflexivity.
Qed.

(** ** Microsecond conversions *)

(** With a timer clock of at least 1 MHz the pulse width in microseconds
    is exact, the tick count times 1000000 divided by the clock rounded
    down, precisely for pulse widths of at most 4294 ticks; from 4295
    ticks on the 32-bit product overflows and the result is too small. *)
Theorem GetReceiverChannelPulseMicros_exact_iff : forall v,
  uint16 (PulseTimerCount v) ->
  1000000 <= RECEIVER_TIM_COUNTER_CLOCK < 4294967296 ->
  (GetReceiverChannelPulseMicros v = PulseTimerCount v * 1000000 / RECEIVER_TIM_COUNTER_CLOCK
   <-> PulseTimerCount v <= 4294)
  /\ GetReceiverChannelPulseMicros v
     <= PulseTimerCount v * 1000000 / RECEIVER_TIM_COUNTER_CLOCK.
Proof.
  intros v Hp Hclk. unfold uint16 in Hp. unfold GetReceiverChannelPulseMicros.
  set (p := PulseTimerCount v) in *. set (clk := RECEIVER_TIM_COUNTER_CLOCK) in *.
  pose proof (wrap32_range (p * 1000000)) as Hr. unfold uint32 in Hr.
  assert (Hq : 0 <= wrap32 (p * 1000000) / clk <= 4294).
  { split; [apply Z.div_pos; lia |].
    assert (wrap32 (p * 1000000) / clk < 4295)
      by (apply Z.div_lt_upper_bound; [lia | nia]).
    lia. }
  rewrite (wrap16_small (wrap32 (p * 1000000) / clk)) by (unfold uint16; lia).
  destruct (Z_le_gt_dec p 4294) as [Hle | Hgt].
  - rewrite (wrap32_small (p * 1000000)) by (unfold uint32; lia).
    split; [split; [intros _; exact Hle | reflexivity] | lia].
  - assert (Hover : wrap32 (p * 1000000) + 4294967296 <= p * 1000000).
    { unfold wrap32.
      pose proof (Z.div_mod (p * 1000000) 4294967296 ltac:(lia)) as Hdm.
      assert (1 <= p * 1000000 / 4294967296) by (apply Z.div_le_lower_bound; lia).
      lia. }
    assert (Hlt : wrap32 (p * 1000000) / clk < p * 1000000 / clk).
    { apply Z.lt_le_trans with ((wrap32 (p * 1000000) + 1 * clk) / clk).
      - rewrite Z.div_add by lia. lia.
      - apply Z.div_le_mono; lia. }
    split; [split; intros Habs; lia | lia].
Qed.

(** With a timer clock of at least 1 MHz and a period of at most 42949
    ticks, for which the 32-bit product cannot overflow, the period in
    microseconds is ten times the period in units of ten microseconds
    rounded down: a multiple of ten, at most the exact value and less
    than ten below it. *)
Theorem GetReceiverChannelPeriodMicros_resolution : forall v,
  0 <= PeriodCount v <= 42949 ->
  1000000 <= RECEIVER_TIM_COUNTER_CLOCK ->
  GetReceiverChannelPeriodMicros v
  = 10 * (PeriodCount v * 100000 / RECEIVER_TIM_COUNTER_CLOCK)
  /\ GetReceiverChannelPeriodMicros v
     <= PeriodCount v * 1000000 / RECEIVER_TIM_COUNTER_CLOCK
     < GetReceiverChannelPeriodMicros v + 10.
Proof.
  intros v Hp Hclk. unfold GetReceiverChannelPeriodMicros.
  set (p := PeriodCount v) in *. set (clk := RECEIVER_TIM_COUNTER_CLOCK) in *.
  rewrite (wrap32_small (p * 100000)) by (unfold uint32; lia).
  assert (Hq : 0 <= p * 100000 / clk <= 4294).
  { split; [apply Z.div_pos; lia |].
    assert (p * 100000 / clk < 4295)
      by (apply Z.div_lt_upper_bound; [lia | nia]).
    lia. }
  rewrite (wrap32_small (p * 100000 / clk * 10)) by (unfold uint32; lia).
  rewrite (wrap16_small (p * 100000 / clk * 10)) by (unfold uint16; lia).
  pose proof (Z.div_mod (p * 100000) clk ltac:(lia)) as Hdm.
  pose proof (Z.mod_pos_bound (p * 100000) clk ltac:(lia)) as Hrem.
  split; [lia |]. split.
  - apply Z.div_le_lower_bound; [lia |]. nia.
  - apply Z.div_lt_upper_bound; [lia |]. nia.
Qed.

(** ** Period counters *)

(** Each period callback advances the counter of its timer by one modulo
    65536 and leaves the other timer's counter alone: after [n] callbacks
    of the primary timer its counter has advanced by [n] modulo 65536, so
    it is back at its value after 65536 of them. *)
Theorem HAL_TIM_PeriodElapsedCallback_counts : forall n st,
  uint16 (PrimaryReceiverTimerPeriodCount st) ->
  let st' := Nat.iter n (HAL_TIM_PeriodElapsedCallback true) st in
  PrimaryReceiverTimerPeriodCount st'
  = (PrimaryReceiverTimerPeriodCount st + Z.of_nat n) mod 65536
  /\ AuxReceiverTimerPeriodCount st' = AuxReceiverTimerPeriodCount st
  /\ ICValues st' = ICValues st.
Proof.
  induction n as [| m IH]; intros st Hst.
  - simpl. rewrite Z.add_0_r. split; [| split; reflexivity].
    symmetry. apply Z.mod_small. exact Hst.
  - destruct (IH st Hst) as (Hp & Ha & Hv).
    cbv zeta. rewrite Nat.iter_succ.
    set (x := Nat.iter m (HAL_TIM_PeriodElapsedCallback true) st) in *.
    unfold HAL_TIM_PeriodElapsedCallback.
    cbn [PrimaryReceiverTimerPeriodCount AuxReceiverTimerPeriodCount ICValues].
    split; [| split; assumption].
    rewrite Hp. unfold wrap16. rewrite Z.add_mod_idemp_l by lia. f_equal. lia.
Qed.

(** ** The period across counter periods, in general *)

(** When the period counter has advanced by [delta] since the previous
    rising edge, with [delta] at most 32767 so that the [int] arithmetic
    of the expression cannot overflow, the candidate period is exactly
    the new capture plus 65535 times [delta] minus the previous capture:
    nothing wraps, and the candidate is [delta] ticks short of the
    distance between the two captures on a counter that wraps every 65536
    ticks. *)
Theorem tempPeriodTimerCount_unwrapped : forall v cnt,
  uint16 (RisingCount v) -> uint16 (PreviousRisingCount v) ->
  let delta := cnt - PreviousRisingCountTimerPeriodCount v in
  1 <= delta <= 32767 ->
  int32 (RisingCount v + UINT16_MAX - PreviousRisingCount v + UINT16_MAX * (delta - 1))
  /\ tempPeriodTimerCount v cnt
     = RisingCount v + 65535 * delta - PreviousRisingCount v
  /\ tempPeriodTimerCount v cnt
     = (RisingCount v + 65536 * delta - PreviousRisingCount v) - delta
  /\ 0 <= tempPeriodTimerCount v cnt.
Proof.
  intros v cnt Hr Hp delta Hd. unfold uint16 in Hr, Hp.
  assert (E : tempPeriodTimerCount v cnt
              = RisingCount v + 65535 * delta - PreviousRisingCount v).
  { unfold tempPeriodTimerCount, UINT16_MAX.
    destruct (Z.gtb_spec cnt (PreviousRisingCountTimerPeriodCount v)); [| lia].
    fold delta. rewrite wrap32_small by (unfold uint32; lia). lia. }
  split; [unfold int32, UINT16_MAX; lia |].
  split; [exact E |]. split; [rewrite E; lia | rewrite E; lia].
Qed.

End ReceiverModule.


(** * The statements on sample data *)

(** C3: with the period counter one period past the previous rising edge,
    a previous capture of 20000 and a new capture of 7265, the decoder
    takes 52800 ticks for the period and stores it, whereas
    [rising_ticks + 65536 - previous_rising_ticks + 65536 * (period_delta - 1)]
    is 52801: each counter period is counted as [UINT16_MAX] = 65535
    ticks. *)
Theorem period_unwrap_counts_65535 :
  let v := with_rising (example_ic 20000 7) 7265 in
  let period_delta := 8 - PreviousRisingCountTimerPeriodCount v in
  period_delta = 1
  /\ tempPeriodTimerCount v 8 = 52800
  /\ RisingCount v + 65536 - PreviousRisingCount v + 65536 * (period_delta - 1) = 52801
  /\ PeriodCount
       (ChannelICValues
          (fst (UpdateReceiverChannel
                  example_BUFFER_SIZE example_MAX_CALIBRATION_DURATION
                  example_MAX_VALID_IC_PULSE_COUNT example_MIN_VALID_IC_PULSE_COUNT
                  example_MAX_VALID_PERIOD_COUNT example_MIN_VALID_PERIOD_COUNT
                  example_low 7265 8 0 0))) = 52800.
Proof. vm_compute. repeat split. Qed.

(** C1 on the default-like bounds 2400 and 4800. *)
Lemma GetSignedReceiverChannel_monotone_exact_witness :
  ChannelMaxCount (mkChannelCalibration 4800 2400)
    > ChannelMinCount (mkChannelCalibration 4800 2400)
  /\ GetSignedReceiverChannel (pulse_only 3000) (mkChannelCalibration 4800 2400)
     <= GetSignedReceiverChannel (pulse_only 4000) (mkChannelCalibration 4800 2400)
  /\ GetSignedReceiverChannel (pulse_only 2400) (mkChannelCalibration 4800 2400) = INT16_MIN
  /\ GetSignedReceiverChannel (pulse_only 4800) (mkChannelCalibration 4800 2400) = INT16_MAX.
Proof.
  assert (Hgt : ChannelMaxCount (mkChannelCalibration 4800 2400)
                > ChannelMinCount (mkChannelCalibration 4800 2400))
    by (simpl; lia).
  destruct (GetSignedReceiverChannel_monotone_exact (mkChannelCalibration 4800 2400))
    as (Hmono & Hlo & Hhi);
    [unfold uint16; simpl; lia | unfold uint16; simpl; lia | exact Hgt |].
  split; [exact Hgt |].
  split; [apply Hmono; simpl; lia |].
  split; [apply Hlo; reflexivity | apply Hhi; reflexivity].
Defined.



(** C10 at the upper bound, where the product is largest. *)
Lemma GetSignedReceiverChannel_no_overflow_witness :
  uint32 ((4800 - 2400) * UINT16_MAX)
  /\ GetSignedReceiverChannel (pulse_only 4800) (mkChannelCalibration 4800 2400)
     = INT16_MIN + ((4800 - 2400) * UINT16_MAX) / (4800 - 2400).
Proof.
  destruct (GetSignedReceiverChannel_no_overflow
              (pulse_only 4800) (mkChannelCalibration 4800 2400))
    as (Hfit & _ & Hvalue);
    [unfold uint16; simpl; lia | unfold uint16; simpl; lia | simpl; lia | simpl; lia |].
  split; [exact Hfit | exact Hvalue].
Defined.

(** C4 with the new capture below the previous one: 7265 after 20000 in
    the same counter period gives 7265 - 20000 modulo 2^32, which is not a
    valid period. *)
Lemma rising_edge_same_period_witness :
  channelInputState example_low = PULSE_LOW
  /\ tempPeriodTimerCount (with_rising (ChannelICValues example_low) 7265) 7
     = 7265 - 20000 + 4294967296
  /\ snd (UpdateReceiverChannel
            example_BUFFER_SIZE example_MAX_CALIBRATION_DURATION
            example_MAX_VALID_IC_PULSE_COUNT example_MIN_VALID_IC_PULSE_COUNT
            example_MAX_VALID_PERIOD_COUNT example_MIN_VALID_PERIOD_COUNT
            example_low 7265 7 0 0) = RECEIVER_ERROR.
Proof.
  destruct (rising_edge_same_period
              example_BUFFER_SIZE example_MAX_CALIBRATION_DURATION
              example_MAX_VALID_IC_PULSE_COUNT example_MIN_VALID_IC_PULSE_COUNT
              example_MAX_VALID_PERIOD_COUNT example_MIN_VALID_PERIOD_COUNT
              example_low 7265 7 0 0)
    as (_ & _ & _ & Hwrap & r' & Hrun & _);
    [reflexivity | unfold uint16; simpl; lia | reflexivity |].
  split; [reflexivity |].
  split; [apply Hwrap; vm_compute; reflexivity |].
  rewrite Hrun. reflexivity.
Defined.

(** C5 on a falling edge 100 ticks after the rising one, too short for a
    pulse, and on a rising edge with an invalid period. *)
Lemma invalid_edge_keeps_last_values_witness :
  (exists r',
     UpdateReceiverChannel
       example_BUFFER_SIZE example_MAX_CALIBRATION_DURATION
       example_MAX_VALID_IC_PULSE_COUNT example_MIN_VALID_IC_PULSE_COUNT
       example_MAX_VALID_PERIOD_COUNT example_MIN_VALID_PERIOD_COUNT
       example_high 1100 7 0 0 = (r', RECEIVER_ERROR)
     /\ PulseTimerCount (ChannelICValues r') = 3600
     /\ channelInputState r' = PULSE_LOW)
  /\ (exists r',
        UpdateReceiverChannel
          example_BUFFER_SIZE example_MAX_CALIBRATION_DURATION
          example_MAX_VALID_IC_PULSE_COUNT example_MIN_VALID_IC_PULSE_COUNT
          example_MAX_VALID_PERIOD_COUNT example_MIN_VALID_PERIOD_COUNT
          example_low 7265 7 0 0 = (r', RECEIVER_ERROR)
        /\ PeriodCount (ChannelICValues r') = 52800).
Proof.
  split.
  - destruct (proj1 (invalid_edge_keeps_last_values
                       example_BUFFER_SIZE example_MAX_CALIBRATION_DURATION
                       example_MAX_VALID_IC_PULSE_COUNT example_MIN_VALID_IC_PULSE_COUNT
                       example_MAX_VALID_PERIOD_COUNT example_MIN_VALID_PERIOD_COUNT
                       example_high 1100 7 0 0))
      as (r' & Hrun & Hpulse & _ & _ & _ & Hstate & _).
    + reflexivity.
    + right. left. vm_compute. reflexivity.
    + exists r'. split; [exact Hrun |]. split; [exact Hpulse | exact Hstate].
  - destruct (proj2 (invalid_edge_keeps_last_values
                       example_BUFFER_SIZE example_MAX_CALIBRATION_DURATION
                       example_MAX_VALID_IC_PULSE_COUNT example_MIN_VALID_IC_PULSE_COUNT
                       example_MAX_VALID_PERIOD_COUNT example_MIN_VALID_PERIOD_COUNT
                       example_low 7265 7 0 0))
      as (r' & Hrun & Hperiod & _).
    + reflexivity.
    + vm_compute. reflexivity.
    + exists r'. split; [exact Hrun | exact Hperiod].
Defined.

(** C6 on the second observation of a session: after 4000 has taken the
    first slot of the maximum buffer, 5000 takes one of the slots still at
    the initial value. *)
Lemma UpdateChannelCalibrationSamples_extrema_witness :
  let s := fst (UpdateChannelCalibrationSamples example_BUFFER_SIZE
                  (ResetCalibrationSampling example_BUFFER_SIZE example_BUFFER_INIT_VALUE
                     example_window) 4000) in
  let s' := fst (UpdateChannelCalibrationSamples example_BUFFER_SIZE s 5000) in
  session_window example_BUFFER_SIZE example_BUFFER_INIT_VALUE s
  /\ maxSamplesBuffer s = [4000; 3600; 3600]
  /\ maxSamplesBuffer s' = [4000; 5000; 3600]
  /\ (forall i, written_slots (maxSamplesBuffer s) (maxSamplesBuffer s') i ->
                5000 > buffer_min (maxSamplesBuffer s))
  /\ buffer_min (maxSamplesBuffer s) <= buffer_min (maxSamplesBuffer s')
  /\ buffer_max (minSamplesBuffer s') <= buffer_max (minSamplesBuffer s).
Proof.
  intros s s'.
  assert (Hs : session_window example_BUFFER_SIZE example_BUFFER_INIT_VALUE s).
  { apply session_sample; [apply session_reset | unfold uint16; lia]. }
  destruct (UpdateChannelCalibrationSamples_extrema
              example_BUFFER_SIZE example_BUFFER_INIT_VALUE
              ltac:(unfold example_BUFFER_SIZE; lia)
              ltac:(unfold uint16, example_BUFFER_INIT_VALUE; lia)
              s 5000 Hs ltac:(unfold uint16; lia))
    as (_ & _ & Honly & _ & Hmin & Hmax & _).
  split; [exact Hs |].
  split; [reflexivity |].
  split; [reflexivity |].
  split; [exact Honly |].
  split; [exact Hmin | exact Hmax].
Defined.

(** C7 right after the start of a calibration, no channel having counted
    a sample. *)
Lemma StopReceiverCalibration_undersampled_witness :
  receiverCalibrationState example_calibrating = RECEIVER_CALIBRATION_IN_PROGRESS
  /\ snd (StopReceiverCalibration
            example_BUFFER_SIZE example_MIN_PULSE_COUNT
            example_MAX_CALIBRATION_MAX_PULSE_COUNT example_MAX_CALIBRATION_MIN_PULSE_COUNT
            example_MIN_CALIBRATION_MAX_PULSE_COUNT example_MIN_CALIBRATION_MIN_PULSE_COUNT
            example_UInt16Mean example_calibrating true None) = RECEIVER_ERROR
  /\ CalibrationValues
       (fst (StopReceiverCalibration
               example_BUFFER_SIZE example_MIN_PULSE_COUNT
               example_MAX_CALIBRATION_MAX_PULSE_COUNT example_MAX_CALIBRATION_MIN_PULSE_COUNT
               example_MIN_CALIBRATION_MAX_PULSE_COUNT example_MIN_CALIBRATION_MIN_PULSE_COUNT
               example_UInt16Mean example_calibrating true None))
     = example_calibration
  /\ receiverCalibrationState
       (fst (StopReceiverCalibration
               example_BUFFER_SIZE example_MIN_PULSE_COUNT
               example_MAX_CALIBRATION_MAX_PULSE_COUNT example_MAX_CALIBRATION_MIN_PULSE_COUNT
               example_MIN_CALIBRATION_MAX_PULSE_COUNT example_MIN_CALIBRATION_MIN_PULSE_COUNT
               example_UInt16Mean example_calibrating true None))
     = RECEIVER_CALIBRATION_WAITING.
Proof.
  destruct (StopReceiverCalibration_undersampled
              example_BUFFER_SIZE example_MIN_PULSE_COUNT
              example_MAX_CALIBRATION_MAX_PULSE_COUNT example_MAX_CALIBRATION_MIN_PULSE_COUNT
              example_MIN_CALIBRATION_MAX_PULSE_COUNT example_MIN_CALIBRATION_MIN_PULSE_COUNT
              example_UInt16Mean example_calibrating true None Rudder)
    as (Hret & Hvalues & _ & Hstate);
    [reflexivity | vm_compute; reflexivity |].
  split; [reflexivity |].
  split; [exact Hret |].
  split; [exact Hvalues | exact Hstate].
Defined.

(** The timeout on the aileron channel: the calibration started at tick 1000, the
    maximum duration is 30000, and a valid pulse of 3600 ticks ends at
    tick 40000. *)
Lemma calibration_times_out_witness :
  40000 - calibrationStartTime example_calibrating > example_MAX_CALIBRATION_DURATION
  /\ (let st1 :=
        fst (UpdateReceiverChannelOf
               example_BUFFER_SIZE example_MAX_CALIBRATION_DURATION
               example_MAX_VALID_IC_PULSE_COUNT example_MIN_VALID_IC_PULSE_COUNT
               example_MAX_VALID_PERIOD_COUNT example_MIN_VALID_PERIOD_COUNT
               Aileron example_calibrating 4600 40000) in
      receiverCalibrationState st1 = RECEIVER_CALIBRATION_WAITING
      /\ CalibrationValues st1 = example_calibration
      /\ CalibrationSampling st1 = all_channels example_window
      /\ StopReceiverCalibration
           example_BUFFER_SIZE example_MIN_PULSE_COUNT
           example_MAX_CALIBRATION_MAX_PULSE_COUNT example_MAX_CALIBRATION_MIN_PULSE_COUNT
           example_MIN_CALIBRATION_MAX_PULSE_COUNT example_MIN_CALIBRATION_MIN_PULSE_COUNT
           example_UInt16Mean st1 true None = (st1, RECEIVER_ERROR)).
Proof.
  assert (Hlate : 40000 - calibrationStartTime example_calibrating
                  > example_MAX_CALIBRATION_DURATION)
    by (vm_compute; reflexivity).
  split; [exact Hlate |].
  destruct (calibration_times_out
              example_BUFFER_SIZE example_MIN_PULSE_COUNT example_MAX_CALIBRATION_DURATION
              example_MAX_VALID_IC_PULSE_COUNT example_MIN_VALID_IC_PULSE_COUNT
              example_MAX_VALID_PERIOD_COUNT example_MIN_VALID_PERIOD_COUNT
              example_MAX_CALIBRATION_MAX_PULSE_COUNT example_MAX_CALIBRATION_MIN_PULSE_COUNT
              example_MIN_CALIBRATION_MAX_PULSE_COUNT example_MIN_CALIBRATION_MIN_PULSE_COUNT
              example_UInt16Mean Aileron example_calibrating 4600 40000 true None)
    as (Hstate & Hvalues & _ & Hwindows & Hstop);
    [reflexivity | reflexivity | vm_compute; reflexivity
     | unfold uint32; simpl; lia | unfold uint32; lia
     | unfold example_MAX_CALIBRATION_DURATION; lia | exact Hlate |].
  split; [exact Hstate |].
  split; [exact Hvalues |].
  split; [exact Hwindows | exact Hstop].
Defined.

(** C8 after a wrap of the tick counter: the calibration started at tick
    4294937295, the maximum duration is 30000, and a valid pulse of 3600
    ticks ends at tick 5, 30006 ticks after the start. The calibration
    stays in progress and the pulse is sampled. *)
Lemma calibration_timeout_missed_after_tick_wrap_witness :
  wrap32 (5 - 4294937295) = 30006
  /\ wrap32 (5 - 4294937295) > example_MAX_CALIBRATION_DURATION
  /\ (let r' :=
        fst (UpdateReceiverChannel
               example_BUFFER_SIZE example_MAX_CALIBRATION_DURATION
               example_MAX_VALID_IC_PULSE_COUNT example_MIN_VALID_IC_PULSE_COUNT
               example_MAX_VALID_PERIOD_COUNT example_MIN_VALID_PERIOD_COUNT
               example_high_calibrating 4600 7 4294937295 5) in
      calibrationState r' = RECEIVER_CALIBRATION_IN_PROGRESS
      /\ channelCalibrationPulseSamples (ChannelCalibrationSampling r') = 1).
Proof.
  assert (Hold : wrap32 (5 - 4294937295) > example_MAX_CALIBRATION_DURATION)
    by (vm_compute; reflexivity).
  split; [reflexivity |]. split; [exact Hold |].
  destruct (calibration_timeout_missed_after_tick_wrap
              example_BUFFER_SIZE example_MAX_CALIBRATION_DURATION
              example_MAX_VALID_IC_PULSE_COUNT example_MIN_VALID_IC_PULSE_COUNT
              example_MAX_VALID_PERIOD_COUNT example_MIN_VALID_PERIOD_COUNT
              example_high_calibrating 4600 7 4294937295 5)
    as [Hstate Hsampled];
    [reflexivity | reflexivity | reflexivity
     | unfold uint32; lia | unfold uint32; lia
     | unfold example_MAX_CALIBRATION_DURATION; lia
     | unfold example_MAX_CALIBRATION_DURATION; lia | lia | exact Hold |].
  split; [exact Hstate |]. rewrite Hsampled. reflexivity.
Defined.

(** C9 with the link lost: the throttle still pulses, the aileron has aged
    out, and the receiver is reported inactive. *)
Lemma IsReceiverActive_three_channel_vote_witness :
  uint16 (PrimaryReceiverTimerPeriodCount example_link_lost)
  /\ snd (IsReceiverChannelActive example_INACTIVE_PERIODS_COUNT
            (chan (ICValues example_link_lost) Throttle)
            (PrimaryReceiverTimerPeriodCount example_link_lost)) = RECEIVER_OK
  /\ PrimaryReceiverTimerPeriodCount example_link_lost
     - PreviousRisingCountTimerPeriodCount (chan (ICValues example_link_lost) Aileron)
     > example_INACTIVE_PERIODS_COUNT
  /\ snd (IsReceiverActive example_INACTIVE_PERIODS_COUNT example_link_lost) = RECEIVER_ERROR.
Proof.
  assert (Hcnt : uint16 (PrimaryReceiverTimerPeriodCount example_link_lost))
    by (unfold uint16; simpl; lia).
  assert (Hrising : forall c, c = Aileron \/ c = Elevator \/ c = Rudder ->
                      uint16 (PreviousRisingCountTimerPeriodCount
                                (chan (ICValues example_link_lost) c))
                      /\ PreviousRisingCountTimerPeriodCount
                           (chan (ICValues example_link_lost) c)
                         <= PrimaryReceiverTimerPeriodCount example_link_lost)
    by (intros c [-> | [-> | ->]]; unfold uint16; simpl; lia).
  assert (Hold : PrimaryReceiverTimerPeriodCount example_link_lost
                 - PreviousRisingCountTimerPeriodCount
                     (chan (ICValues example_link_lost) Aileron)
                 > example_INACTIVE_PERIODS_COUNT)
    by (vm_compute; reflexivity).
  destruct (IsReceiverActive_three_channel_vote
              example_INACTIVE_PERIODS_COUNT example_link_lost Hcnt Hrising)
    as (_ & _ & Haged).
  split; [exact Hcnt |].
  split; [reflexivity |].
  split; [exact Hold |].
  apply (Haged Aileron); [left; reflexivity | exact Hold].
Defined.

(** C9 as it was stated fails on [example_noise]: the last valid pulse of
    each voting channel lies 151 increments of the period counter back,
    more than the threshold of 100, so no voting channel has produced a
    valid pulse within the threshold; yet each has seen a rising edge one
    increment ago and still has its flag set, and [IsReceiverActive]
    returns [RECEIVER_OK]. *)
Lemma IsReceiverActive_stale_pulse :
  let st := fold_left
              (handle example_BUFFER_SIZE example_MAX_CALIBRATION_DURATION
                      example_MAX_VALID_IC_PULSE_COUNT example_MIN_VALID_IC_PULSE_COUNT
                      example_MAX_VALID_PERIOD_COUNT example_MIN_VALID_PERIOD_COUNT)
              example_noise example_idle in
  increments_since_valid_pulse
    example_BUFFER_SIZE example_MAX_CALIBRATION_DURATION
    example_MAX_VALID_IC_PULSE_COUNT example_MIN_VALID_IC_PULSE_COUNT
    example_MAX_VALID_PERIOD_COUNT example_MIN_VALID_PERIOD_COUNT
    Aileron example_noise example_idle None = Some 151
  /\ ~ (snd (IsReceiverActive example_INACTIVE_PERIODS_COUNT st) = RECEIVER_OK
        <-> spec_link_active
              example_BUFFER_SIZE example_MAX_CALIBRATION_DURATION
              example_MAX_VALID_IC_PULSE_COUNT example_MIN_VALID_IC_PULSE_COUNT
              example_MAX_VALID_PERIOD_COUNT example_MIN_VALID_PERIOD_COUNT
              example_INACTIVE_PERIODS_COUNT example_noise example_idle = true).
Proof.
  intros st. split; [vm_compute; reflexivity |].
  intros [Hcode _].
  assert (Hok : snd (IsReceiverActive example_INACTIVE_PERIODS_COUNT st) = RECEIVER_OK)
    by (vm_compute; reflexivity).
  specialize (Hcode Hok). clear Hok. vm_compute in Hcode.
  exact (Bool.diff_false_true Hcode).
Qed.

(** ** The model at work *)

(** Half way between the bounds the normalizer is one below zero, the
    range [-32768, 32767] having no middle. *)
Example GetSignedReceiverChannel_midpoint :
  GetSignedReceiverChannel (pulse_only 3600) (mkChannelCalibration 4800 2400) = -1.
Proof. reflexivity. Qed.

(** Nine observations on fresh three-slot buffers: the maximum buffer ends
    with the three largest pulse widths, the minimum buffer with the three
    smallest, in the slots the rescans picked. *)
Example UpdateChannelCalibrationSamples_trace :
  let s := fold_left
             (fun w pulse => fst (UpdateChannelCalibrationSamples example_BUFFER_SIZE w pulse))
             [4000; 2000; 5000; 4500; 4700; 4600; 2500; 2300; 2100]
             (ResetCalibrationSampling example_BUFFER_SIZE example_BUFFER_INIT_VALUE
                example_window) in
  maxSamplesBuffer s = [4700; 5000; 4600]
  /\ minSamplesBuffer s = [2000; 2100; 2300]
  /\ channelCalibrationPulseSamples s = 9.
Proof. vm_compute. repeat split. Qed.

(** A calibration with enough samples and plausible means is committed:
    the means of the buffers are saved, installed, and the state goes back
    to waiting. *)
Example StopReceiverCalibration_commits :
  let r := StopReceiverCalibration
             example_BUFFER_SIZE example_MIN_PULSE_COUNT
             example_MAX_CALIBRATION_MAX_PULSE_COUNT example_MAX_CALIBRATION_MIN_PULSE_COUNT
             example_MIN_CALIBRATION_MAX_PULSE_COUNT example_MIN_CALIBRATION_MIN_PULSE_COUNT
             example_UInt16Mean example_sampled true (Some example_means) in
  snd r = RECEIVER_OK
  /\ AileronChannel (CalibrationValues (fst r)) = mkChannelCalibration 4700 2500
  /\ FlashCalibrationValues (fst r) = Some (CalibrationValues (fst r))
  /\ receiverCalibrationState (fst r) = RECEIVER_CALIBRATION_WAITING.
Proof. vm_compute. repeat split. Qed.

(** A valid pulse during a calibration that has not timed out reaches the
    sampler. *)
Example UpdateReceiverChannelOf_samples :
  let r := UpdateReceiverChannelOf
             example_BUFFER_SIZE example_MAX_CALIBRATION_DURATION
             example_MAX_VALID_IC_PULSE_COUNT example_MIN_VALID_IC_PULSE_COUNT
             example_MAX_VALID_PERIOD_COUNT example_MIN_VALID_PERIOD_COUNT
             Aileron example_calibrating 5000 2000 in
  snd r = RECEIVER_OK
  /\ PulseTimerCount (ofAileron (ICValues (fst r))) = 4000
  /\ maxSamplesBuffer (ofAileron (CalibrationSampling (fst r))) = [4000; 3600; 3600]
  /\ channelCalibrationPulseSamples (ofAileron (CalibrationSampling (fst r))) = 1
  /\ receiverCalibrationState (fst r) = RECEIVER_CALIBRATION_IN_PROGRESS.
Proof. vm_compute. repeat split. Qed.

(** * The further properties on sample data *)

Local Abbreviation example_IsCalibrationValuesValid :=
  (IsCalibrationValuesValid
     example_MAX_CALIBRATION_MAX_PULSE_COUNT example_MAX_CALIBRATION_MIN_PULSE_COUNT
     example_MIN_CALIBRATION_MAX_PULSE_COUNT example_MIN_CALIBRATION_MIN_PULSE_COUNT).

Local Abbreviation example_UpdateReceiverChannel :=
  (UpdateReceiverChannel
     example_BUFFER_SIZE example_MAX_CALIBRATION_DURATION
     example_MAX_VALID_IC_PULSE_COUNT example_MIN_VALID_IC_PULSE_COUNT
     example_MAX_VALID_PERIOD_COUNT example_MIN_VALID_PERIOD_COUNT).

Local Abbreviation example_StopReceiverCalibration :=
  (StopReceiverCalibration
     example_BUFFER_SIZE example_MIN_PULSE_COUNT
     example_MAX_CALIBRATION_MAX_PULSE_COUNT example_MAX_CALIBRATION_MIN_PULSE_COUNT
     example_MIN_CALIBRATION_MAX_PULSE_COUNT example_MIN_CALIBRATION_MIN_PULSE_COUNT
     example_UInt16Mean).

Local Abbreviation example_StartReceiverCalibration :=
  (StartReceiverCalibration example_BUFFER_SIZE example_BUFFER_INIT_VALUE).

Local Abbreviation example_InitReceiverCalibrationValues :=
  (InitReceiverCalibrationValues
     example_MAX_CALIBRATION_MAX_PULSE_COUNT example_MAX_CALIBRATION_MIN_PULSE_COUNT
     example_MIN_CALIBRATION_MAX_PULSE_COUNT example_MIN_CALIBRATION_MIN_PULSE_COUNT
     example_DEFAULT_MAX_COUNT example_DEFAULT_MIN_COUNT).

Local Abbreviation example_HAL_TIM_IC_CaptureCallback :=
  (HAL_TIM_IC_CaptureCallback
     example_BUFFER_SIZE example_MAX_CALIBRATION_DURATION
     example_MAX_VALID_IC_PULSE_COUNT example_MIN_VALID_IC_PULSE_COUNT
     example_MAX_VALID_PERIOD_COUNT example_MIN_VALID_PERIOD_COUNT
     example_THROTTLE_ACTIVE_CHANNEL example_AILERON_ACTIVE_CHANNEL
     example_ELEVATOR_ACTIVE_CHANNEL example_RUDDER_ACTIVE_CHANNEL
     example_GEAR_ACTIVE_CHANNEL example_AUX1_ACTIVE_CHANNEL).

Local Abbreviation example_receiver_reachable :=
  (receiver_reachable
     example_BUFFER_SIZE example_BUFFER_INIT_VALUE example_MIN_PULSE_COUNT
     example_MAX_CALIBRATION_DURATION
     example_MAX_VALID_IC_PULSE_COUNT example_MIN_VALID_IC_PULSE_COUNT
     example_MAX_VALID_PERIOD_COUNT example_MIN_VALID_PERIOD_COUNT
     example_MAX_CALIBRATION_MAX_PULSE_COUNT example_MAX_CALIBRATION_MIN_PULSE_COUNT
     example_MIN_CALIBRATION_MAX_PULSE_COUNT example_MIN_CALIBRATION_MIN_PULSE_COUNT
     example_INACTIVE_PERIODS_COUNT example_UInt16Mean
     example_DEFAULT_MAX_COUNT example_DEFAULT_MIN_COUNT
     example_THROTTLE_ACTIVE_CHANNEL example_AILERON_ACTIVE_CHANNEL
     example_ELEVATOR_ACTIVE_CHANNEL example_RUDDER_ACTIVE_CHANNEL
     example_GEAR_ACTIVE_CHANNEL example_AUX1_ACTIVE_CHANNEL).

Local Abbreviation example_observe_all := (observe_all example_BUFFER_SIZE).

Local Abbreviation example_reset :=
  (ResetCalibrationSampling example_BUFFER_SIZE example_BUFFER_INIT_VALUE example_window).

Lemma GetSignedReceiverChannel_monotone_everywhere_witness :
  PulseTimerCount (pulse_only 2000) <= PulseTimerCount (pulse_only 60000)
  /\ GetSignedReceiverChannel (pulse_only 2000) (mkChannelCalibration 4800 2400)
     <= GetSignedReceiverChannel (pulse_only 60000) (mkChannelCalibration 4800 2400).
Proof.
  assert (H : PulseTimerCount (pulse_only 2000) <= PulseTimerCount (pulse_only 60000))
    by (simpl; lia).
  split; [exact H |].
  apply GetSignedReceiverChannel_monotone_everywhere;
    [unfold uint16; simpl; lia | unfold uint16; simpl; lia | exact H].
Defined.

Lemma IsCalibrationValuesValid_iff_witness :
  example_IsCalibrationValuesValid example_calibration = RECEIVER_OK
  /\ bounds_in_bands
       example_MAX_CALIBRATION_MAX_PULSE_COUNT example_MAX_CALIBRATION_MIN_PULSE_COUNT
       example_MIN_CALIBRATION_MAX_PULSE_COUNT example_MIN_CALIBRATION_MIN_PULSE_COUNT
       example_calibration.
Proof.
  assert (H : example_IsCalibrationValuesValid example_calibration = RECEIVER_OK)
    by reflexivity.
  split; [exact H |].
  exact (proj1 (IsCalibrationValuesValid_iff _ _ _ _ example_calibration) H).
Defined.

Lemma GetReceiverChannelOf_validated_witness :
  example_IsCalibrationValuesValid (CalibrationValues example_idle) = RECEIVER_OK
  /\ GetReceiverChannelOf Rudder example_idle = interpolate 3600 2400 4800.
Proof.
  assert (H : example_IsCalibrationValuesValid (CalibrationValues example_idle)
              = RECEIVER_OK) by reflexivity.
  split; [exact H |].
  destruct (GetReceiverChannelOf_validated _ _ _ _ Rudder example_idle H)
    as [_ E]; [vm_compute; discriminate | vm_compute; reflexivity
               | vm_compute; reflexivity |].
  rewrite E. reflexivity.
Defined.

Lemma StopReceiverCalibration_commit_witness :
  snd (example_StopReceiverCalibration example_sampled false None) = RECEIVER_OK
  /\ AileronChannel (CalibrationValues
                       (fst (example_StopReceiverCalibration example_sampled false None)))
     = mkChannelCalibration 4700 2500.
Proof.
  assert (Hok : snd (example_StopReceiverCalibration example_sampled false None)
                = RECEIVER_OK)
    by reflexivity.
  destruct (proj2 (StopReceiverCalibration_commit
                     example_BUFFER_SIZE example_MIN_PULSE_COUNT
                     example_MAX_CALIBRATION_MAX_PULSE_COUNT
                     example_MAX_CALIBRATION_MIN_PULSE_COUNT
                     example_MIN_CALIBRATION_MAX_PULSE_COUNT
                     example_MIN_CALIBRATION_MIN_PULSE_COUNT
                     example_UInt16Mean example_sampled false None) Hok)
    as (Hvalues & _).
  split; [exact Hok |]. rewrite Hvalues. reflexivity.
Defined.

Lemma StartReceiverCalibration_then_stop_witness :
  0 < example_MIN_PULSE_COUNT
  /\ receiverCalibrationState example_idle = RECEIVER_CALIBRATION_WAITING
  /\ snd (example_StopReceiverCalibration
            (fst (example_StartReceiverCalibration example_idle 1000)) true None)
     = RECEIVER_ERROR
  /\ CalibrationValues
       (fst (example_StopReceiverCalibration
               (fst (example_StartReceiverCalibration example_idle 1000)) true None))
     = CalibrationValues example_idle.
Proof.
  assert (Hmin : 0 < example_MIN_PULSE_COUNT) by (unfold example_MIN_PULSE_COUNT; lia).
  destruct (StartReceiverCalibration_then_stop
              example_BUFFER_SIZE example_BUFFER_INIT_VALUE example_MIN_PULSE_COUNT
              example_MAX_CALIBRATION_MAX_PULSE_COUNT example_MAX_CALIBRATION_MIN_PULSE_COUNT
              example_MIN_CALIBRATION_MAX_PULSE_COUNT example_MIN_CALIBRATION_MIN_PULSE_COUNT
              example_UInt16Mean example_idle 1000 true None Hmin eq_refl)
    as (_ & Hstop & Hvalues & _).
  split; [exact Hmin |]. split; [reflexivity |]. split; [exact Hstop | exact Hvalues].
Defined.

Lemma StartReceiverCalibration_busy_witness :
  receiverCalibrationState example_idle = RECEIVER_CALIBRATION_WAITING
  /\ example_StartReceiverCalibration
       (fst (example_StartReceiverCalibration example_idle 1000)) 5000
     = (fst (example_StartReceiverCalibration example_idle 1000), RECEIVER_ERROR).
Proof.
  split; [reflexivity |].
  exact (proj2 (proj2 (StartReceiverCalibration_busy
                         example_BUFFER_SIZE example_BUFFER_INIT_VALUE
                         example_idle 1000 5000 eq_refl))).
Defined.

Lemma HAL_TIM_IC_CaptureCallback_frame_witness :
  chan (ICValues (example_HAL_TIM_IC_CaptureCallback
                    AUX_RECEIVER_TIM example_GEAR_ACTIVE_CHANNEL example_idle 2000 50))
       Throttle
  = chan (ICValues example_idle) Throttle
  /\ example_HAL_TIM_IC_CaptureCallback OTHER_TIM 1 example_idle 2000 50 = example_idle.
Proof.
  split.
  - destruct (HAL_TIM_IC_CaptureCallback_frame
                example_BUFFER_SIZE example_MAX_CALIBRATION_DURATION
                example_MAX_VALID_IC_PULSE_COUNT example_MIN_VALID_IC_PULSE_COUNT
                example_MAX_VALID_PERIOD_COUNT example_MIN_VALID_PERIOD_COUNT
                example_THROTTLE_ACTIVE_CHANNEL example_AILERON_ACTIVE_CHANNEL
                example_ELEVATOR_ACTIVE_CHANNEL example_RUDDER_ACTIVE_CHANNEL
                example_GEAR_ACTIVE_CHANNEL example_AUX1_ACTIVE_CHANNEL
                AUX_RECEIVER_TIM example_GEAR_ACTIVE_CHANNEL example_idle 2000 50)
      as (_ & _ & _ & _ & _ & _ & Haux & _).
    destruct (Haux eq_refl) as ((Hthrottle & _) & _). exact Hthrottle.
  - destruct (HAL_TIM_IC_CaptureCallback_frame
                example_BUFFER_SIZE example_MAX_CALIBRATION_DURATION
                example_MAX_VALID_IC_PULSE_COUNT example_MIN_VALID_IC_PULSE_COUNT
                example_MAX_VALID_PERIOD_COUNT example_MIN_VALID_PERIOD_COUNT
                example_THROTTLE_ACTIVE_CHANNEL example_AILERON_ACTIVE_CHANNEL
                example_ELEVATOR_ACTIVE_CHANNEL example_RUDDER_ACTIVE_CHANNEL
                example_GEAR_ACTIVE_CHANNEL example_AUX1_ACTIVE_CHANNEL
                OTHER_TIM 1 example_idle 2000 50)
      as (_ & _ & _ & _ & _ & _ & _ & _ & Hother).
    exact (Hother eq_refl).
Defined.

Lemma InitReceiverCalibrationValues_spec_witness :
  snd (example_InitReceiverCalibrationValues example_idle true example_erased)
  = RECEIVER_ERROR
  /\ forall c,
       calibration_of c
         (CalibrationValues
            (fst (example_InitReceiverCalibrationValues example_idle true example_erased)))
       = mkChannelCalibration example_DEFAULT_MAX_COUNT example_DEFAULT_MIN_COUNT.
Proof.
  assert (Hs : snd (example_InitReceiverCalibrationValues example_idle true example_erased)
               = RECEIVER_ERROR) by reflexivity.
  destruct (InitReceiverCalibrationValues_spec
              example_MAX_CALIBRATION_MAX_PULSE_COUNT example_MAX_CALIBRATION_MIN_PULSE_COUNT
              example_MIN_CALIBRATION_MAX_PULSE_COUNT example_MIN_CALIBRATION_MIN_PULSE_COUNT
              example_DEFAULT_MAX_COUNT example_DEFAULT_MIN_COUNT eq_refl eq_refl
              example_idle true example_erased)
    as (_ & _ & Hdefault & _).
  split; [exact Hs | exact (Hdefault Hs)].
Defined.

Lemma reachable_calibration_valid_witness :
  let st0 := fst (example_InitReceiverCalibrationValues example_idle false example_erased) in
  let st1 := fst (example_StartReceiverCalibration st0 1000) in
  let st2 := example_HAL_TIM_IC_CaptureCallback
               PRIMARY_RECEIVER_TIM example_AILERON_ACTIVE_CHANNEL st1 4600 2000 in
  example_receiver_reachable st2
  /\ example_IsCalibrationValuesValid (CalibrationValues st2) = RECEIVER_OK.
Proof.
  intros st0 st1 st2.
  assert (R : example_receiver_reachable st2).
  { apply reach_step with (st := st1); [| apply step_capture].
    apply reach_step with (st := st0); [| apply step_start].
    apply reach_init. reflexivity. }
  split; [exact R |].
  refine (reachable_calibration_valid _ _ _ _ _ _ _ _ _ _ _ _ _ _ _ _ _ _ _ _ _ _
            _ _ st2 R); reflexivity.
Defined.

Lemma reachable_windows_in_session_witness :
  let st0 := fst (example_InitReceiverCalibrationValues example_idle true
                    example_calibration) in
  let st1 := fst (example_StartReceiverCalibration st0 1000) in
  let st2 := HAL_TIM_PeriodElapsedCallback true st1 in
  example_receiver_reachable st2
  /\ receiverCalibrationState st2 = RECEIVER_CALIBRATION_IN_PROGRESS
  /\ forall c, session_window example_BUFFER_SIZE example_BUFFER_INIT_VALUE
                 (chan (CalibrationSampling st2) c).
Proof.
  intros st0 st1 st2.
  assert (R : example_receiver_reachable st2).
  { apply reach_step with (st := st1); [| apply step_period].
    apply reach_step with (st := st0); [| apply step_start].
    apply reach_init. reflexivity. }
  split; [exact R |]. split; [reflexivity |].
  exact (reachable_windows_in_session _ _ _ _ _ _ _ _ _ _ _ _ _ _ _ _ _ _ _ _ _ _
           st2 R eq_refl).
Defined.

Lemma decode_all_alternates_witness :
  let events := [mkEvent 21000 8 100; mkEvent 24600 8 101; mkEvent 8264 9 122] in
  let r := decode_all example_BUFFER_SIZE example_MAX_CALIBRATION_DURATION
             example_MAX_VALID_IC_PULSE_COUNT example_MIN_VALID_IC_PULSE_COUNT
             example_MAX_VALID_PERIOD_COUNT example_MIN_VALID_PERIOD_COUNT
             0 events example_low in
  channelInputState r = PULSE_HIGH /\ TimIC r = TIM_ICPOLARITY_FALLING.
Proof.
  intros events r.
  destruct (decode_all_alternates
              example_BUFFER_SIZE example_MAX_CALIBRATION_DURATION
              example_MAX_VALID_IC_PULSE_COUNT example_MIN_VALID_IC_PULSE_COUNT
              example_MAX_VALID_PERIOD_COUNT example_MIN_VALID_PERIOD_COUNT
              0 events example_low) as [Hstate Hpolarity].
  assert (Hne : events <> []) by discriminate.
  fold r in Hstate, Hpolarity.
  split; [rewrite Hstate; reflexivity |].
  rewrite (Hpolarity Hne), Hstate. reflexivity.
Defined.

Lemma pulse_measured_across_wrap_witness :
  let r1 := fst (example_UpdateReceiverChannel example_low 64000 8 0 100) in
  let r2 := fst (example_UpdateReceiverChannel r1 2064 9 0 101) in
  channelInputState example_low = PULSE_LOW
  /\ example_MIN_VALID_IC_PULSE_COUNT <= wrap16 (wrap16 2064 - wrap16 64000)
     <= example_MAX_VALID_IC_PULSE_COUNT
  /\ 9 - 8 <= 1
  /\ PulseTimerCount (ChannelICValues r2) = 3600
  /\ IsActive (ChannelICValues r2) = RECEIVER_OK.
Proof.
  intros r1 r2.
  assert (Hwidth : example_MIN_VALID_IC_PULSE_COUNT
                   <= wrap16 (wrap16 2064 - wrap16 64000)
                   <= example_MAX_VALID_IC_PULSE_COUNT)
    by (vm_compute; split; discriminate).
  assert (Hcnt : 9 - 8 <= 1) by lia.
  destruct (pulse_measured_across_wrap
              example_BUFFER_SIZE example_MAX_CALIBRATION_DURATION
              example_MAX_VALID_IC_PULSE_COUNT example_MIN_VALID_IC_PULSE_COUNT
              example_MAX_VALID_PERIOD_COUNT example_MIN_VALID_PERIOD_COUNT
              example_low 64000 2064 8 9 0 100 101 eq_refl Hwidth Hcnt)
    as (_ & Hpulse & Hactive & _).
  split; [reflexivity |]. split; [exact Hwidth |]. split; [exact Hcnt |].
  split; [exact Hpulse | exact Hactive].
Defined.

Lemma calibration_deadline_exclusive_witness :
  calibrationState
    (fst (example_UpdateReceiverChannel example_high_calibrating 4600 7 1000 31000))
  = RECEIVER_CALIBRATION_IN_PROGRESS
  /\ calibrationState
       (fst (example_UpdateReceiverChannel example_high_calibrating 4600 7 1000 31001))
     = RECEIVER_CALIBRATION_WAITING.
Proof.
  assert (Hstart : 0 <= 1000) by lia.
  assert (Hmax : 0 <= example_MAX_CALIBRATION_DURATION)
    by (unfold example_MAX_CALIBRATION_DURATION; lia).
  assert (Hfits : 1000 + example_MAX_CALIBRATION_DURATION < 4294967296)
    by (unfold example_MAX_CALIBRATION_DURATION; lia).
  split.
  - destruct (calibration_deadline_exclusive
                example_BUFFER_SIZE example_MAX_CALIBRATION_DURATION
                example_MAX_VALID_IC_PULSE_COUNT example_MIN_VALID_IC_PULSE_COUNT
                example_MAX_VALID_PERIOD_COUNT example_MIN_VALID_PERIOD_COUNT
                example_high_calibrating 4600 7 1000 31000
                eq_refl eq_refl eq_refl Hstart Hmax Hfits) as [Hearly _].
    apply Hearly. unfold example_MAX_CALIBRATION_DURATION; lia.
  - destruct (calibration_deadline_exclusive
                example_BUFFER_SIZE example_MAX_CALIBRATION_DURATION
                example_MAX_VALID_IC_PULSE_COUNT example_MIN_VALID_IC_PULSE_COUNT
                example_MAX_VALID_PERIOD_COUNT example_MIN_VALID_PERIOD_COUNT
                example_high_calibrating 4600 7 1000 31001
                eq_refl eq_refl eq_refl Hstart Hmax Hfits) as [_ Hlate].
    apply Hlate. unfold example_MAX_CALIBRATION_DURATION; lia.
Defined.

Lemma calibration_deadline_wraps_witness :
  uint32 4294960000 /\ uint32 example_MAX_CALIBRATION_DURATION
  /\ 4294967296 <= 4294960000 + example_MAX_CALIBRATION_DURATION
  /\ 4294960000 <= 4294960001
  /\ calibrationState
       (fst (example_UpdateReceiverChannel example_high_calibrating 4600 7
               4294960000 4294960001))
     = RECEIVER_CALIBRATION_WAITING.
Proof.
  assert (Hstart : uint32 4294960000) by (unfold uint32; lia).
  assert (Hmax : uint32 example_MAX_CALIBRATION_DURATION)
    by (unfold uint32, example_MAX_CALIBRATION_DURATION; lia).
  assert (Hwraps : 4294967296 <= 4294960000 + example_MAX_CALIBRATION_DURATION)
    by (unfold example_MAX_CALIBRATION_DURATION; lia).
  assert (Htick : 4294960000 <= 4294960001) by lia.
  destruct (calibration_deadline_wraps
              example_BUFFER_SIZE example_MAX_CALIBRATION_DURATION
              example_MAX_VALID_IC_PULSE_COUNT example_MIN_VALID_IC_PULSE_COUNT
              example_MAX_VALID_PERIOD_COUNT example_MIN_VALID_PERIOD_COUNT
              example_high_calibrating 4600 7 4294960000 4294960001
              eq_refl eq_refl eq_refl Hstart Hmax Hwraps Htick) as [Hstate _].
  auto.
Defined.

Lemma calibration_outlives_deadline_witness :
  IsReceiverPulseValid
    example_MAX_VALID_IC_PULSE_COUNT example_MIN_VALID_IC_PULSE_COUNT
    (wrap16 (wrap16 1100 - RisingCount (ChannelICValues example_high_calibrating))) 7
    (PreviousRisingCountTimerPeriodCount (ChannelICValues example_high_calibrating))
  = RECEIVER_ERROR
  /\ calibrationState
       (fst (example_UpdateReceiverChannel example_high_calibrating 1100 7 1000 99999))
     = RECEIVER_CALIBRATION_IN_PROGRESS.
Proof.
  assert (Hinvalid :
            IsReceiverPulseValid
              example_MAX_VALID_IC_PULSE_COUNT example_MIN_VALID_IC_PULSE_COUNT
              (wrap16 (wrap16 1100
                       - RisingCount (ChannelICValues example_high_calibrating))) 7
              (PreviousRisingCountTimerPeriodCount
                 (ChannelICValues example_high_calibrating))
            = RECEIVER_ERROR) by reflexivity.
  split; [exact Hinvalid |].
  destruct (calibration_outlives_deadline
              example_BUFFER_SIZE example_MAX_CALIBRATION_DURATION
              example_MAX_VALID_IC_PULSE_COUNT example_MIN_VALID_IC_PULSE_COUNT
              example_MAX_VALID_PERIOD_COUNT example_MIN_VALID_PERIOD_COUNT
              example_high_calibrating 1100 7 1000 99999
              eq_refl (or_intror Hinvalid)) as [Hstate _].
  exact Hstate.
Defined.

Lemma IsReceiverChannelActive_latches_witness :
  snd (IsReceiverChannelActive example_INACTIVE_PERIODS_COUNT (example_ic 1000 7) 200)
  = RECEIVER_ERROR
  /\ snd (IsReceiverChannelActive example_INACTIVE_PERIODS_COUNT
            (fst (IsReceiverChannelActive example_INACTIVE_PERIODS_COUNT
                    (example_ic 1000 7) 200)) 8)
     = RECEIVER_ERROR.
Proof.
  assert (Hout : snd (IsReceiverChannelActive example_INACTIVE_PERIODS_COUNT
                        (example_ic 1000 7) 200) = RECEIVER_ERROR) by reflexivity.
  split; [exact Hout |].
  destruct (IsReceiverChannelActive_latches example_INACTIVE_PERIODS_COUNT
              (example_ic 1000 7) 200) as (_ & Hstays & _).
  exact (Hstays Hout 8).
Defined.

Lemma IsReceiverChannelActive_counter_wrapped_witness :
  uint16 3 /\ uint16 (PreviousRisingCountTimerPeriodCount (example_ic 1000 65530))
  /\ 3 < PreviousRisingCountTimerPeriodCount (example_ic 1000 65530)
  /\ example_INACTIVE_PERIODS_COUNT < 4294901761
  /\ snd (IsReceiverChannelActive example_INACTIVE_PERIODS_COUNT (example_ic 1000 65530) 3)
     = RECEIVER_ERROR.
Proof.
  assert (Hcnt : uint16 3) by (unfold uint16; lia).
  assert (Hprev : uint16 (PreviousRisingCountTimerPeriodCount (example_ic 1000 65530)))
    by (unfold uint16; simpl; lia).
  assert (Hlt : 3 < PreviousRisingCountTimerPeriodCount (example_ic 1000 65530))
    by (simpl; lia).
  assert (Hthreshold : example_INACTIVE_PERIODS_COUNT < 4294901761)
    by (unfold example_INACTIVE_PERIODS_COUNT; lia).
  destruct (IsReceiverChannelActive_counter_wrapped example_INACTIVE_PERIODS_COUNT
              (example_ic 1000 65530) 3 Hcnt Hprev Hlt Hthreshold) as [Hout _].
  auto.
Defined.

Lemma observe_all_keeps_extremes_witness :
  Forall uint16 example_pulses
  /\ buffer_max (maxSamplesBuffer (example_observe_all example_pulses example_reset)) = 4800
  /\ buffer_min (minSamplesBuffer (example_observe_all example_pulses example_reset)) = 2400.
Proof.
  assert (Hpulses : Forall uint16 example_pulses)
    by (repeat constructor; unfold uint16; lia).
  assert (Hsize : (0 < example_BUFFER_SIZE)%nat) by (unfold example_BUFFER_SIZE; lia).
  assert (Hinit : uint16 example_BUFFER_INIT_VALUE)
    by (unfold uint16, example_BUFFER_INIT_VALUE; lia).
  destruct (observe_all_keeps_extremes example_BUFFER_SIZE example_BUFFER_INIT_VALUE
              Hsize Hinit example_pulses example_window Hpulses) as [Hmax Hmin].
  split; [exact Hpulses |].
  split; [rewrite Hmax | rewrite Hmin]; reflexivity.
Defined.

Lemma session_window_initial_value_bounds_witness :
  let s := fst (UpdateChannelCalibrationSamples example_BUFFER_SIZE example_reset 4700) in
  session_window example_BUFFER_SIZE example_BUFFER_INIT_VALUE s
  /\ Forall (fun x => example_BUFFER_INIT_VALUE <= x) (maxSamplesBuffer s)
  /\ Forall (fun x => x <= example_BUFFER_INIT_VALUE) (minSamplesBuffer s).
Proof.
  intros s.
  assert (Hs : session_window example_BUFFER_SIZE example_BUFFER_INIT_VALUE s).
  { apply session_sample; [apply session_reset | unfold uint16; lia]. }
  assert (Hsize : (0 < example_BUFFER_SIZE)%nat) by (unfold example_BUFFER_SIZE; lia).
  assert (Hinit : uint16 example_BUFFER_INIT_VALUE)
    by (unfold uint16, example_BUFFER_INIT_VALUE; lia).
  split; [exact Hs |].
  exact (session_window_initial_value_bounds example_BUFFER_SIZE example_BUFFER_INIT_VALUE
           Hsize Hinit s Hs).
Defined.

Lemma observe_all_holds_observed_witness :
  Forall uint16 example_pulses
  /\ Forall (fun x => x = example_BUFFER_INIT_VALUE \/ In x example_pulses)
            (maxSamplesBuffer (example_observe_all example_pulses example_reset)).
Proof.
  assert (Hpulses : Forall uint16 example_pulses)
    by (repeat constructor; unfold uint16; lia).
  assert (Hsize : (0 < example_BUFFER_SIZE)%nat) by (unfold example_BUFFER_SIZE; lia).
  assert (Hinit : uint16 example_BUFFER_INIT_VALUE)
    by (unfold uint16, example_BUFFER_INIT_VALUE; lia).
  destruct (observe_all_holds_observed example_BUFFER_SIZE example_BUFFER_INIT_VALUE
              Hsize Hinit example_pulses example_window Hpulses) as [Hmax _].
  split; [exact Hpulses | exact Hmax].
Defined.

Lemma observe_all_counts_witness :
  uint16 (channelCalibrationPulseSamples example_sampled_window)
  /\ channelCalibrationPulseSamples
       (example_observe_all [3000; 3100] example_sampled_window) = 122.
Proof.
  assert (Hcount : uint16 (channelCalibrationPulseSamples example_sampled_window))
    by (unfold uint16; simpl; lia).
  destruct (observe_all_counts example_BUFFER_SIZE example_BUFFER_INIT_VALUE
              [3000; 3100] example_sampled_window Hcount) as [Hsum _].
  split; [exact Hcount |]. rewrite Hsum. reflexivity.
Defined.

Lemma GetReceiverChannelPulseMicros_exact_iff_witness :
  uint16 (PulseTimerCount (pulse_only 3600))
  /\ 1000000 <= example_TIM_COUNTER_CLOCK < 4294967296
  /\ GetReceiverChannelPulseMicros example_TIM_COUNTER_CLOCK (pulse_only 3600) = 1500.
Proof.
  assert (Hpulse : uint16 (PulseTimerCount (pulse_only 3600)))
    by (unfold uint16; simpl; lia).
  assert (Hclock : 1000000 <= example_TIM_COUNTER_CLOCK < 4294967296)
    by (unfold example_TIM_COUNTER_CLOCK; lia).
  destruct (GetReceiverChannelPulseMicros_exact_iff example_TIM_COUNTER_CLOCK
              (pulse_only 3600) Hpulse Hclock) as [[_ Hexact] _].
  split; [exact Hpulse |]. split; [exact Hclock |].
  rewrite Hexact; [reflexivity | simpl; lia].
Defined.

Lemma GetReceiverChannelPeriodMicros_resolution_witness :
  0 <= PeriodCount example_short_period <= 42949
  /\ 1000000 <= example_TIM_COUNTER_CLOCK
  /\ GetReceiverChannelPeriodMicros example_TIM_COUNTER_CLOCK example_short_period = 15000.
Proof.
  assert (Hperiod : 0 <= PeriodCount example_short_period <= 42949) by (simpl; lia).
  assert (Hclock : 1000000 <= example_TIM_COUNTER_CLOCK)
    by (unfold example_TIM_COUNTER_CLOCK; lia).
  destruct (GetReceiverChannelPeriodMicros_resolution example_TIM_COUNTER_CLOCK
              example_short_period Hperiod Hclock) as [Hvalue _].
  split; [exact Hperiod |]. split; [exact Hclock |].
  rewrite Hvalue. reflexivity.
Defined.

Lemma HAL_TIM_PeriodElapsedCallback_counts_witness :
  uint16 (PrimaryReceiverTimerPeriodCount example_idle)
  /\ PrimaryReceiverTimerPeriodCount
       (Nat.iter 3 (HAL_TIM_PeriodElapsedCallback true) example_idle) = 10.
Proof.
  assert (Hcount : uint16 (PrimaryReceiverTimerPeriodCount example_idle))
    by (unfold uint16; simpl; lia).
  destruct (HAL_TIM_PeriodElapsedCallback_counts 3 example_idle Hcount) as [Hprimary _].
  split; [exact Hcount |]. rewrite Hprimary. reflexivity.
Defined.

Lemma tempPeriodTimerCount_unwrapped_witness :
  uint16 (RisingCount (example_ic 1000 7))
  /\ uint16 (PreviousRisingCount (example_ic 1000 7))
  /\ 1 <= 9 - PreviousRisingCountTimerPeriodCount (example_ic 1000 7) <= 32767
  /\ tempPeriodTimerCount (example_ic 1000 7) 9 = 132070.
Proof.
  assert (Hrising : uint16 (RisingCount (example_ic 1000 7)))
    by (unfold uint16; simpl; lia).
  assert (Hprevious : uint16 (PreviousRisingCount (example_ic 1000 7)))
    by (unfold uint16; simpl; lia).
  assert (Hdelta : 1 <= 9 - PreviousRisingCountTimerPeriodCount (example_ic 1000 7) <= 32767)
    by (simpl; lia).
  destruct (tempPeriodTimerCount_unwrapped (example_ic 1000 7) 9
              Hrising Hprevious Hdelta) as (_ & Hvalue & _).
  split; [exact Hrising |]. split; [exact Hprevious |]. split; [exact Hdelta |].
  rewrite Hvalue. reflexivity.
Defined.
